(** * DalCo message-processing core: a shallow embedding and its properties

    The development follows two services of the backend:
    - [jamai.service.js]: [generateResponse], [extractEntities],
      [classifyIntent], [detectLanguage], [executeActionChain];
    - [messageProcessor.service.js]: [processMessage],
      [createLeadFromMessage], [calculateLeadScore],
      [batchProcessMessages], [getProcessingStats].
    Around them it follows [translateText] of the first service, the
    handlers that call the second ([POST /process], [GET /stats/overview]),
    two handlers of the leads ([GET /:id], [PUT /:id/status]) and the
    authentication middleware ([authenticateUser], [authorizeRole],
    [optionalAuth]).

    Conventions of the embedding.
    - A JavaScript string is a Rocq [string]; each [ascii] stands for one
      code unit in the range U+0000..U+00FF.  [toLowerCase] and [trim] are
      exact on that range.
    - A JavaScript object used as a record of JSON data is an association
      list; an object used as a counter table is a [gmap string nat].
    - The document store, the AI client, the spreadsheet export and the
      clock are collaborators.  Their answers are read from an [Env] of
      oracles, indexed by the number of calls made so far; every call is
      appended to a trace kept in the [World]. *)

From Stdlib Require Import ZArith QArith Lia Ascii String.
From stdpp Require Import base gmap strings list.

Local Open Scope string_scope.
Local Open Scope list_scope.
#[local] Set Warnings "-register-all".

(** ** JavaScript strings *)

Module JSString.

Definition lower_unit (c : ascii) : ascii :=
  let n := Ascii.N_of_ascii c in
  if ((65 <=? n) && (n <=? 90) ||
      (192 <=? n) && (n <=? 222) && negb (n =? 215))%N
  then Ascii.ascii_of_N (n + 32) else c.

(** [String.prototype.toLowerCase] *)
Fixpoint toLowerCase (s : string) : string :=
  match s with
  | EmptyString => EmptyString
  | String c r => String (lower_unit c) (toLowerCase r)
  end.

(** White space and line terminators removed by [trim]:
    TAB, LF, VT, FF, CR, SP and NBSP. *)
Definition is_space (c : ascii) : bool :=
  let n := Ascii.N_of_ascii c in
  ((9 <=? n) && (n <=? 13) || (n =? 32) || (n =? 160))%N.

Fixpoint trimStart (s : string) : string :=
  match s with
  | EmptyString => EmptyString
  | String c r => if is_space c then trimStart r else s
  end.

Fixpoint trimEnd (s : string) : string :=
  match s with
  | EmptyString => EmptyString
  | String c r =>
      match trimEnd r with
      | EmptyString => if is_space c then EmptyString else String c EmptyString
      | r' => String c r'
      end
  end.

(** [String.prototype.trim] *)
Definition trim (s : string) : string := trimEnd (trimStart s).

Fixpoint startsWith (s w : string) {struct w} : bool :=
  match w, s with
  | EmptyString, _ => true
  | String _ _, EmptyString => false
  | String a w', String b s' => if Ascii.eqb a b then startsWith s' w' else false
  end.

(** [String.prototype.includes] *)
Fixpoint includes (s w : string) : bool :=
  startsWith s w ||
  match s with
  | EmptyString => false
  | String _ r => includes r w
  end.

(** Truthiness of a string: only the empty string is falsy. *)
Definition nonempty (s : string) : bool :=
  match s with EmptyString => false | String _ _ => true end.

(** [Array.prototype.includes] on an array of strings. *)
Definition arrayIncludes (l : list string) (s : string) : bool :=
  existsb (String.eqb s) l.

End JSString.
Import JSString.

(** ** Language detection ([jamai.service.js], [detectLanguage]) *)

Record LangDetection := mkLang { ld_language : string; ld_confidence : Q }.

Definition bmKeywords : list string :=
  ["saya"; "nak"; "untuk"; "dengan"; "boleh"; "ada"; "tak"; "tidak"].

Definition detectLanguage (text : string) : LangDetection :=
  let lowerText := toLowerCase text in
  let bmCount := length (List.filter (fun word => includes lowerText word) bmKeywords) in
  {| ld_language := if (2 <=? bmCount)%nat then "bm" else "en";
     ld_confidence := if (2 <=? bmCount)%nat then 0.8%Q else 0.6%Q |}.

(** What the specification calls a case-insensitive substring match:
    some substring of [t] equals [w] up to letter case. *)
Definition ci_substring (w t : string) : Prop :=
  exists a s b, t = a +:+ s +:+ b /\ toLowerCase s = toLowerCase w.

(** At least two different marker words occur in [t]. *)
Definition two_markers (t : string) : Prop :=
  exists w1 w2, w1 <> w2 /\ In w1 bmKeywords /\ In w2 bmKeywords /\
                ci_substring w1 t /\ ci_substring w2 t.

(** ** JavaScript values and JSON objects *)

(** A number is kept as [m * 10^e], the way its literal is written; it is
    falsy exactly when [m] is zero. *)
Inductive value :=
| VUndefined
| VNull
| VBool (b : bool)
| VNum (m e : Z)
| VStr (s : string)
| VDate (t : Z)
| VArr (l : list value)
| VObj (fields : list (string * value)).

Definition object : Type := list (string * value).

(** Property read [o.k]; a missing property reads as [undefined]. *)
Fixpoint get (o : object) (k : string) : value :=
  match o with
  | [] => VUndefined
  | (k', v) :: r => if String.eqb k k' then v else get r k
  end.

(** Property write [o[k] = v]: overwrite in place, or append a new key. *)
Fixpoint set (o : object) (k : string) (v : value) : object :=
  match o with
  | [] => [(k, v)]
  | (k', v') :: r => if String.eqb k k' then (k, v) :: r else (k', v') :: set r k v
  end.

(** [ToBoolean] *)
Definition truthy (v : value) : bool :=
  match v with
  | VUndefined | VNull => false
  | VBool b => b
  | VNum m _ => negb (m =? 0)%Z
  | VStr s => nonempty s
  | VDate _ | VArr _ | VObj _ => true
  end.

(** [a || b] *)
Definition or_else (a b : value) : value := if truthy a then a else b.

(** The double quote character, for the prompt templates. *)
Definition dq : string := String (Ascii.ascii_of_nat 34) EmptyString.

Definition open_brace : ascii := Ascii.ascii_of_nat 123.
Definition close_brace : ascii := Ascii.ascii_of_nat 125.

(** The regular expression [/\{.*\}/s] of [extractEntities]: the match
    runs from the first opening brace to the last closing brace after it. *)
Fixpoint from_first_open (s : string) : option string :=
  match s with
  | EmptyString => None
  | String c r => if Ascii.eqb c open_brace then Some r else from_first_open r
  end.

Fixpoint upto_last_close (s : string) : option string :=
  match s with
  | EmptyString => None
  | String c r =>
      match upto_last_close r with
      | Some p => Some (String c p)
      | None => if Ascii.eqb c close_brace then Some (String c EmptyString) else None
      end
  end.

Definition match_braces (s : string) : option string :=
  match from_first_open s with
  | Some r => option_map (String open_brace) (upto_last_close r)
  | None => None
  end.
(** ** A reference JSON reader

    [JSON.parse] belongs to the runtime, so the services below take it
    from the environment.  This reader is the instance used in the
    examples: RFC 8259 grammar, a repeated key keeps its last value, and a
    [\u] escape above U+00FF is refused because it leaves the alphabet of
    the embedding.  A number is kept as written, mantissa and decimal
    exponent, and not rounded to a double, except that a literal too small
    for a double is read as zero, as [JSON.parse] reads it. *)

Module JSONRef.

Definition is_ws (c : ascii) : bool :=
  let n := Ascii.N_of_ascii c in ((n =? 32) || (n =? 9) || (n =? 10) || (n =? 13))%N.

Fixpoint skip_ws (s : string) : string :=
  match s with
  | String c r => if is_ws c then skip_ws r else s
  | EmptyString => s
  end.

Definition digit (c : ascii) : option Z :=
  let n := Ascii.N_of_ascii c in
  if ((48 <=? n) && (n <=? 57))%N then Some (Z.of_N n - 48)%Z else None.

Definition hex (c : ascii) : option N :=
  let n := Ascii.N_of_ascii c in
  if ((48 <=? n) && (n <=? 57))%N then Some (n - 48)%N
  else if ((65 <=? n) && (n <=? 70))%N then Some (n - 55)%N
  else if ((97 <=? n) && (n <=? 102))%N then Some (n - 87)%N
  else None.

(** Reads a possibly empty run of digits: accumulated value, number of
    digits read, rest of the input. *)
Fixpoint digits (s : string) (acc : Z) (n : Z) : Z * Z * string :=
  match s with
  | String c r =>
      match digit c with
      | Some d => digits r (10 * acc + d)%Z (n + 1)%Z
      | None => (acc, n, s)
      end
  | EmptyString => (acc, n, s)
  end.

Definition read_int (s : string) : option (Z * string) :=
  match s with
  | String c r =>
      match digit c with
      | Some 0%Z => Some (0%Z, r)
      | Some d => let '(v, _, r') := digits r d 1%Z in Some (v, r')
      | None => None
      end
  | EmptyString => None
  end.

Definition read_frac (m : Z) (s : string) : option (Z * Z * string) :=
  match s with
  | String "." r =>
      let '(v, n, r') := digits r m 0%Z in
      if (n =? 0)%Z then None else Some (v, (- n)%Z, r')
  | _ => Some (m, 0%Z, s)
  end.

Definition read_exp (s : string) : option (Z * string) :=
  let unsigned (sign : Z) (r : string) :=
    let '(v, n, r') := digits r 0%Z 0%Z in
    if (n =? 0)%Z then None else Some ((sign * v)%Z, r') in
  match s with
  | String c r =>
      if Ascii.eqb c "e" || Ascii.eqb c "E" then
        match r with
        | String "+" r' => unsigned 1%Z r'
        | String "-" r' => unsigned (-1)%Z r'
        | _ => unsigned 1%Z r
        end
      else Some (0%Z, s)
  | EmptyString => Some (0%Z, s)
  end.

(** A literal that is not zero and of magnitude at most 2^-1075, half of
    the least positive double, rounds to zero. *)
Definition rounds_to_zero (m e : Z) : bool :=
  negb (m =? 0)%Z && (e <? 0)%Z && (Z.abs m * 2 ^ 1075 <=? 10 ^ (- e))%Z.

Definition read_number (s : string) : option (value * string) :=
  let '(sign, s1) := match s with String "-" r => ((-1)%Z, r) | _ => (1%Z, s) end in
  match read_int s1 with
  | None => None
  | Some (i, s2) =>
      match read_frac i s2 with
      | None => None
      | Some (m, e1, s3) =>
          match read_exp s3 with
          | None => None
          | Some (e2, s4) =>
              if rounds_to_zero (sign * m) (e1 + e2) then Some (VNum 0 0, s4)
              else Some (VNum (sign * m) (e1 + e2), s4)
          end
      end
  end.

Definition read_u (s : string) : option (ascii * string) :=
  match s with
  | String a (String b (String c (String d r))) =>
      match hex a, hex b, hex c, hex d with
      | Some 0%N, Some 0%N, Some h, Some l => Some (Ascii.ascii_of_N (16 * h + l), r)
      | _, _, _, _ => None
      end
  | _ => None
  end.

Definition read_escape (s : string) : option (ascii * string) :=
  match s with
  | String c r =>
      let n := Ascii.N_of_ascii c in
      if (n =? 34)%N || (n =? 92)%N || (n =? 47)%N then Some (c, r)
      else if Ascii.eqb c "b" then Some (Ascii.ascii_of_nat 8, r)
      else if Ascii.eqb c "f" then Some (Ascii.ascii_of_nat 12, r)
      else if Ascii.eqb c "n" then Some (Ascii.ascii_of_nat 10, r)
      else if Ascii.eqb c "r" then Some (Ascii.ascii_of_nat 13, r)
      else if Ascii.eqb c "t" then Some (Ascii.ascii_of_nat 9, r)
      else if Ascii.eqb c "u" then read_u r
      else None
  | EmptyString => None
  end.

(** The characters of a string literal, after its opening quote. *)
Fixpoint read_chars (fuel : nat) (s : string) : option (string * string) :=
  match fuel, s with
  | S f, String c r =>
      let n := Ascii.N_of_ascii c in
      if (n =? 34)%N then Some (EmptyString, r)
      else if (n =? 92)%N then
        match read_escape r with
        | Some (c', r') =>
            match read_chars f r' with
            | Some (t, r'') => Some (String c' t, r'')
            | None => None
            end
        | None => None
        end
      else if (n <? 32)%N then None
      else match read_chars f r with
           | Some (t, r') => Some (String c t, r')
           | None => None
           end
  | _, _ => None
  end.

Definition read_literal (w : string) (v : value) (s : string) : option (value * string) :=
  if startsWith s w then Some (v, String.substring (String.length w) (String.length s) s)
  else None.

Fixpoint read_value (fuel : nat) (s : string) : option (value * string) :=
  match fuel with
  | O => None
  | S f =>
      match skip_ws s with
      | String c r =>
          let n := Ascii.N_of_ascii c in
          if (n =? 123)%N then
            match skip_ws r with
            | String c' r' =>
                if Ascii.eqb c' close_brace then Some (VObj [], r')
                else match read_members f [] (skip_ws r) with
                     | Some (o, r'') => Some (VObj o, r'')
                     | None => None
                     end
            | EmptyString => None
            end
          else if (n =? 91)%N then
            match skip_ws r with
            | String c' r' =>
                if Ascii.eqb c' "]" then Some (VArr [], r')
                else match read_elements f [] (skip_ws r) with
                     | Some (l, r'') => Some (VArr l, r'')
                     | None => None
                     end
            | EmptyString => None
            end
          else if (n =? 34)%N then
            match read_chars (String.length r) r with
            | Some (t, r') => Some (VStr t, r')
            | None => None
            end
          else if Ascii.eqb c "t" then read_literal "true" (VBool true) (String c r)
          else if Ascii.eqb c "f" then read_literal "false" (VBool false) (String c r)
          else if Ascii.eqb c "n" then read_literal "null" VNull (String c r)
          else read_number (String c r)
      | EmptyString => None
      end
  end
with read_members (fuel : nat) (acc : object) (s : string) : option (object * string) :=
  match fuel with
  | O => None
  | S f =>
      match s with
      | String c r =>
          if (Ascii.N_of_ascii c =? 34)%N then
            match read_chars (String.length r) r with
            | Some (k, r1) =>
                match skip_ws r1 with
                | String ":" r2 =>
                    match read_value f r2 with
                    | Some (v, r3) =>
                        match skip_ws r3 with
                        | String "," r4 => read_members f (set acc k v) (skip_ws r4)
                        | String c' r4 =>
                            if Ascii.eqb c' close_brace then Some (set acc k v, r4) else None
                        | EmptyString => None
                        end
                    | None => None
                    end
                | _ => None
                end
            | None => None
            end
          else None
      | EmptyString => None
      end
  end
with read_elements (fuel : nat) (acc : list value) (s : string) : option (list value * string) :=
  match fuel with
  | O => None
  | S f =>
      match read_value f s with
      | Some (v, r) =>
          match skip_ws r with
          | String "," r' => read_elements f (acc ++ [v]) r'
          | String "]" r' => Some (acc ++ [v], r')
          | _ => None
          end
      | None => None
      end
  end.

(** [JSON.parse] restricted to texts that denote an object, which is the
    only way [extractEntities] calls it: the text starts with a brace. *)
Definition parse (text : string) : option object :=
  match read_value (S (String.length text)) text with
  | Some (VObj o, rest) =>
      match skip_ws rest with
      | EmptyString => Some o
      | String _ _ => None
      end
  | _ => None
  end.

End JSONRef.

(** ** Collaborators and effects *)

(** A thrown [Error] is identified with its [message]. *)
Definition error : Type := string.

(** A Firestore document. *)
Definition doc : Type := gmap string value.

(** Rows sent to the AI tables through [client.addTableRows]. *)
Inductive Request :=
| ChatRow (User Context : string)
| ActionRow (Input : string).

(** The columns read back from the first row of a reply. *)
Record Row := mkRow {
  col_ID : option string;
  col_AI : option string;
  col_Step1_Understand : option string;
  col_Step2_Fetch : option string;
  col_Step3_Draft : option string;
  col_Step4_Refine : option string }.

Inductive Level := LInfo | LWarn | LError.

Inductive Event :=
| EvLog (l : Level) (msg : string)
| EvAI (r : Request)
| EvAdd (coll : string) (data : doc)
| EvUpdate (coll id : string) (data : doc)
| EvQuery (coll organizationId : string) (startDate : Z)
| EvSheet (organizationId : string) (data : object).

Inductive Result (A : Type) :=
| Ok (a : A)
| Throw (e : error).
Arguments Ok {A} a.
Arguments Throw {A} e.

(** The oracles.  [ai_reply n r] is the answer to the [n]-th call of the AI
    client ([inl] when it throws, [inr None] when the reply has no first
    row); [store_fault n] and [sheet_fault n] say whether the [n]-th call
    of the store, resp. of the spreadsheet export, is refused; [auto_id n]
    is the identifier the store picks for the [n]-th call when it is an
    [add]; [clock n] is the [n]-th reading of the clock, in milliseconds;
    [tz_offset] is the offset of local time from UTC in milliseconds.
    [JSON_parse] (on texts that start with a brace, [None] when it throws
    a SyntaxError), [JSON_stringify] and [ToString] are the runtime's. *)
Record Env := mkEnv {
  ai_reply : nat -> Request -> error + option Row;
  store_fault : nat -> option error;
  auto_id : nat -> string;
  sheet_fault : nat -> option error;
  clock : nat -> Z;
  tz_offset : Z;
  JSON_parse : string -> option object;
  JSON_stringify : value -> string;
  ToString : value -> string }.

Record World := mkWorld {
  store : gmap string (gmap string doc);
  ai_calls : nat;
  store_calls : nat;
  sheet_calls : nat;
  clock_reads : nat;
  trace : list Event }.

Definition M (A : Type) : Type := Env -> World -> Result A * World.

Definition ret {A} (a : A) : M A := fun _ w => (Ok a, w).

Definition throw {A} (e : error) : M A := fun _ w => (Throw e, w).

Definition bind {A B} (m : M A) (k : A -> M B) : M B :=
  fun env w =>
    match m env w with
    | (Ok a, w') => k a env w'
    | (Throw e, w') => (Throw e, w')
    end.

(** [try { m } catch (e) { h e }] *)
Definition try_catch {A} (m : M A) (h : error -> M A) : M A :=
  fun env w =>
    match m env w with
    | (Ok a, w') => (Ok a, w')
    | (Throw e, w') => h e env w'
    end.

Notation "'let!' x ':=' m 'in' k" := (bind m (fun x => k))
  (at level 10, x name, m at level 100, k at level 200).
Notation "'do!' m 'in' k" := (bind m (fun _ => k))
  (at level 10, m at level 100, k at level 200).

Definition emit (e : Event) (w : World) : World :=
  {| store := store w; ai_calls := ai_calls w; store_calls := store_calls w;
     sheet_calls := sheet_calls w; clock_reads := clock_reads w;
     trace := trace w ++ [e] |}.

Definition collection (w : World) (coll : string) : gmap string doc :=
  default ∅ (store w !! coll).

Definition put_doc (coll id : string) (d : doc) (w : World) : World :=
  {| store := <[coll := <[id := d]> (collection w coll)]> (store w);
     ai_calls := ai_calls w; store_calls := store_calls w;
     sheet_calls := sheet_calls w; clock_reads := clock_reads w;
     trace := trace w |}.

Definition store_called (w : World) : World :=
  {| store := store w; ai_calls := ai_calls w; store_calls := S (store_calls w);
     sheet_calls := sheet_calls w; clock_reads := clock_reads w;
     trace := trace w |}.

Definition ai_called (r : Request) (w : World) : World :=
  {| store := store w; ai_calls := S (ai_calls w); store_calls := store_calls w;
     sheet_calls := sheet_calls w; clock_reads := clock_reads w;
     trace := trace w ++ [EvAI r] |}.

Definition sheet_called (organizationId : string) (data : object) (w : World) : World :=
  {| store := store w; ai_calls := ai_calls w; store_calls := store_calls w;
     sheet_calls := S (sheet_calls w); clock_reads := clock_reads w;
     trace := trace w ++ [EvSheet organizationId data] |}.

Definition clock_read (w : World) : World :=
  {| store := store w; ai_calls := ai_calls w; store_calls := store_calls w;
     sheet_calls := sheet_calls w; clock_reads := S (clock_reads w);
     trace := trace w |}.

Definition log (l : Level) (msg : string) : M unit :=
  fun _ w => (Ok tt, emit (EvLog l msg) w).

(** [new Date()] *)
Definition newDate : M Z :=
  fun env w => (Ok (clock env (clock_reads w)), clock_read w).

(** [this.client.addTableRows(...)], read at [rows[0]]. *)
Definition addTableRows (r : Request) : M (option Row) :=
  fun env w =>
    match ai_reply env (ai_calls w) r with
    | inl e => (Throw e, ai_called r w)
    | inr row => (Ok row, ai_called r w)
    end.

(** [db.collection(coll).add(data)]: the store picks the identifier and
    refuses to overwrite an existing document. *)
Definition db_add (coll : string) (data : doc) : M string :=
  fun env w =>
    let w' := store_called (emit (EvAdd coll data) w) in
    match store_fault env (store_calls w) with
    | Some e => (Throw e, w')
    | None =>
        let id := auto_id env (store_calls w) in
        match collection w coll !! id with
        | Some _ => (Throw "ALREADY_EXISTS", w')
        | None => (Ok id, put_doc coll id data w')
        end
    end.

(** [db.collection(coll).doc(id).update(data)]: the fields of [data]
    replace those of the stored document; a missing document is an error. *)
Definition db_update (coll id : string) (data : doc) : M unit :=
  fun env w =>
    let w' := store_called (emit (EvUpdate coll id data) w) in
    match store_fault env (store_calls w) with
    | Some e => (Throw e, w')
    | None =>
        match collection w coll !! id with
        | Some d => (Ok tt, put_doc coll id (data ∪ d) w')
        | None => (Throw "NOT_FOUND", w')
        end
    end.

(** [sheetsService.writeMessageToSheet(organizationId, data)], the
    spreadsheet export: it either returns or throws. *)
Definition writeMessageToSheet (organizationId : string) (data : object) : M unit :=
  fun env w =>
    match sheet_fault env (sheet_calls w) with
    | Some e => (Throw e, sheet_called organizationId data w)
    | None => (Ok tt, sheet_called organizationId data w)
    end.

(** Reads the environment. *)
Definition ask : M Env := fun env w => (Ok env, w).

(** ** The AI service ([jamai.service.js]) *)

Record GenerateResult := mkGenerate {
  gr_success : bool;
  gr_response : string;
  gr_language : string;
  gr_metadata : option Row }.

Record EntityResult := mkEntities {
  er_success : bool;
  er_entities : object;
  er_originalText : string }.

Record IntentResult := mkIntent {
  ir_success : bool;
  ir_intent : string;
  ir_confidence : Q;
  ir_rawResponse : string }.

Record ActionResult := mkAction {
  ar_success : bool;
  ar_executionId : option string;
  ar_steps : option string * option string * option string * option string;
  ar_finalResponse : option string }.

Definition CHAT_TABLE : string := "dalco_chat".
Definition ACTION_TABLE : string := "dalco_actions".

(** [row?.AI || 'No response generated'] *)
Definition ai_or_default (row : option Row) : string :=
  match row with
  | Some r =>
      match col_AI r with
      | Some a => if nonempty a then a else "No response generated"
      | None => "No response generated"
      end
  | None => "No response generated"
  end.

(** The chat row of [generateResponse]:
    [{User: message, Context: JSON.stringify(context)}]. *)
Definition chat_row (env : Env) (message : string) (context : object) : Request :=
  ChatRow message (JSON_stringify env (VObj context)).

Definition generateResponse (message : string) (language : string) (context : object)
  : M GenerateResult :=
  try_catch
    (let! env := ask in
     let! response := addTableRows (chat_row env message context) in
     ret {| gr_success := true;
            gr_response := ai_or_default response;
            gr_language := language;
            gr_metadata := response |})
    (fun error =>
       do! log LError ("JamAI generate response error: " +:+ error) in
       throw error).

(** [JSON.parse(text)] as a computation that may throw. *)
Definition JSON_parse_or_throw (text : string) : M object :=
  fun env w =>
    match JSON_parse env text with
    | Some o => (Ok o, w)
    | None => (Throw "SyntaxError", w)
    end.

Definition entity_prompt (text : string) : string :=
  "Extract the following entities from this message and return as JSON: name, phone, email, date, time, service_type, intent. Message: "
  +:+ dq +:+ text +:+ dq.

Definition extractEntities (text : string) : M EntityResult :=
  try_catch
    (let prompt := entity_prompt text in
     let! response := generateResponse prompt "en" [] in
     let! entities :=
       try_catch
         (match match_braces (gr_response response) with
          | Some jsonMatch => JSON_parse_or_throw jsonMatch
          | None => ret []
          end)
         (fun parseError =>
            do! log LWarn "Could not parse entities as JSON, using raw response" in
            ret [("raw", VStr (gr_response response))]) in
     ret {| er_success := true; er_entities := entities; er_originalText := text |})
    (fun error =>
       do! log LError ("Entity extraction error: " +:+ error) in
       throw error).

Definition validIntents : list string :=
  ["booking"; "inquiry"; "complaint"; "feedback"; "general"].

Definition intent_prompt (text : string) : string :=
  "Classify the intent of this message into one of: booking, inquiry, complaint, feedback, general. Message: "
  +:+ dq +:+ text +:+ dq +:+ ". Return only the classification.".

Definition classifyIntent (text : string) : M IntentResult :=
  try_catch
    (let prompt := intent_prompt text in
     let! response := generateResponse prompt "en" [] in
     let intent := trim (toLowerCase (gr_response response)) in
     ret {| ir_success := true;
            ir_intent := if arrayIncludes validIntents intent then intent else "general";
            ir_confidence := 0.85%Q;
            ir_rawResponse := gr_response response |})
    (fun error =>
       do! log LError ("Intent classification error: " +:+ error) in
       throw error).

Definition executeActionChain (message : string) (messageType : string) : M ActionResult :=
  try_catch
    (let! result := addTableRows (ActionRow message) in
     ret {| ar_success := true;
            ar_executionId := result ≫= col_ID;
            ar_steps := (result ≫= col_Step1_Understand, result ≫= col_Step2_Fetch,
                         result ≫= col_Step3_Draft, result ≫= col_Step4_Refine);
            ar_finalResponse := result ≫= col_Step4_Refine |})
    (fun error =>
       do! log LError ("Action chain execution error: " +:+ error) in
       throw error).

(** ** Dates (the [Date] operations used by [getProcessingStats])

    Time values are milliseconds since the epoch.  The operations follow
    their definitions in the ECMAScript standard; local time is UTC plus a
    fixed offset, without daylight saving. *)

Module JSDate.
Local Open Scope Z_scope.

Definition msPerDay : Z := 86400000.
Definition Day (t : Z) : Z := t / msPerDay.
Definition TimeWithinDay (t : Z) : Z := t mod msPerDay.

Definition DayFromYear (y : Z) : Z :=
  365 * (y - 1970) + (y - 1969) / 4 - (y - 1901) / 100 + (y - 1601) / 400.

Definition leap (y : Z) : Z :=
  if (y mod 4 =? 0) && (negb (y mod 100 =? 0) || (y mod 400 =? 0)) then 1 else 0.

(** The year whose first day is the last one not after [Day t]. *)
Definition YearFromTime (t : Z) : Z :=
  let d := Day t in
  let y := 1970 + (d * 400) / 146097 in
  if DayFromYear (y + 1) <=? d then y + 1
  else if DayFromYear y <=? d then y
  else y - 1.

Definition InLeapYear (t : Z) : Z := leap (YearFromTime t).
Definition DayWithinYear (t : Z) : Z := Day t - DayFromYear (YearFromTime t).

(** Days of the year before the first day of month [m] (0 = January). *)
Definition daysBefore (m l : Z) : Z :=
  match m with
  | 0 => 0 | 1 => 31 | 2 => 59 + l | 3 => 90 + l | 4 => 120 + l | 5 => 151 + l
  | 6 => 181 + l | 7 => 212 + l | 8 => 243 + l | 9 => 273 + l | 10 => 304 + l
  | _ => 334 + l
  end.

Definition MonthFromTime (t : Z) : Z :=
  let d := DayWithinYear t in
  let l := InLeapYear t in
  if d <? 31 then 0 else if d <? 59 + l then 1 else if d <? 90 + l then 2
  else if d <? 120 + l then 3 else if d <? 151 + l then 4 else if d <? 181 + l then 5
  else if d <? 212 + l then 6 else if d <? 243 + l then 7 else if d <? 273 + l then 8
  else if d <? 304 + l then 9 else if d <? 334 + l then 10 else 11.

Definition DateFromTime (t : Z) : Z :=
  DayWithinYear t - daysBefore (MonthFromTime t) (InLeapYear t) + 1.

Definition MakeDay (year month date : Z) : Z :=
  let ym := year + month / 12 in
  let mn := month mod 12 in
  DayFromYear ym + daysBefore mn (leap ym) + date - 1.

Definition MakeDate (day time : Z) : Z := day * msPerDay + time.

Section Zone.
Variable tz : Z.

Definition LocalTime (t : Z) : Z := t + tz.
Definition UTC (t : Z) : Z := t - tz.

Definition getDate (t : Z) : Z := DateFromTime (LocalTime t).
Definition getMonth (t : Z) : Z := MonthFromTime (LocalTime t).

(** [d.setHours(0, 0, 0, 0)] *)
Definition setHours0 (t : Z) : Z := UTC (MakeDate (Day (LocalTime t)) 0).

(** [d.setDate(dt)] *)
Definition setDate (t dt : Z) : Z :=
  let l := LocalTime t in
  UTC (MakeDate (MakeDay (YearFromTime l) (MonthFromTime l) dt) (TimeWithinDay l)).

(** [d.setMonth(m)] *)
Definition setMonth (t m : Z) : Z :=
  let l := LocalTime t in
  UTC (MakeDate (MakeDay (YearFromTime l) m (DateFromTime l)) (TimeWithinDay l)).

End Zone.

(** The time value of a civil date and time of day, for the examples. *)
Definition civil (y m d h mi : Z) : Z :=
  MakeDate (MakeDay y (m - 1) d) ((h * 60 + mi) * 60000).

End JSDate.

(** ** The message processor ([messageProcessor.service.js]) *)

Record MessageData := mkMessageData {
  md_organizationId : string;
  md_channelType : string;
  md_from : string;
  md_content : string;
  md_messageId : option string;
  md_channelId : option string }.

Record ProcessResult := mkProcessResult {
  pr_success : bool;
  pr_messageId : string;
  pr_language : string;
  pr_intent : string;
  pr_entities : object;
  pr_response : value;
  pr_leadId : value }.

(** An optional string as a value: a missing one is [undefined]. *)
Definition of_option (o : option string) : value :=
  match o with Some s => VStr s | None => VUndefined end.

(** An identifier or [null]. *)
Definition id_or_null (o : option string) : value :=
  match o with Some s => VStr s | None => VNull end.

(** An object literal handed to the store. *)
Definition fields (l : list (string * value)) : doc := list_to_map l.

Definition calculateLeadScore (entities : object) : Z :=
  let score := 50%Z in
  let score := if truthy (get entities "name") then (score + 10)%Z else score in
  let score := if truthy (get entities "phone") then (score + 15)%Z else score in
  let score := if truthy (get entities "email") then (score + 15)%Z else score in
  let score := if truthy (get entities "date") then (score + 10)%Z else score in
  let score := if truthy (get entities "time") then (score + 10)%Z else score in
  let score := if truthy (get entities "service_type") then (score + 10)%Z else score in
  Z.min score 100.

(** The object literal [leadData] of [createLeadFromMessage]. *)
Definition leadData (env : Env)
  (organizationId messageId : string) (entities : object) (phone : string)
  (createdAt updatedAt : Z) : doc :=
  fields
       [("organizationId", VStr organizationId);
        ("sourceMessageId", VStr messageId);
        ("customerName", or_else (get entities "name") (VStr "Unknown"));
        ("phone", or_else (get entities "phone") (VStr phone));
        ("email", or_else (get entities "email") VNull);
        ("serviceType", or_else (get entities "service_type") VNull);
        ("preferredDate", or_else (get entities "date") VNull);
        ("preferredTime", or_else (get entities "time") VNull);
        ("status", VStr "new");
        ("score", VNum (calculateLeadScore entities) 0);
        ("notes", VStr ("Auto-created from message. Intent: "
                        +:+ ToString env (or_else (get entities "intent") (VStr "unknown"))));
        ("createdAt", VDate createdAt);
        ("updatedAt", VDate updatedAt)].

Definition createLeadFromMessage
  (organizationId messageId : string) (entities : object) (phone : string)
  : M (option string) :=
  try_catch
    (let! env := ask in
     let! createdAt := newDate in
     let! updatedAt := newDate in
     let! leadRef :=
       db_add "leads"
         (leadData env organizationId messageId entities phone createdAt updatedAt) in
     do! log LInfo ("Lead created: " +:+ leadRef) in
     ret (Some leadRef))
    (fun error =>
       do! log LError ("Lead creation error: " +:+ error) in
       ret None).

(** The object literals [processMessage] hands to the store: the new
    message, the final update, and the update of the recovery branch. *)
Definition newMessage (messageData : MessageData) (language intent : string)
  (entities : object) (createdAt updatedAt : Z) : doc :=
  fields
       [("organizationId", VStr (md_organizationId messageData));
        ("channelType", VStr (md_channelType messageData));
        ("channelId", or_else (of_option (md_channelId messageData)) VNull);
        ("direction", VStr "inbound");
        ("from", VStr (md_from messageData));
        ("content", VStr (md_content messageData));
        ("externalMessageId", of_option (md_messageId messageData));
        ("language", VStr language);
        ("intent", VStr intent);
        ("entities", VObj entities);
        ("processingStatus", VStr "processing");
        ("createdAt", VDate createdAt);
        ("updatedAt", VDate updatedAt)].

Definition completedUpdate (aiResponse leadId : value) (processedAt updatedAt : Z) : doc :=
  fields
       [("processingStatus", VStr "completed");
        ("aiResponse", aiResponse);
        ("leadId", leadId);
        ("processedAt", VDate processedAt);
        ("updatedAt", VDate updatedAt)].

Definition failedUpdate (error : string) (updatedAt : Z) : doc :=
  fields
       [("processingStatus", VStr "failed");
        ("error", VStr error);
        ("updatedAt", VDate updatedAt)].

(** The [try] block of [processMessage]. *)
Definition pipeline (messageData : MessageData) : M ProcessResult :=
  let organizationId := md_organizationId messageData in
  let channelType := md_channelType messageData in
  let from := md_from messageData in
  let content := md_content messageData in
  do! log LInfo ("Processing message from " +:+ from +:+ " via " +:+ channelType) in
  (* Step 1: detect language *)
  let langDetection := detectLanguage content in
  (* Step 2: classify intent *)
  let! intentResult := classifyIntent content in
  (* Step 3: extract entities *)
  let! entityResult := extractEntities content in
  (* Step 4: save the message *)
  let! createdAt := newDate in
  let! updatedAt := newDate in
  let! messageRef :=
    db_add "messages"
      (newMessage messageData (ld_language langDetection) (ir_intent intentResult)
         (er_entities entityResult) createdAt updatedAt) in
  (* Step 5: the reply *)
  let! aiResponse :=
    if arrayIncludes ["booking"; "inquiry"] (ir_intent intentResult) then
      let! actionResult := executeActionChain content (ir_intent intentResult) in
      ret (of_option (ar_finalResponse actionResult))
    else
      let! responseResult :=
        generateResponse content (ld_language langDetection)
          [("intent", VStr (ir_intent intentResult))] in
      ret (VStr (gr_response responseResult)) in
  (* Step 6: the lead *)
  let! leadId :=
    if String.eqb (ir_intent intentResult) "booking"
       || String.eqb (ir_intent intentResult) "inquiry" then
      let! l := createLeadFromMessage organizationId messageRef
                  (er_entities entityResult) from in
      ret (id_or_null l)
    else ret VNull in
  (* Step 7: the spreadsheet row *)
  do! try_catch
        (let! timestamp := newDate in
         writeMessageToSheet organizationId
           [("timestamp", VDate timestamp);
            ("from", VStr from);
            ("channel", VStr channelType);
            ("message", VStr content);
            ("intent", VStr (ir_intent intentResult));
            ("entities", VObj (er_entities entityResult));
            ("response", aiResponse)])
        (fun sheetError => log LWarn ("Google Sheets write failed: " +:+ sheetError)) in
  (* Step 8: final status *)
  let! processedAt := newDate in
  let! updatedAt' := newDate in
  do! db_update "messages" messageRef
        (completedUpdate aiResponse leadId processedAt updatedAt') in
  ret {| pr_success := true;
         pr_messageId := messageRef;
         pr_language := ld_language langDetection;
         pr_intent := ir_intent intentResult;
         pr_entities := er_entities entityResult;
         pr_response := aiResponse;
         pr_leadId := leadId |}.

(** The [catch (error)] block of [processMessage]. *)
Definition recovery (messageData : MessageData) (error : error) : M ProcessResult :=
  do! log LError ("Message processing error: " +:+ error) in
  do! (if truthy (of_option (md_messageId messageData)) then
         try_catch
           (let! updatedAt := newDate in
            db_update "messages" (default EmptyString (md_messageId messageData))
              (failedUpdate error updatedAt))
           (fun updateError =>
              log LError ("Failed to update message status: " +:+ updateError))
       else ret tt) in
  throw error.

Definition processMessage (messageData : MessageData) : M ProcessResult :=
  try_catch (pipeline messageData) (recovery messageData).

(** One entry of the batch results: [{success: true, ...result}] or
    [{success: false, error, messageId}]. *)
Inductive BatchItem :=
| ItemDone (result : ProcessResult)
| ItemFailed (error : string) (messageId : option string).

Definition item_success (r : BatchItem) : bool :=
  match r with
  | ItemDone _ => true
  | ItemFailed _ _ => false
  end.

Record BatchSummary := mkBatch {
  bs_success : bool;
  bs_total : nat;
  bs_processed : nat;
  bs_failed : nat;
  bs_results : list BatchItem }.

(** The [for (const message of messages)] loop, [results] being the array
    filled so far. *)
Fixpoint batch_loop (messages : list MessageData) (results : list BatchItem)
  : M (list BatchItem) :=
  match messages with
  | [] => ret results
  | message :: rest =>
      let! results' :=
        try_catch
          (let! result := processMessage message in
           ret (results ++ [ItemDone result]))
          (fun error =>
             ret (results ++ [ItemFailed error (md_messageId message)])) in
      batch_loop rest results'
  end.

Definition batchProcessMessages (messages : list MessageData) : M BatchSummary :=
  let! results := batch_loop messages [] in
  ret {| bs_success := true;
         bs_total := length messages;
         bs_processed := length (List.filter (fun r => item_success r) results);
         bs_failed := length (List.filter (fun r => negb (item_success r)) results);
         bs_results := results |}.

(** *** Statistics *)

(** An entry of a counter table: a number, or the string that [+ 1] makes
    of a function of [Object.prototype], with a [1] more at every further
    count. *)
Inductive Cell :=
| Count (n : nat)
| Text (s : string).

Record Stats := mkStats {
  st_total : nat;
  st_byStatus : gmap string Cell;
  st_byIntent : gmap string Cell;
  st_byLanguage : gmap string Cell;
  st_byChannel : gmap string Cell;
  st_averageProcessingTime : Z }.

Record StatsResult := mkStatsResult {
  sr_success : bool;
  sr_period : string;
  sr_stats : Stats }.

(** A field of a stored document, [undefined] when missing. *)
Definition field (d : doc) (k : string) : value := default VUndefined (d !! k).

(** The property key a value is turned into when it indexes an object. *)
Definition key_of (env : Env) (v : value) : string :=
  match v with
  | VStr s => s
  | _ => ToString env v
  end.

(** The tables are plain objects, [{}]: a key they do not hold themselves
    is read from [Object.prototype].  [inherited_function k] is the name
    of the function found there, if any: [Object] for [constructor], and
    their own name for the others.  The remaining property of the
    prototype, [__proto__], is an accessor. *)
Definition inherited_function (k : string) : option string :=
  if String.eqb k "constructor" then Some "Object"
  else if arrayIncludes
            ["__defineGetter__"; "__defineSetter__"; "hasOwnProperty"; "__lookupGetter__";
             "__lookupSetter__"; "isPrototypeOf"; "propertyIsEnumerable"; "toString";
             "valueOf"; "toLocaleString"] k
  then Some k
  else None.

(** The string a built-in function is converted to, as Node prints it. *)
Definition native_code (name : string) : string :=
  "function " +:+ name +:+ "() { [native code] }".

(** [table[k] = (table[k] || 0) + 1].  Reading [__proto__] gives the
    prototype, and assigning the resulting string to it is ignored.  A key
    the table holds is read from the table: a number is incremented, a
    string (truthy unless empty) gets a [1] appended.  A key it does not
    hold reads as the inherited function, which [+ 1] turns into a string,
    or as [undefined], and then the count starts at 1. *)
Definition bump (k : string) (table : gmap string Cell) : gmap string Cell :=
  if String.eqb k "__proto__" then table
  else
    match table !! k with
    | Some (Count n) => <[k := Count (n + 1)]> table
    | Some (Text s) => <[k := if nonempty s then Text (s +:+ "1") else Count 1]> table
    | None =>
        match inherited_function k with
        | Some f => <[k := Text (native_code f +:+ "1")]> table
        | None => <[k := Count 1]> table
        end
    end.

(** The body of [messages.forEach]. *)
Definition count_message (env : Env) (stats : Stats) (msg : doc) : Stats :=
  {| st_total := st_total stats;
     st_byStatus := bump (key_of env (field msg "processingStatus")) (st_byStatus stats);
     st_byIntent :=
       if truthy (field msg "intent")
       then bump (key_of env (field msg "intent")) (st_byIntent stats)
       else st_byIntent stats;
     st_byLanguage :=
       if truthy (field msg "language")
       then bump (key_of env (field msg "language")) (st_byLanguage stats)
       else st_byLanguage stats;
     st_byChannel := bump (key_of env (field msg "channelType")) (st_byChannel stats);
     st_averageProcessingTime := st_averageProcessingTime stats |}.

(** The filters of the query:
    [organizationId == org] and [createdAt >= startDate]. *)
Definition in_range (organizationId : string) (startDate : Z) (d : doc) : bool :=
  match d !! "organizationId", d !! "createdAt" with
  | Some (VStr o), Some (VDate t) => String.eqb o organizationId && (startDate <=? t)%Z
  | _, _ => false
  end.

(** The documents the query returns in a given world. *)
Definition messages_in_range (w : World) (organizationId : string) (startDate : Z)
  : list doc :=
  List.filter (in_range organizationId startDate)
    (snd <$> map_to_list (collection w "messages")).

Definition db_query_messages (organizationId : string) (startDate : Z) : M (list doc) :=
  fun env w =>
    let w' := store_called (emit (EvQuery "messages" organizationId startDate) w) in
    match store_fault env (store_calls w) with
    | Some e => (Throw e, w')
    | None => (Ok (messages_in_range w organizationId startDate), w')
    end.

(** The [switch (period)] of [getProcessingStats]; [now] and [startDate]
    are the two dates the function creates, in that order. *)
Definition start_of_period (tz : Z) (period : string) (now startDate : Z) : Z :=
  if String.eqb period "today" then JSDate.setHours0 tz startDate
  else if String.eqb period "week" then
    JSDate.setDate tz startDate (JSDate.getDate tz now - 7)
  else if String.eqb period "month" then
    JSDate.setMonth tz startDate (JSDate.getMonth tz now - 1)
  else JSDate.setDate tz startDate (JSDate.getDate tz now - 7).

Definition getProcessingStats (organizationId : string) (period_arg : option string)
  : M StatsResult :=
  let period := default "week" period_arg in
  try_catch
    (let! env := ask in
     let! now := newDate in
     let! startDate := newDate in
     let startDate := start_of_period (tz_offset env) period now startDate in
     let! messages := db_query_messages organizationId startDate in
     let stats :=
       {| st_total := length messages;
          st_byStatus := ∅; st_byIntent := ∅; st_byLanguage := ∅; st_byChannel := ∅;
          st_averageProcessingTime := 0 |} in
     let stats := fold_left (count_message env) messages stats in
     ret {| sr_success := true; sr_period := period; sr_stats := stats |})
    (fun error =>
       do! log LError ("Stats calculation error: " +:+ error) in
       throw error).

(** ** A concrete environment for the examples *)

Module Example.

Fixpoint digits_of (fuel : nat) (n : N) (acc : string) : string :=
  match fuel with
  | O => acc
  | S f =>
      let acc' := String (Ascii.ascii_of_N (48 + n mod 10)) acc in
      if (n / 10 =? 0)%N then acc' else digits_of f (n / 10)%N acc'
  end.

Definition decimal (n : nat) : string := digits_of (S n) (N.of_nat n) EmptyString.

(** [ToString] on the values the examples meet. *)
Definition toString (v : value) : string :=
  match v with
  | VStr s => s
  | VUndefined => "undefined"
  | VNull => "null"
  | VBool true => "true"
  | VBool false => "false"
  | VNum m 0 => (if (m <? 0)%Z then "-" else EmptyString) +:+ decimal (Z.abs_nat m)
  | _ => "[object Object]"
  end.

(** [JSON.stringify] on objects whose values are plain strings that need
    no escape, which is all [generateResponse] is given. *)
Fixpoint members (o : object) : string :=
  match o with
  | [] => EmptyString
  | (k, v) :: r =>
      dq +:+ k +:+ dq +:+ ":" +:+ dq +:+ toString v +:+ dq
      +:+ match r with [] => EmptyString | _ :: _ => "," +:+ members r end
  end.

Definition stringify (v : value) : string :=
  match v with
  | VObj o => "{" +:+ members o +:+ "}"
  | _ => toString v
  end.

Definition reply (text : string) : error + option Row :=
  inr (Some {| col_ID := Some "row"; col_AI := Some text;
               col_Step1_Understand := None; col_Step2_Fetch := None;
               col_Step3_Draft := None; col_Step4_Refine := Some text |}).

(** The AI answers from a script; the store and the export fail where
    their scripts say so; identifiers are [doc0], [doc1], ...; the clock
    advances by one millisecond per reading from 15 March 2025, 10:30 UTC;
    local time is UTC+8. *)
Definition env
  (ai : list (error + option Row)) (store_faults sheet_faults : list (option error))
  : Env :=
  {| ai_reply := fun n _ => nth n ai (inr None);
     store_fault := fun n => nth n store_faults None;
     auto_id := fun n => "doc" +:+ decimal n;
     sheet_fault := fun n => nth n sheet_faults None;
     clock := fun n => (JSDate.civil 2025 3 15 10 30 + Z.of_nat n)%Z;
     tz_offset := 28800000;
     JSON_parse := JSONRef.parse;
     JSON_stringify := stringify;
     ToString := toString |}.

Definition empty_world : World :=
  {| store := ∅; ai_calls := 0; store_calls := 0; sheet_calls := 0;
     clock_reads := 0; trace := [] |}.

Definition message (messageId : option string) : MessageData :=
  {| md_organizationId := "org1"; md_channelType := "whatsapp";
     md_from := "+60123456789";
     md_content := "Saya nak buat appointment Jumaat 2pm";
     md_messageId := messageId; md_channelId := None |}.

(** A stored message, and a store with three messages of [org1] created
    on 15 March 2025 local time, one created the day before, and one of
    another organization. *)
Definition stored (organizationId status : string) (createdAt : Z) : doc :=
  fields [("organizationId", VStr organizationId);
          ("channelType", VStr "whatsapp");
          ("language", VStr "bm");
          ("intent", VStr "booking");
          ("processingStatus", VStr status);
          ("createdAt", VDate createdAt)].

Definition stats_world : World :=
  {| store :=
       {[ "messages" :=
            <["a" := stored "org1" "completed" (JSDate.civil 2025 3 15 1 0)]>
           (<["b" := stored "org1" "failed" (JSDate.civil 2025 3 15 2 0)]>
           (<["c" := stored "org1" "completed" (JSDate.civil 2025 3 15 9 0)]>
           (<["d" := stored "org1" "completed" (JSDate.civil 2025 3 14 9 0)]>
           (<["e" := stored "org2" "failed" (JSDate.civil 2025 3 15 9 0)]> ∅)))) ]};
     ai_calls := 0; store_calls := 0; sheet_calls := 0; clock_reads := 0;
     trace := [] |}.

End Example.

(** ** Vocabulary of the specification *)

(** A field is present in an entity record when reading it gives a truthy
    value: a missing key, [null] and the empty string are all absent. *)
Definition present (entities : object) (k : string) : bool :=
  truthy (get entities k).

(** The points a field adds to the score. *)
Definition points (b : bool) (n : Z) : Z := if b then n else 0%Z.

(** The six fields that count for the score. *)
Definition scored_fields : list string :=
  ["name"; "phone"; "email"; "date"; "time"; "service_type"].

(** The events that write a document of the [messages] collection. *)
Definition is_message_write (e : Event) : bool :=
  match e with
  | EvAdd coll _ => String.eqb coll "messages"
  | EvUpdate coll _ _ => String.eqb coll "messages"
  | _ => false
  end.

Definition message_writes (tr : list Event) : list Event :=
  List.filter is_message_write tr.

(** [c] occurs in [s]. *)
Fixpoint has_char (c : ascii) (s : string) : bool :=
  match s with
  | EmptyString => false
  | String d r => Ascii.eqb d c || has_char c r
  end.

(** The span the regular expression of [extractEntities] selects in [s]:
    [s] is [a{b}c] with no opening brace in [a] and no closing brace in
    [c], and the span is [{b}]. *)
Definition brace_span (s m : string) : Prop :=
  exists a b c,
    s = a +:+ String open_brace (b +:+ String close_brace c) /\
    m = String open_brace (b +:+ String close_brace EmptyString) /\
    has_char open_brace a = false /\ has_char close_brace c = false.

(** The trace of [w'] extends that of [w], and the events added write the
    messages [ws], in that order. *)
Definition ext (w w' : World) (ws : list Event) : Prop :=
  exists evs, trace w' = trace w ++ evs /\ message_writes evs = ws.

(** [w'] extends [w] without touching the [messages] collection. *)
Definition frame (w w' : World) : Prop :=
  collection w' "messages" = collection w "messages" /\ ext w w' [].

(** [w'] extends [w] without any call to the store or to the export. *)
Definition silent (w w' : World) : Prop :=
  store w' = store w /\ store_calls w' = store_calls w /\
  sheet_calls w' = sheet_calls w /\ frame w w'.

(** Every document of [w] is still a document of [w']. *)
Definition keeps (w w' : World) : Prop :=
  forall coll id, is_Some (collection w coll !! id) -> is_Some (collection w' coll !! id).

(** A computation whose final world is always related to its initial one. *)
Definition respects {A} (R : World -> World -> Prop) (m : M A) : Prop :=
  forall env w, R w (m env w).2.

(** The AI client answers every call. *)
Definition ai_up (env : Env) : Prop :=
  forall n req, exists row, ai_reply env n req = inr row.

(** Step 2 or step 3 of the pipeline throws [e]: the AI client refuses the
    classification call, or answers it and refuses the extraction call. *)
Definition steps_2_3_throw (env : Env) (w : World) (content : string) (e : error) : Prop :=
  ai_reply env (ai_calls w) (chat_row env (intent_prompt content) []) = inl e \/
  ((exists row, ai_reply env (ai_calls w) (chat_row env (intent_prompt content) [])
                = inr row) /\
   ai_reply env (S (ai_calls w)) (chat_row env (entity_prompt content) []) = inl e).

(** The updates of document [id] of collection [coll] recorded in a trace. *)
Definition updates_of (coll id : string) (tr : list Event) : list Event :=
  List.filter
    (fun e => match e with
              | EvUpdate c i _ => String.eqb c coll && String.eqb i id
              | _ => false
              end) tr.

(** The result entry of one message, from the outcome of its run. *)
Definition item_of (message : MessageData) (r : Result ProcessResult) : BatchItem :=
  match r with
  | Ok result => ItemDone result
  | Throw e => ItemFailed e (md_messageId message)
  end.

(** Processing the messages one at a time in the order of the list: each
    run starts in the world the previous run left.  The result entries,
    in order, and the final world. *)
Fixpoint run_in_order (messages : list MessageData) (env : Env) (w : World)
  : list BatchItem * World :=
  match messages with
  | [] => ([], w)
  | message :: rest =>
      let (r, w1) := processMessage message env w in
      let (items, w2) := run_in_order rest env w1 in
      (item_of message r :: items, w2)
  end.

(** *** Vocabulary for the statistics *)

(** How many times [k] occurs in a list of keys. *)
Definition occurrences (k : string) (keys : list string) : nat :=
  length (List.filter (String.eqb k) keys).

(** [table] holds the grouped counts of [keys]: every key that occurs is
    mapped to its number of occurrences, and no other key is present. *)
Definition grouped_count (table : gmap string nat) (keys : list string) : Prop :=
  forall k, table !! k =
            if (occurrences k keys =? 0)%nat then None else Some (occurrences k keys).

(** The property names of [Object.prototype], and the keys of a list that
    are none of them. *)
Definition Object_prototype_keys : list string :=
  ["constructor"; "__defineGetter__"; "__defineSetter__"; "hasOwnProperty";
   "__lookupGetter__"; "__lookupSetter__"; "isPrototypeOf"; "propertyIsEnumerable";
   "toString"; "valueOf"; "__proto__"; "toLocaleString"].

Definition ordinary (keys : list string) : list string :=
  List.filter (fun k => negb (arrayIncludes Object_prototype_keys k)) keys.

(** The counts a table holds: its entries that are numbers. *)
Definition counts (table : gmap string Cell) : gmap string nat :=
  omap (fun c => match c with Count n => Some n | Text _ => None end) table.

(** Counting one more occurrence of [k], and the occurrences of a list of
    keys, in a table of numbers. *)
Definition count_key (k : string) (table : gmap string nat) : gmap string nat :=
  <[k := (default 0 (table !! k) + 1)%nat]> table.

Definition count_keys (keys : list string) (table : gmap string nat) : gmap string nat :=
  fold_left (fun t k => count_key k t) keys table.

(** The keys under which the messages are counted: every message by
    status and by channel, and the messages that have one by intent and by
    language. *)
Definition keys_of (env : Env) (name : string) (messages : list doc) : list string :=
  map (fun d => key_of env (field d name)) messages.

Definition having (name : string) (messages : list doc) : list doc :=
  List.filter (fun d => truthy (field d name)) messages.

(** The start of the period, in the words of the specification.
    [today]: midnight, local time, of the current day.
    [week]: seven days earlier.
    [month]: one calendar month earlier, that is, on the calendar of local
    time, in the month before the current one, on the same day of the
    month, at the same time of day.  The previous month may have no such
    day. *)
Definition midnight_today (tz t : Z) : Z :=
  (t - (t + tz) mod JSDate.msPerDay)%Z.

Definition seven_days_before (t : Z) : Z := (t - 7 * JSDate.msPerDay)%Z.

Definition previous_month (y m : Z) : Z * Z :=
  if (m =? 0)%Z then ((y - 1)%Z, 11%Z) else (y, (m - 1)%Z).

(** [s] is one calendar month before [t]. *)
Definition one_month_before (tz t s : Z) : bool :=
  let l := JSDate.LocalTime tz t in
  let l' := JSDate.LocalTime tz s in
  let '(y, m) := previous_month (JSDate.YearFromTime l) (JSDate.MonthFromTime l) in
  (JSDate.YearFromTime l' =? y)%Z && (JSDate.MonthFromTime l' =? m)%Z &&
  (JSDate.DateFromTime l' =? JSDate.DateFromTime l)%Z &&
  (JSDate.TimeWithinDay l' =? JSDate.TimeWithinDay l)%Z.

(** The number of days of month [m] (0 = January) of year [y]. *)
Definition days_in_month (y m : Z) : Z :=
  if (m =? 1)%Z then (28 + JSDate.leap y)%Z
  else if (m =? 3)%Z || (m =? 5)%Z || (m =? 8)%Z || (m =? 10)%Z then 30%Z
  else 31%Z.

(** The day of the month of [t] is a day of the previous month too. *)
Definition previous_month_has_day (tz t : Z) : bool :=
  let l := JSDate.LocalTime tz t in
  let '(y, m) := previous_month (JSDate.YearFromTime l) (JSDate.MonthFromTime l) in
  (JSDate.DateFromTime l <=? days_in_month y m)%Z.

(** Counting a list of keys into a table, one [bump] per key. *)
Definition tally (keys : list string) (table : gmap string Cell) : gmap string Cell :=
  fold_left (fun t k => bump k t) keys table.

(** The entries of a table are what [bump] leaves: a string that is not
    empty under a function name of the prototype, nothing under
    [__proto__], and a number under every other key. *)
Definition counted (table : gmap string Cell) : Prop :=
  forall k c, table !! k = Some c ->
    if arrayIncludes Object_prototype_keys k
    then k <> "__proto__" /\ exists s, c = Text s /\ nonempty s = true
    else exists n, c = Count n.

(** *** Vocabulary for further properties *)

(** How many of the six scored fields are present in an entity record. *)
Definition present_count (entities : object) : nat :=
  length (List.filter (present entities) scored_fields).

(** Steps 5, 6 and 7 of [pipeline], named. *)
Definition step5 (content language intent : string) : M value :=
  if arrayIncludes ["booking"; "inquiry"] intent then
    let! actionResult := executeActionChain content intent in
    ret (of_option (ar_finalResponse actionResult))
  else
    let! responseResult :=
      generateResponse content language [("intent", VStr intent)] in
    ret (VStr (gr_response responseResult)).

Definition step6 (organizationId messageRef : string) (entities : object)
  (from intent : string) : M value :=
  if String.eqb intent "booking" || String.eqb intent "inquiry" then
    let! l := createLeadFromMessage organizationId messageRef entities from in
    ret (id_or_null l)
  else ret VNull.

Definition step7 (messageData : MessageData) (intent : string) (entities : object)
  (aiResponse : value) : M unit :=
  try_catch
    (let! timestamp := newDate in
     writeMessageToSheet (md_organizationId messageData)
       [("timestamp", VDate timestamp);
        ("from", VStr (md_from messageData));
        ("channel", VStr (md_channelType messageData));
        ("message", VStr (md_content messageData));
        ("intent", VStr intent);
        ("entities", VObj entities);
        ("response", aiResponse)])
    (fun sheetError => log LWarn ("Google Sheets write failed: " +:+ sheetError)).

(** The world in which [pipeline] starts its step 2. *)
Definition announced (messageData : MessageData) (w : World) : World :=
  emit (EvLog LInfo ("Processing message from " +:+ md_from messageData +:+ " via "
                     +:+ md_channelType messageData)) w.

(** The world after the message document [data] was stored as [id]. *)
Definition persisted (id : string) (data : doc) (w : World) : World :=
  put_doc "messages" id data (store_called (emit (EvAdd "messages" data) w)).

(** The world after document [id], which held [old], was updated with
    [data]. *)
Definition updated (id : string) (data old : doc) (w : World) : World :=
  put_doc "messages" id (data ∪ old) (store_called (emit (EvUpdate "messages" id data) w)).

(** From [w] to [w'], [a] calls of the AI client, [s] calls of the store
    and [x] calls of the export were made. *)
Definition calls (w w' : World) (a s x : nat) : Prop :=
  ai_calls w' = ai_calls w + a /\
  store_calls w' = store_calls w + s /\
  sheet_calls w' = sheet_calls w + x.

(** The sum of the counts of a table. *)
Definition table_total (table : gmap string nat) : nat :=
  map_fold (fun _ n acc => n + acc) 0 table.

(** ** Translation ([jamai.service.js], [translateText]) *)

Record TranslateResult := mkTranslate {
  tr_success : bool;
  tr_originalText : string;
  tr_translatedText : string;
  tr_sourceLang : string;
  tr_targetLang : string }.

(** [lang === 'bm' ? 'Bahasa Malaysia' : 'English'] *)
Definition language_name (lang : string) : string :=
  if String.eqb lang "bm" then "Bahasa Malaysia" else "English".

Definition translate_prompt (text sourceLang targetLang : string) : string :=
  "Translate this " +:+ language_name sourceLang +:+ " text to "
  +:+ language_name targetLang +:+ ": " +:+ text.

Definition translateText (text sourceLang targetLang : string) : M TranslateResult :=
  try_catch
    (let prompt := translate_prompt text sourceLang targetLang in
     let! response := generateResponse prompt targetLang [] in
     ret {| tr_success := true;
            tr_originalText := text;
            tr_translatedText := gr_response response;
            tr_sourceLang := sourceLang;
            tr_targetLang := targetLang |})
    (fun error =>
       do! log LError ("Translation error: " +:+ error) in
       throw error).

(** ** The HTTP boundary

    A handler ends by sending one response: a status code and a JSON
    body: [{success: false, error}], the result of the pipeline or of the
    statistics, [{success: true, lead}] or [{success: true, message}]. *)

Inductive Body :=
| BodyError (error : string)
| BodyProcessed (result : ProcessResult)
| BodyStats (result : StatsResult)
| BodyLead (lead : doc)
| BodyMessage (message : string).

Record Response := mkResponse { res_status : nat; res_body : Body }.

(** [res.json(body)] *)
Definition json (body : Body) : Response := {| res_status := 200; res_body := body |}.

(** [res.status(code).json({success: false, error})] *)
Definition refuse (code : nat) (error : string) : Response :=
  {| res_status := code; res_body := BodyError error |}.

(** *** The routes of the messages ([/api/messages])

    The fields of the body and the query parameters are strings, or
    missing. *)

(** [req.body] of [POST /process]. *)
Record ProcessBody := mkProcessBody {
  pb_organizationId : option string;
  pb_channelType : option string;
  pb_from : option string;
  pb_content : option string;
  pb_messageId : option string;
  pb_channelId : option string }.

(** [!field] *)
Definition missing (field : option string) : bool := negb (truthy (of_option field)).

(** [messageId || `msg_${Date.now()}`]; the clock is read only when the
    body has no identifier. *)
Definition messageId_or_generated (messageId : option string) : M string :=
  if truthy (of_option messageId) then ret (default EmptyString messageId)
  else
    let! env := ask in
    let! now := newDate in
    ret ("msg_" +:+ ToString env (VNum now 0)).

(** The object the handler hands to [processMessage]; its four required
    fields are present when it is built. *)
Definition message_of (body : ProcessBody) (messageId : string) : MessageData :=
  {| md_organizationId := default EmptyString (pb_organizationId body);
     md_channelType := default EmptyString (pb_channelType body);
     md_from := default EmptyString (pb_from body);
     md_content := default EmptyString (pb_content body);
     md_messageId := Some messageId;
     md_channelId := pb_channelId body |}.

(** The handler of [POST /process]. *)
Definition post_process (body : ProcessBody) : M Response :=
  try_catch
    (if missing (pb_organizationId body) || missing (pb_channelType body)
        || missing (pb_from body) || missing (pb_content body) then
       ret (refuse 400 "Missing required fields: organizationId, channelType, from, content")
     else
       let! messageId := messageId_or_generated (pb_messageId body) in
       let! result := processMessage (message_of body messageId) in
       ret (json (BodyProcessed result)))
    (fun error =>
       do! log LError ("Message process error: " +:+ error) in
       ret (refuse 500 "Failed to process message")).

(** The handler of [GET /stats/overview], for the organization that the
    authentication attached to the request. *)
Definition get_stats_overview (organizationId : string) (period : option string)
  : M Response :=
  try_catch
    (let period := default "week" period in
     let! stats := getProcessingStats organizationId (Some period) in
     ret (json (BodyStats stats)))
    (fun error =>
       do! log LError ("Get stats error: " +:+ error) in
       ret (refuse 500 "Failed to retrieve statistics")).

(** A body with its four required fields. *)
Definition complete (body : ProcessBody) : Prop :=
  missing (pb_organizationId body) = false /\ missing (pb_channelType body) = false /\
  missing (pb_from body) = false /\ missing (pb_content body) = false.

(** *** Reading one document *)

(** [db.collection(coll).doc(id).get()]: the data of the document, [None]
    when the snapshot says that it does not exist.  The read counts as a
    call of the store; it leaves no event in the trace. *)
Definition db_get (coll id : string) : M (option doc) :=
  fun env w =>
    match store_fault env (store_calls w) with
    | Some e => (Throw e, store_called w)
    | None => (Ok (collection w coll !! id), store_called w)
    end.

(** *** The routes of the leads ([/api/leads])

    [organizationId] and [userId] are what the authentication attached to
    the request: [req.organizationId], a string or [undefined], and
    [req.userId]. *)

Definition validStatuses : list string :=
  ["new"; "contacted"; "qualified"; "converted"; "lost"].

(** [validStatuses.includes(status)] *)
Definition valid_status (status : value) : bool :=
  match status with
  | VStr s => arrayIncludes validStatuses s
  | _ => false
  end.

(** [lead.organizationId !== req.organizationId] *)
Definition other_organization (stored : value) (organizationId : option string) : bool :=
  match stored, organizationId with
  | VStr a, Some b => negb (String.eqb a b)
  | VUndefined, None => false
  | _, _ => true
  end.

(** The handler of [GET /:id]; the lead sent is [{id: leadDoc.id,
    ...leadDoc.data()}]. *)
Definition get_lead (organizationId : option string) (id : string) : M Response :=
  try_catch
    (let! leadDoc := db_get "leads" id in
     match leadDoc with
     | None => ret (refuse 404 "Lead not found")
     | Some data =>
         let lead := data ∪ fields [("id", VStr id)] in
         if other_organization (field lead "organizationId") organizationId then
           ret (refuse 403 "Access denied")
         else ret (json (BodyLead lead))
     end)
    (fun error =>
       do! log LError ("Get lead error: " +:+ error) in
       ret (refuse 500 "Failed to retrieve lead")).

(** The object literal handed to [update] by [PUT /:id/status]. *)
Definition statusUpdate (status : value) (updatedAt : Z) (userId : string) : doc :=
  fields [("status", status); ("updatedAt", VDate updatedAt); ("updatedBy", VStr userId)].

(** The handler of [PUT /:id/status]. *)
Definition put_lead_status (userId id : string) (status : value) : M Response :=
  try_catch
    (if negb (valid_status status) then ret (refuse 400 "Invalid status")
     else
       let! updatedAt := newDate in
       do! db_update "leads" id (statusUpdate status updatedAt userId) in
       ret (json (BodyMessage "Status updated successfully")))
    (fun error =>
       do! log LError ("Update lead status error: " +:+ error) in
       ret (refuse 500 "Failed to update status")).

(** ** The authentication middleware ([middleware/auth.middleware.js]) *)

(** [String.prototype.split] for a separator that is not empty: [piece]
    is the piece being read, [skip] the number of characters of a
    separator just found that are still to pass. *)
Fixpoint split_aux (separator s : string) (skip : nat) (piece : string) : list string :=
  match s with
  | EmptyString => [piece]
  | String c s' =>
      match skip with
      | S k => split_aux separator s' k piece
      | O =>
          if startsWith s separator
          then piece :: split_aux separator s' (String.length separator - 1) EmptyString
          else split_aux separator s' 0 (piece +:+ String c EmptyString)
      end
  end.

Definition split (s separator : string) : list string :=
  split_aux separator s 0 EmptyString.

(** What [auth.verifyIdToken] answers to a token: an error, with its code,
    or the decoded token. *)
Record AuthError := mkAuthError { ae_code : string; ae_message : string }.

Record DecodedToken := mkDecodedToken { dt_uid : string; dt_email : value }.

Definition Verifier : Type := string -> AuthError + DecodedToken.

(** The parts of the request the middleware reads and writes. *)
Record Req := mkReq {
  rq_authorization : option string;
  rq_user : option doc;
  rq_userId : option string;
  rq_organizationId : value }.

(** A middleware answers, or calls [next()]. *)
Inductive Outcome :=
| Answer (res : Response)
| Next (req : Req).

(** [authHeader && authHeader.startsWith('Bearer ')] *)
Definition has_bearer (authHeader : option string) : bool :=
  match authHeader with
  | Some h => nonempty h && startsWith h "Bearer "
  | None => false
  end.

(** [authHeader.split('Bearer ')[1]], for a header that starts with
    [Bearer ], so that the array has a second element. *)
Definition idToken_of (authHeader : option string) : string :=
  nth 1 (split (default EmptyString authHeader) "Bearer ") EmptyString.

(** The request with the user attached:
    [req.user = {uid, email, ...userData}], [req.userId] and
    [req.organizationId]. *)
Definition attach (req : Req) (decodedToken : DecodedToken) (userData : doc) : Req :=
  {| rq_authorization := rq_authorization req;
     rq_user := Some (userData ∪ fields [("uid", VStr (dt_uid decodedToken));
                                         ("email", dt_email decodedToken)]);
     rq_userId := Some (dt_uid decodedToken);
     rq_organizationId := field userData "organizationId" |}.

(** The [catch (error)] block of [authenticateUser]; an error of the store
    has no code of the authentication. *)
Definition auth_failure (code : option string) (message : string) : M Outcome :=
  do! log LError ("Authentication error: " +:+ message) in
  if bool_decide (code = Some "auth/id-token-expired") then
    ret (Answer (refuse 401 "Token expired. Please login again."))
  else if bool_decide (code = Some "auth/invalid-id-token") then
    ret (Answer (refuse 401 "Invalid token. Please login again."))
  else ret (Answer (refuse 401 "Authentication failed")).

Definition authenticateUser (verifyIdToken : Verifier) (req : Req) : M Outcome :=
  if negb (has_bearer (rq_authorization req)) then
    ret (Answer (refuse 401
           "No token provided. Please include Bearer token in Authorization header."))
  else
    let idToken := idToken_of (rq_authorization req) in
    match verifyIdToken idToken with
    | inl error => auth_failure (Some (ae_code error)) (ae_message error)
    | inr decodedToken =>
        try_catch
          (let! userDoc := db_get "users" (dt_uid decodedToken) in
           match userDoc with
           | None => ret (Answer (refuse 404 "User not found in database"))
           | Some userData =>
               if negb (truthy (field userData "isActive")) then
                 ret (Answer (refuse 403 "User account is deactivated"))
               else ret (Next (attach req decodedToken userData))
           end)
          (fun error => auth_failure None error)
    end.

(** [authorizeRole(...allowedRoles)], the roles being strings. *)
Definition authorizeRole (allowedRoles : list string) (req : Req) : Outcome :=
  match rq_user req with
  | None => Answer (refuse 401 "Authentication required")
  | Some user =>
      if match field user "role" with
         | VStr role => arrayIncludes allowedRoles role
         | _ => false
         end
      then Next req
      else Answer (refuse 403 ("Access denied. Required role: "
                               +:+ String.concat " or " allowedRoles))
  end.

Definition optionalAuth (verifyIdToken : Verifier) (req : Req) : M Outcome :=
  if has_bearer (rq_authorization req) then
    let idToken := idToken_of (rq_authorization req) in
    match verifyIdToken idToken with
    | inl error => ret (Next req)
    | inr decodedToken =>
        try_catch
          (let! userDoc := db_get "users" (dt_uid decodedToken) in
           match userDoc with
           | Some userData => ret (Next (attach req decodedToken userData))
           | None => ret (Next req)
           end)
          (fun error => ret (Next req))
    end
  else ret (Next req).

(** The request may pass [authenticateUser]: it carries a bearer token
    that verifies, the store answers, and the user of the token is stored
    and active. *)
Definition admissible (verifyIdToken : Verifier) (req : Req) (env : Env) (w : World)
  (decodedToken : DecodedToken) (userData : doc) : Prop :=
  has_bearer (rq_authorization req) = true /\
  verifyIdToken (idToken_of (rq_authorization req)) = inr decodedToken /\
  store_fault env (store_calls w) = None /\
  collection w "users" !! dt_uid decodedToken = Some userData /\
  truthy (field userData "isActive") = true.

(** * Properties *)

(** ** Strings *)

Lemma startsWith_iff (s w : string) :
  startsWith s w = true <-> exists b, s = w +:+ b.
Proof.
  revert s. induction w as [|a w IH]; intros s; simpl.
  - split; [intros _; by exists s | done].
  - destruct s as [|b s].
    + split; [done | intros [x Hx]; discriminate].
    + destruct (Ascii.eqb a b) eqn:E.
      * apply Ascii.eqb_eq in E. subst b. rewrite IH.
        split; intros [x Hx]; exists x; [by rewrite Hx | by injection Hx].
      * apply Ascii.eqb_neq in E.
        split; [done | intros [x Hx]; injection Hx; intros; by subst].
Qed.

Lemma includes_iff (s w : string) :
  includes s w = true <-> exists a b, s = a +:+ w +:+ b.
Proof.
  induction s as [|c s IH]; simpl.
  - rewrite orb_false_r, startsWith_iff. split.
    + intros [b Hb]. by exists EmptyString, b.
    + intros [a [b Hab]]. destruct a; [by exists b | discriminate].
  - rewrite orb_true_iff, IH, startsWith_iff. split.
    + intros [[b Hb] | [a [b Hab]]].
      * by exists EmptyString, b.
      * exists (String c a), b. simpl. by rewrite Hab.
    + intros [a [b Hab]]. destruct a as [|c' a]; simpl in Hab.
      * left. by exists b.
      * right. exists a, b. by injection Hab.
Qed.

Lemma toLowerCase_app (a b : string) :
  toLowerCase (a +:+ b) = toLowerCase a +:+ toLowerCase b.
Proof. induction a as [|c a IH]; simpl; [done | by rewrite IH]. Qed.

Lemma toLowerCase_split (t a b : string) :
  toLowerCase t = a +:+ b ->
  exists t1 t2, t = t1 +:+ t2 /\ toLowerCase t1 = a /\ toLowerCase t2 = b.
Proof.
  revert t. induction a as [|c a IH]; intros t H; simpl in H.
  - by exists EmptyString, t.
  - destruct t as [|d t]; simpl in H; [discriminate |].
    injection H as Hc Ht. destruct (IH _ Ht) as (t1 & t2 & -> & <- & <-).
    exists (String d t1), t2. simpl. by rewrite Hc.
Qed.

(** For a word already in lower case, searching the lower-cased text is
    the case-insensitive search. *)
Lemma includes_lower_ci (w t : string) :
  toLowerCase w = w ->
  includes (toLowerCase t) w = true <-> ci_substring w t.
Proof.
  intros Hw. rewrite includes_iff. unfold ci_substring. rewrite Hw. split.
  - intros (a & b & H).
    destruct (toLowerCase_split _ _ _ H) as (t1 & t23 & -> & <- & H23).
    destruct (toLowerCase_split _ _ _ H23) as (t2 & t3 & -> & <- & <-).
    by exists t1, t2, t3.
  - intros (a & s & b & -> & Hs).
    exists (toLowerCase a), (toLowerCase b).
    by rewrite !toLowerCase_app, Hs.
Qed.

(** ** Counting with [filter] *)

Lemma filter_two {A} (f : A -> bool) (l : list A) :
  NoDup l ->
  (2 <= length (List.filter f l))%nat <->
  exists x y, x <> y /\ In x l /\ In y l /\ f x = true /\ f y = true.
Proof.
  intros Hnd. split.
  - intros Hlen.
    assert (Hnd' : NoDup (List.filter f l)) by (by apply NoDup_ListNoDup, List.NoDup_filter, NoDup_ListNoDup).
    destruct (List.filter f l) as [|x [|y r]] eqn:E; simpl in Hlen; try lia.
    assert (Hx : In x (List.filter f l)) by (rewrite E; simpl; auto).
    assert (Hy : In y (List.filter f l)) by (rewrite E; simpl; auto).
    apply filter_In in Hx, Hy. exists x, y.
    apply NoDup_cons in Hnd' as [Hxy _].
    split; [|tauto]. intros ->. apply Hxy. by left.
  - intros (x & y & Hxy & Hx & Hy & Hfx & Hfy).
    assert (Hx' : In x (List.filter f l)) by (apply filter_In; auto).
    assert (Hy' : In y (List.filter f l)) by (apply filter_In; auto).
    destruct (List.filter f l) as [|a [|b r]]; simpl in *; try lia; try tauto.
    destruct Hx' as [->|[]], Hy' as [->|[]]. done.
Qed.

(** ** Language detection *)

Lemma bmKeywords_NoDup : NoDup bmKeywords.
Proof. apply (bool_decide_unpack _). by vm_compute. Qed.

Lemma bmKeywords_lower (w : string) : In w bmKeywords -> toLowerCase w = w.
Proof. unfold bmKeywords. simpl. intros H. repeat (destruct H as [<-|H]; [reflexivity |]). destruct H. Qed.

Lemma two_markers_iff (text : string) :
  (2 <= length (List.filter (fun word => includes (toLowerCase text) word) bmKeywords))%nat
  <-> two_markers text.
Proof.
  rewrite (filter_two _ _ bmKeywords_NoDup). unfold two_markers.
  split; intros (x & y & Hxy & Hx & Hy & Hfx & Hfy); exists x, y;
    repeat split; try done.
  - by apply includes_lower_ci; [apply bmKeywords_lower |].
  - by apply includes_lower_ci; [apply bmKeywords_lower |].
  - by apply includes_lower_ci; [apply bmKeywords_lower |].
  - by apply includes_lower_ci; [apply bmKeywords_lower |].
Qed.

(** C4.  [detectLanguage] is a total function of its text: it answers
    language [bm] with confidence 0.8 exactly when at least two of the
    marker words occur in the text as case-insensitive substrings, and
    language [en] with confidence 0.6 otherwise. *)
Theorem detectLanguage_spec (text : string) :
  (two_markers text /\
   detectLanguage text = {| ld_language := "bm"; ld_confidence := 0.8 |}) \/
  (~ two_markers text /\
   detectLanguage text = {| ld_language := "en"; ld_confidence := 0.6 |}).
Proof.
  unfold detectLanguage.
  destruct (Nat.leb_spec 2
    (length (List.filter (fun word => includes (toLowerCase text) word) bmKeywords)))
    as [H|H].
  - left. split; [by apply two_markers_iff | done].
  - right. split; [| done]. intros Hm. apply two_markers_iff in Hm. lia.
Qed.

(** ** The AI service *)

Section Replies.
Variables (env : Env) (w : World).

Lemma generateResponse_ok message language context row :
  ai_reply env (ai_calls w) (chat_row env message context) = inr row ->
  generateResponse message language context env w =
    (Ok {| gr_success := true; gr_response := ai_or_default row;
           gr_language := language; gr_metadata := row |},
     ai_called (chat_row env message context) w).
Proof.
  intros H. unfold generateResponse, try_catch, bind, ask, addTableRows, ret.
  by rewrite H.
Qed.

Lemma generateResponse_throw message language context e :
  ai_reply env (ai_calls w) (chat_row env message context) = inl e ->
  generateResponse message language context env w =
    (Throw e,
     emit (EvLog LError ("JamAI generate response error: " +:+ e))
       (ai_called (chat_row env message context) w)).
Proof.
  intros H. unfold generateResponse, try_catch, bind, ask, addTableRows, ret.
  by rewrite H.
Qed.

Lemma classifyIntent_ok text row :
  ai_reply env (ai_calls w) (chat_row env (intent_prompt text) []) = inr row ->
  classifyIntent text env w =
    (Ok {| ir_success := true;
           ir_intent :=
             if arrayIncludes validIntents (trim (toLowerCase (ai_or_default row)))
             then trim (toLowerCase (ai_or_default row)) else "general";
           ir_confidence := 0.85;
           ir_rawResponse := ai_or_default row |},
     ai_called (chat_row env (intent_prompt text) []) w).
Proof.
  intros H. unfold classifyIntent, try_catch, bind at 1.
  by rewrite (generateResponse_ok _ _ _ _ H).
Qed.

Lemma classifyIntent_throw text e :
  ai_reply env (ai_calls w) (chat_row env (intent_prompt text) []) = inl e ->
  classifyIntent text env w =
    (Throw e,
     emit (EvLog LError ("Intent classification error: " +:+ e))
       (emit (EvLog LError ("JamAI generate response error: " +:+ e))
          (ai_called (chat_row env (intent_prompt text) []) w))).
Proof.
  intros H. unfold classifyIntent, try_catch, bind at 1.
  by rewrite (generateResponse_throw _ _ _ _ H).
Qed.

End Replies.

Lemma arrayIncludes_In (l : list string) (s : string) :
  arrayIncludes l s = true <-> In s l.
Proof.
  unfold arrayIncludes. rewrite existsb_exists. split.
  - intros (x & Hx & E). apply String.eqb_eq in E. by subst.
  - intros H. exists s. split; [done | apply String.eqb_refl].
Qed.

(** C5.  Whatever row the generation service returns, [classifyIntent]
    returns; with [n] the reply lower-cased and trimmed, the intent is [n]
    when [n] is one of the five labels and [general] when it is not, and
    the confidence is 0.85. *)
Theorem classifyIntent_spec (env : Env) (w : World) (text : string) (row : option Row) :
  ai_reply env (ai_calls w) (chat_row env (intent_prompt text) []) = inr row ->
  exists r w',
    classifyIntent text env w = (Ok r, w') /\
    let n := trim (toLowerCase (ai_or_default row)) in
    (In n validIntents -> ir_intent r = n) /\
    (~ In n validIntents -> ir_intent r = "general") /\
    ir_confidence r = 0.85%Q.
Proof.
  intros H. eexists _, _. split; [by apply classifyIntent_ok |].
  cbv zeta. cbn [ir_intent ir_confidence].
  destruct (arrayIncludes validIntents (trim (toLowerCase (ai_or_default row)))) eqn:E.
  - apply arrayIncludes_In in E. split; [done |]. split; [| done].
    intros Hn. contradiction.
  - split; [| done]. intros Hin. apply arrayIncludes_In in Hin. congruence.
Qed.

Lemma classifyIntent_spec_witness :
  exists r w',
    classifyIntent "Saya nak booking" (Example.env [Example.reply "  Booking "] [] [])
      Example.empty_world = (Ok r, w') /\
    ir_intent r = "booking" /\ ir_confidence r = 0.85%Q.
Proof.
  destruct (classifyIntent_spec (Example.env [Example.reply "  Booking "] [] [])
              Example.empty_world "Saya nak booking" (Some {| col_ID := Some "row"; col_AI := Some "  Booking ";
               col_Step1_Understand := None; col_Step2_Fetch := None;
               col_Step3_Draft := None; col_Step4_Refine := Some "  Booking " |}) eq_refl)
    as (r & w' & Hrun & Hin & _ & Hc).
  exists r, w'. split; [exact Hrun |]. split; [| exact Hc].
  apply Hin. vm_compute. tauto.
Defined.

(** ** Lead scoring *)

Lemma calculateLeadScore_formula (entities : object) :
  calculateLeadScore entities =
    Z.min (50 + points (present entities "name") 10
              + points (present entities "phone") 15
              + points (present entities "email") 15
              + points (present entities "date") 10
              + points (present entities "time") 10
              + points (present entities "service_type") 10) 100.
Proof.
  unfold calculateLeadScore, present, points.
  repeat destruct (truthy _); reflexivity.
Qed.

Lemma points_range (b : bool) (n : Z) : (0 <= n -> 0 <= points b n <= n)%Z.
Proof. destruct b; simpl; lia. Qed.

(** C3.  The score is 50 plus 10 for a name, 15 for a phone, 15 for an
    email, 10 for a date, 10 for a time and 10 for a service type, capped
    at 100; it lies between 50 and 100, and a missing field adds nothing. *)
Theorem calculateLeadScore_spec (entities : object) :
  calculateLeadScore entities =
    Z.min (50 + points (present entities "name") 10
              + points (present entities "phone") 15
              + points (present entities "email") 15
              + points (present entities "date") 10
              + points (present entities "time") 10
              + points (present entities "service_type") 10) 100 /\
  (50 <= calculateLeadScore entities <= 100)%Z /\
  (forall k n, get entities k = VUndefined -> points (present entities k) n = 0%Z).
Proof.
  split; [apply calculateLeadScore_formula |]. split.
  - rewrite calculateLeadScore_formula.
    pose proof (points_range (present entities "name") 10).
    pose proof (points_range (present entities "phone") 15).
    pose proof (points_range (present entities "email") 15).
    pose proof (points_range (present entities "date") 10).
    pose proof (points_range (present entities "time") 10).
    pose proof (points_range (present entities "service_type") 10).
    lia.
  - intros k n H. unfold present. by rewrite H.
Qed.

(** Present means truthy: an empty name adds nothing, and all six fields
    together reach the cap. *)
Example score_of_empty_name : calculateLeadScore [("name", VStr EmptyString)] = 50%Z.
Proof. reflexivity. Qed.

Example score_is_capped :
  calculateLeadScore
    [("name", VStr "Ali"); ("phone", VStr "0123"); ("email", VStr "a@b.my");
     ("date", VStr "Jumaat"); ("time", VStr "2pm"); ("service_type", VStr "checkup")]
    = 100%Z.
Proof. reflexivity. Qed.

Lemma score_without_fields (entities : object) :
  (forall k, In k scored_fields -> present entities k = false) ->
  calculateLeadScore entities = 50%Z.
Proof.
  intros H. rewrite calculateLeadScore_formula.
  rewrite !H by (simpl; tauto). reflexivity.
Qed.

(** ** Bookkeeping on worlds *)

Section Bookkeeping.
Variables (w : World) (coll : string).

Lemma collection_emit e : collection (emit e w) coll = collection w coll.
Proof. reflexivity. Qed.
Lemma collection_clock_read : collection (clock_read w) coll = collection w coll.
Proof. reflexivity. Qed.
Lemma collection_store_called : collection (store_called w) coll = collection w coll.
Proof. reflexivity. Qed.
Lemma collection_ai_called r : collection (ai_called r w) coll = collection w coll.
Proof. reflexivity. Qed.
Lemma collection_sheet_called o d : collection (sheet_called o d w) coll = collection w coll.
Proof. reflexivity. Qed.

Lemma collection_put_doc id d :
  collection (put_doc coll id d w) coll = <[id := d]> (collection w coll).
Proof. unfold collection, put_doc. cbn [store]. by rewrite lookup_insert_eq. Qed.

Lemma collection_put_doc_ne coll' id d :
  coll' <> coll -> collection (put_doc coll' id d w) coll = collection w coll.
Proof. intros H. unfold collection, put_doc. cbn [store]. by rewrite lookup_insert_ne. Qed.

End Bookkeeping.

Create Rewrite HintDb world.
#[local] Hint Rewrite collection_emit collection_clock_read collection_store_called
  collection_ai_called collection_sheet_called collection_put_doc : world.

(** Unfolds the projections of the world transformers. *)
Ltac wproj :=
  cbn [store ai_calls store_calls sheet_calls clock_reads trace
       emit clock_read store_called ai_called sheet_called put_doc] in *.

(** ** Lead creation *)

Lemma createLeadFromMessage_run env w organizationId messageId entities phone :
  let w2 := clock_read (clock_read w) in
  let data := leadData env organizationId messageId entities phone
                (clock env (clock_reads w)) (clock env (S (clock_reads w))) in
  createLeadFromMessage organizationId messageId entities phone env w =
    match db_add "leads" data env w2 with
    | (Ok id, w3) => (Ok (Some id), emit (EvLog LInfo ("Lead created: " +:+ id)) w3)
    | (Throw e, w3) => (Ok None, emit (EvLog LError ("Lead creation error: " +:+ e)) w3)
    end.
Proof.
  cbv zeta. unfold createLeadFromMessage, try_catch, bind, ask, newDate, log, ret. simpl.
  by destruct (db_add _ _ env _) as [[id|e] w3].
Qed.

(** C10.  When none of the six scored fields is present in the entity
    record, the lead that [createLeadFromMessage] stores has score 50,
    status [new], customer name [Unknown] and the sender's address as
    phone; and a lead is stored whenever the store accepts the [add]. *)
Theorem createLeadFromMessage_bare
  (env : Env) (w : World) (organizationId messageId : string)
  (entities : object) (phone : string) :
  (forall k, In k scored_fields -> present entities k = false) ->
  (store_fault env (store_calls w) = None ->
   collection w "leads" !! auto_id env (store_calls w) = None ->
   (createLeadFromMessage organizationId messageId entities phone env w).1
     = Ok (Some (auto_id env (store_calls w)))) /\
  (forall id w',
     createLeadFromMessage organizationId messageId entities phone env w
       = (Ok (Some id), w') ->
     exists lead, collection w' "leads" !! id = Some lead /\
       lead !! "score" = Some (VNum 50 0) /\
       lead !! "status" = Some (VStr "new") /\
       lead !! "customerName" = Some (VStr "Unknown") /\
       lead !! "phone" = Some (VStr phone)).
Proof.
  intros Habsent. rewrite createLeadFromMessage_run. cbv zeta.
  unfold db_add. autorewrite with world. wproj.
  destruct (store_fault env (store_calls w)) as [e|]; cbv beta iota.
  { split; [done | intros id w' H; discriminate H]. }
  destruct (collection w "leads" !! auto_id env (store_calls w)) as [d|] eqn:Hfresh;
    cbv beta iota.
  { split; [done | intros id w' H; discriminate H]. }
  split; [done |]. intros id w' H. injection H as <- <-.
  eexists. split.
  { autorewrite with world. apply lookup_insert_eq. }
  assert (Hn : truthy (get entities "name") = false) by (apply Habsent; simpl; tauto).
  assert (Hp : truthy (get entities "phone") = false) by (apply Habsent; simpl; tauto).
  unfold leadData, or_else. rewrite Hn, Hp, (score_without_fields _ Habsent).
  repeat split; reflexivity.
Qed.

(** The raw-text fallback record has none of the scored fields. *)
Lemma createLeadFromMessage_bare_witness :
  exists lead,
    collection
      (createLeadFromMessage "org1" "doc0" [("raw", VStr "call me")] "+60123456789"
         (Example.env [] [] []) Example.empty_world).2 "leads" !! "doc0" = Some lead /\
    lead !! "score" = Some (VNum 50 0) /\
    lead !! "status" = Some (VStr "new") /\
    lead !! "customerName" = Some (VStr "Unknown") /\
    lead !! "phone" = Some (VStr "+60123456789").
Proof.
  assert (Habsent : forall k, In k scored_fields ->
                     present [("raw", VStr "call me")] k = false).
  { intros k Hk. simpl in Hk.
    repeat (destruct Hk as [<-|Hk]; [reflexivity |]). destruct Hk. }
  destruct (createLeadFromMessage_bare (Example.env [] [] []) Example.empty_world
              "org1" "doc0" [("raw", VStr "call me")] "+60123456789" Habsent)
    as [_ Hlead].
  apply (Hlead "doc0"
           (createLeadFromMessage "org1" "doc0" [("raw", VStr "call me")] "+60123456789"
              (Example.env [] [] []) Example.empty_world).2).
  vm_compute. reflexivity.
Defined.

(** ** Entity extraction *)

Lemma from_first_open_Some (s r : string) :
  from_first_open s = Some r <->
  exists a, s = a +:+ String open_brace r /\ has_char open_brace a = false.
Proof.
  revert r. induction s as [|c s IH]; intros r; simpl.
  - split; [done |]. intros (a & H & _). destruct a; discriminate H.
  - destruct (Ascii.eqb c open_brace) eqn:E.
    + apply Ascii.eqb_eq in E. subst c. split.
      * intros [= <-]. by exists EmptyString.
      * intros (a & H & Ha). destruct a as [|d a]; simpl in *.
        -- by injection H as ->.
        -- injection H as <- _. rewrite Ascii.eqb_refl in Ha. discriminate Ha.
    + rewrite IH. split.
      * intros (a & -> & Ha). exists (String c a). simpl. by rewrite E, Ha.
      * intros (a & H & Ha). destruct a as [|d a]; simpl in *.
        -- injection H as -> _. rewrite Ascii.eqb_refl in E. discriminate E.
        -- injection H as <- ->. exists a. split; [done |].
           by apply orb_false_iff in Ha as [_ Ha].
Qed.

Lemma from_first_open_None (s : string) :
  from_first_open s = None <-> has_char open_brace s = false.
Proof.
  induction s as [|c s IH]; simpl; [done |].
  destruct (Ascii.eqb c open_brace); simpl; [done | exact IH].
Qed.

Lemma upto_last_close_None (s : string) :
  upto_last_close s = None <-> has_char close_brace s = false.
Proof.
  induction s as [|c s IH]; simpl; [done |].
  destruct (upto_last_close s) as [p|].
  - split; [done |]. intros H. apply orb_false_iff in H as [_ H].
    apply IH in H. discriminate H.
  - destruct IH as [IH _]. rewrite (IH eq_refl), orb_false_r.
    by destruct (Ascii.eqb c close_brace).
Qed.

Lemma has_char_middle (c : ascii) (a b : string) :
  has_char c (a +:+ String c b) = true.
Proof.
  induction a as [|x a IH].
  - change (Ascii.eqb c c || has_char c b = true). by rewrite Ascii.eqb_refl.
  - change (Ascii.eqb x c || has_char c (a +:+ String c b) = true).
    by rewrite IH, orb_true_r.
Qed.

Lemma upto_last_close_Some (s p : string) :
  upto_last_close s = Some p <->
  exists b c, s = b +:+ String close_brace c /\
              p = b +:+ String close_brace EmptyString /\
              has_char close_brace c = false.
Proof.
  revert p. induction s as [|d s IH]; intros p; cbn [upto_last_close].
  - split; [done |]. intros (b & c & H & _). destruct b; discriminate H.
  - destruct (upto_last_close s) as [q|] eqn:E.
    + split.
      * intros [= <-]. destruct (proj1 (IH q) eq_refl) as (b & c & -> & -> & Hc).
        by exists (String d b), c.
      * intros (b & c & H & -> & Hc). destruct b as [|d' b]; cbn [String.append] in *.
        -- injection H as -> ->. apply upto_last_close_None in Hc. congruence.
        -- injection H as <- ->.
           assert (Hq : Some q = Some (b +:+ String close_brace EmptyString)).
           { apply IH. by exists b, c. }
           injection Hq as ->. reflexivity.
    + apply upto_last_close_None in E.
      destruct (Ascii.eqb d close_brace) eqn:Ed.
      * apply Ascii.eqb_eq in Ed. subst d. split.
        -- intros [= <-]. by exists EmptyString, s.
        -- intros (b & c & H & -> & Hc). destruct b as [|d' b]; cbn [String.append] in *;
             [done |].
           injection H as <- ->. by rewrite has_char_middle in E.
      * split; [done |]. intros (b & c & H & -> & Hc). exfalso.
        destruct b as [|d' b]; cbn [String.append] in *.
        -- injection H as -> _. by rewrite Ascii.eqb_refl in Ed.
        -- injection H as _ ->. by rewrite has_char_middle in E.
Qed.

(** The model of the regular expression selects the span from the first
    opening brace to the last closing brace after it. *)
Lemma match_braces_Some (s m : string) : match_braces s = Some m <-> brace_span s m.
Proof.
  unfold match_braces, brace_span. split.
  - destruct (from_first_open s) as [r|] eqn:E; [| done].
    apply from_first_open_Some in E as (a & -> & Ha).
    destruct (upto_last_close r) as [p|] eqn:Ep; [| done].
    apply upto_last_close_Some in Ep as (b & c & -> & -> & Hc).
    intros [= <-]. by exists a, b, c.
  - intros (a & b & c & -> & -> & Ha & Hc).
    assert (E : from_first_open (a +:+ String open_brace (b +:+ String close_brace c))
                = Some (b +:+ String close_brace c)).
    { apply from_first_open_Some. by exists a. }
    rewrite E.
    assert (Ep : upto_last_close (b +:+ String close_brace c)
                 = Some (b +:+ String close_brace EmptyString)).
    { apply upto_last_close_Some. by exists b, c. }
    by rewrite Ep.
Qed.

Lemma match_braces_None (s : string) :
  match_braces s = None <-> ~ exists m, brace_span s m.
Proof.
  split.
  - intros H [m Hm]. apply match_braces_Some in Hm. congruence.
  - intros H. destruct (match_braces s) as [m|] eqn:E; [| done].
    exfalso. apply H. exists m. by apply match_braces_Some.
Qed.

Lemma extractEntities_ok env w text row :
  ai_reply env (ai_calls w) (chat_row env (entity_prompt text) []) = inr row ->
  let reply := ai_or_default row in
  let w1 := ai_called (chat_row env (entity_prompt text) []) w in
  extractEntities text env w =
    match match_braces reply with
    | None => (Ok {| er_success := true; er_entities := []; er_originalText := text |}, w1)
    | Some jsonMatch =>
        match JSON_parse env jsonMatch with
        | Some o =>
            (Ok {| er_success := true; er_entities := o; er_originalText := text |}, w1)
        | None =>
            (Ok {| er_success := true; er_entities := [("raw", VStr reply)];
                   er_originalText := text |},
             emit (EvLog LWarn "Could not parse entities as JSON, using raw response") w1)
        end
    end.
Proof.
  intros H. cbv zeta. unfold extractEntities, try_catch at 1, bind at 1.
  rewrite (generateResponse_ok _ _ _ _ _ _ H). cbn [gr_response].
  unfold bind, try_catch, JSON_parse_or_throw, log, ret.
  destruct (match_braces (ai_or_default row)) as [m|]; [| done].
  by destruct (JSON_parse env m).
Qed.

Lemma extractEntities_throw env w text e :
  ai_reply env (ai_calls w) (chat_row env (entity_prompt text) []) = inl e ->
  extractEntities text env w =
    (Throw e,
     emit (EvLog LError ("Entity extraction error: " +:+ e))
       (emit (EvLog LError ("JamAI generate response error: " +:+ e))
          (ai_called (chat_row env (entity_prompt text) []) w))).
Proof.
  intros H. unfold extractEntities, try_catch at 1, bind at 1.
  by rewrite (generateResponse_throw _ _ _ _ _ _ H).
Qed.

(** C2, as stated, fails: the reply [hello] is not JSON, and the entity
    record returned for it is the empty record, not [{raw: hello}]. *)
Lemma extractEntities_plain_text_counterexample :
  JSONRef.parse "hello" = None /\
  (extractEntities "hi" (Example.env [Example.reply "hello"] [] []) Example.empty_world).1
    = Ok {| er_success := true; er_entities := []; er_originalText := "hi" |} /\
  (extractEntities "hi" (Example.env [Example.reply "hello"] [] []) Example.empty_world).1
    <> Ok {| er_success := true; er_entities := [("raw", VStr "hello")];
             er_originalText := "hi" |}.
Proof.
  split; [by vm_compute |]. split; [by vm_compute |].
  intros H. vm_compute in H. discriminate H.
Qed.

(** C2, amended.  Whenever the generation service replies, [extractEntities]
    returns and throws no parse error.  The entity record is empty when the
    reply has no opening brace followed by a closing brace; otherwise, with
    [m] the span from the first opening brace to the last closing brace, it
    is [{raw: reply}] when [m] does not parse, and the parsed object when
    it does. *)
Theorem extractEntities_spec (env : Env) (w : World) (text : string) (row : option Row) :
  ai_reply env (ai_calls w) (chat_row env (entity_prompt text) []) = inr row ->
  exists r w',
    extractEntities text env w = (Ok r, w') /\
    er_originalText r = text /\
    let reply := ai_or_default row in
    ((~ exists m, brace_span reply m) -> er_entities r = []) /\
    (forall m, brace_span reply m -> JSON_parse env m = None ->
               er_entities r = [("raw", VStr reply)]) /\
    (forall m o, brace_span reply m -> JSON_parse env m = Some o ->
                 er_entities r = o).
Proof.
  intros H. rewrite (extractEntities_ok _ _ _ _ H). cbv zeta.
  destruct (match_braces (ai_or_default row)) as [m|] eqn:E.
  - destruct (JSON_parse env m) as [o|] eqn:P; eexists _, _;
      (split; [reflexivity |]); (split; [reflexivity |]); cbn [er_entities];
      repeat split.
    + intros Hno. exfalso. apply Hno. exists m. by apply match_braces_Some.
    + intros m' Hm' P'. apply match_braces_Some in Hm'. congruence.
    + intros m' o' Hm' P'. apply match_braces_Some in Hm'. congruence.
    + intros Hno. exfalso. apply Hno. exists m. by apply match_braces_Some.
    + intros m' o' Hm' P'. apply match_braces_Some in Hm'. congruence.
  - eexists _, _. split; [reflexivity |]. split; [reflexivity |]. cbn [er_entities].
    repeat split.
    + intros m' Hm' _. apply match_braces_Some in Hm'. congruence.
    + intros m' o' Hm' _. apply match_braces_Some in Hm'. congruence.
Qed.

Lemma extractEntities_spec_witness :
  exists r w',
    extractEntities "hi"
      (Example.env [Example.reply "Here you go: {name: Ali} thanks"] [] [])
      Example.empty_world = (Ok r, w') /\
    er_entities r = [("raw", VStr "Here you go: {name: Ali} thanks")].
Proof.
  destruct (extractEntities_spec
              (Example.env [Example.reply "Here you go: {name: Ali} thanks"] [] [])
              Example.empty_world "hi"
              (Some {| col_ID := Some "row";
                       col_AI := Some "Here you go: {name: Ali} thanks";
                       col_Step1_Understand := None; col_Step2_Fetch := None;
                       col_Step3_Draft := None;
                       col_Step4_Refine := Some "Here you go: {name: Ali} thanks" |})
              eq_refl)
    as (r & w' & Hrun & _ & _ & Hraw & _).
  exists r, w'. split; [exact Hrun |].
  apply (Hraw "{name: Ali}").
  - apply match_braces_Some. vm_compute. reflexivity.
  - vm_compute. reflexivity.
Defined.

(** ** Relating the world before and after a computation *)

Lemma bind_ok {A B} (m : M A) (k : A -> M B) env w a w1 :
  m env w = (Ok a, w1) -> bind m k env w = k a env w1.
Proof. intros H. unfold bind. by rewrite H. Qed.

Lemma bind_throw {A B} (m : M A) (k : A -> M B) env w e w1 :
  m env w = (Throw e, w1) -> bind m k env w = (Throw e, w1).
Proof. intros H. unfold bind. by rewrite H. Qed.

Lemma bind_inv {A B} (m : M A) (k : A -> M B) env w b w' :
  bind m k env w = (Ok b, w') ->
  exists a w1, m env w = (Ok a, w1) /\ k a env w1 = (Ok b, w').
Proof.
  unfold bind. destruct (m env w) as [[a|e] w1]; [| done].
  intros H. by exists a, w1.
Qed.

Section Respects.
Context (R : World -> World -> Prop).
Hypothesis R_refl : forall w, R w w.
Hypothesis R_trans : forall w1 w2 w3, R w1 w2 -> R w2 w3 -> R w1 w3.

Lemma respects_ret {A} (a : A) : respects R (ret a).
Proof. intros env w. apply R_refl. Qed.

Lemma respects_throw {A} e : respects R (@throw A e).
Proof. intros env w. apply R_refl. Qed.

Lemma respects_ask : respects R ask.
Proof. intros env w. apply R_refl. Qed.

Lemma respects_parse text : respects R (JSON_parse_or_throw text).
Proof.
  intros env w. unfold JSON_parse_or_throw. destruct (JSON_parse env text); apply R_refl.
Qed.

Lemma respects_bind {A B} (m : M A) (k : A -> M B) :
  respects R m -> (forall a, respects R (k a)) -> respects R (bind m k).
Proof.
  intros Hm Hk env w. unfold bind. specialize (Hm env w).
  destruct (m env w) as [[a|e] w1]; [| exact Hm].
  eapply R_trans; [exact Hm | apply Hk].
Qed.

Lemma respects_try_catch {A} (m : M A) (h : error -> M A) :
  respects R m -> (forall e, respects R (h e)) -> respects R (try_catch m h).
Proof.
  intros Hm Hh env w. unfold try_catch. specialize (Hm env w).
  destruct (m env w) as [[a|e] w1]; [exact Hm |].
  eapply R_trans; [exact Hm | apply Hh].
Qed.

Lemma respects_if {A} (b : bool) (m1 m2 : M A) :
  respects R m1 -> respects R m2 -> respects R (if b then m1 else m2).
Proof. by destruct b. Qed.

End Respects.

Lemma message_writes_app (a b : list Event) :
  message_writes (a ++ b) = message_writes a ++ message_writes b.
Proof. apply List.filter_app. Qed.

Lemma frame_refl w : frame w w.
Proof. repeat split. exists []. by rewrite app_nil_r. Qed.

Lemma frame_trans w1 w2 w3 : frame w1 w2 -> frame w2 w3 -> frame w1 w3.
Proof.
  intros (Hc & evs & Ht & He) (Hc' & evs' & Ht' & He').
  split; [congruence |].
  exists (evs ++ evs'). rewrite Ht', Ht, app_assoc. split; [done |].
  by rewrite message_writes_app, He, He'.
Qed.

Lemma silent_refl w : silent w w.
Proof. repeat split. apply frame_refl. Qed.

Lemma silent_trans w1 w2 w3 : silent w1 w2 -> silent w2 w3 -> silent w1 w3.
Proof.
  intros (Hs & Hn & Hx & Hf) (Hs' & Hn' & Hx' & Hf').
  split; [congruence |]. split; [congruence |]. split; [congruence |].
  by eapply frame_trans.
Qed.

Lemma keeps_refl w : keeps w w.
Proof. by intros coll id. Qed.

Lemma keeps_trans w1 w2 w3 : keeps w1 w2 -> keeps w2 w3 -> keeps w1 w3.
Proof. intros H1 H2 coll id H. by apply H2, H1. Qed.

(** One event that writes no message. *)
Lemma frame_emit e w : is_message_write e = false -> frame w (emit e w).
Proof.
  intros H. repeat split. exists [e]. split; [done |].
  unfold message_writes. simpl. by rewrite H.
Qed.

Lemma silent_log l msg : respects silent (log l msg).
Proof. intros env w. repeat split. by apply frame_emit. Qed.

Lemma silent_newDate : respects silent newDate.
Proof. intros env w. repeat split. exists []. by rewrite app_nil_r. Qed.

Lemma silent_addTableRows r : respects silent (addTableRows r).
Proof.
  intros env w. unfold addTableRows.
  destruct (ai_reply env (ai_calls w) r); repeat split; by exists [EvAI r].
Qed.

Lemma keeps_log l msg : respects keeps (log l msg).
Proof. by intros env w coll id. Qed.

Lemma keeps_newDate : respects keeps newDate.
Proof. by intros env w coll id. Qed.

Lemma keeps_addTableRows r : respects keeps (addTableRows r).
Proof. intros env w coll id. unfold addTableRows. by destruct (ai_reply env (ai_calls w) r). Qed.

Lemma keeps_sheet o d : respects keeps (writeMessageToSheet o d).
Proof.
  intros env w coll id. unfold writeMessageToSheet.
  by destruct (sheet_fault env (sheet_calls w)).
Qed.

Lemma keeps_put_doc coll id d w : keeps w (put_doc coll id d w).
Proof.
  intros coll' id' H. destruct (decide (coll' = coll)) as [->|Hne].
  - rewrite collection_put_doc. destruct (decide (id' = id)) as [->|Hid].
    + rewrite lookup_insert_eq. by eexists.
    + by rewrite lookup_insert_ne.
  - by rewrite collection_put_doc_ne.
Qed.

Lemma keeps_db_add coll d : respects keeps (db_add coll d).
Proof.
  intros env w. unfold db_add.
  destruct (store_fault env (store_calls w)); [by intros c i |].
  destruct (collection w coll !! auto_id env (store_calls w)); [by intros c i |].
  cbn [snd]. eapply keeps_trans; [| apply keeps_put_doc]. by intros c i.
Qed.

Lemma keeps_db_update coll id d : respects keeps (db_update coll id d).
Proof.
  intros env w. unfold db_update.
  destruct (store_fault env (store_calls w)); [by intros c i |].
  destruct (collection w coll !! id); [| by intros c i].
  cbn [snd]. eapply keeps_trans; [| apply keeps_put_doc]. by intros c i.
Qed.

(** Structural steps of a proof that a computation respects [R]. *)
Ltac respects_with Hrefl Htrans :=
  repeat match goal with
    | |- respects _ (bind _ _) => apply (respects_bind _ Htrans)
    | |- respects _ (try_catch _ _) => apply (respects_try_catch _ Htrans)
    | |- respects _ (if _ then _ else _) => apply respects_if
    | |- respects _ (ret _) => apply (respects_ret _ Hrefl)
    | |- respects _ (throw _) => apply (respects_throw _ Hrefl)
    | |- respects _ ask => apply (respects_ask _ Hrefl)
    | |- respects _ (JSON_parse_or_throw _) => apply (respects_parse _ Hrefl)
    | |- respects _ (let _ := _ in _) => cbv zeta
    | |- forall _, _ => intro
    | |- respects _ (match ?x with _ => _ end) => destruct x
    end.

Lemma silent_generateResponse message language context :
  respects silent (generateResponse message language context).
Proof.
  unfold generateResponse.
  respects_with silent_refl silent_trans; auto using silent_log, silent_addTableRows.
Qed.

Lemma silent_classifyIntent text : respects silent (classifyIntent text).
Proof.
  unfold classifyIntent.
  respects_with silent_refl silent_trans;
    auto using silent_log, silent_addTableRows, silent_generateResponse.
Qed.

Lemma silent_extractEntities text : respects silent (extractEntities text).
Proof.
  unfold extractEntities.
  respects_with silent_refl silent_trans;
    auto using silent_log, silent_addTableRows, silent_generateResponse.
Qed.

Lemma silent_executeActionChain message messageType :
  respects silent (executeActionChain message messageType).
Proof.
  unfold executeActionChain.
  respects_with silent_refl silent_trans; auto using silent_log, silent_addTableRows.
Qed.

Lemma keeps_generateResponse message language context :
  respects keeps (generateResponse message language context).
Proof.
  unfold generateResponse.
  respects_with keeps_refl keeps_trans; auto using keeps_log, keeps_addTableRows.
Qed.

Lemma keeps_classifyIntent text : respects keeps (classifyIntent text).
Proof.
  unfold classifyIntent.
  respects_with keeps_refl keeps_trans;
    auto using keeps_log, keeps_addTableRows, keeps_generateResponse.
Qed.

Lemma keeps_extractEntities text : respects keeps (extractEntities text).
Proof.
  unfold extractEntities.
  respects_with keeps_refl keeps_trans;
    auto using keeps_log, keeps_addTableRows, keeps_generateResponse.
Qed.

Lemma keeps_executeActionChain message messageType :
  respects keeps (executeActionChain message messageType).
Proof.
  unfold executeActionChain.
  respects_with keeps_refl keeps_trans; auto using keeps_log, keeps_addTableRows.
Qed.

Lemma keeps_createLeadFromMessage organizationId messageId entities phone :
  respects keeps (createLeadFromMessage organizationId messageId entities phone).
Proof.
  unfold createLeadFromMessage.
  respects_with keeps_refl keeps_trans;
    auto using keeps_log, keeps_newDate, keeps_db_add.
Qed.

Lemma keeps_pipeline messageData : respects keeps (pipeline messageData).
Proof.
  unfold pipeline.
  respects_with keeps_refl keeps_trans;
    auto using keeps_log, keeps_newDate, keeps_db_add, keeps_db_update, keeps_sheet,
      keeps_addTableRows, keeps_classifyIntent, keeps_extractEntities, keeps_executeActionChain,
      keeps_generateResponse, keeps_createLeadFromMessage.
Qed.

Lemma keeps_recovery messageData e : respects keeps (recovery messageData e).
Proof.
  unfold recovery.
  respects_with keeps_refl keeps_trans;
    auto using keeps_log, keeps_newDate, keeps_db_update.
Qed.

(** No run of [processMessage] removes a document from the store. *)
Lemma keeps_processMessage messageData : respects keeps (processMessage messageData).
Proof.
  unfold processMessage. apply (respects_try_catch _ keeps_trans).
  - apply keeps_pipeline.
  - intros e. apply keeps_recovery.
Qed.

(** Creating a lead never throws and leaves the messages alone. *)
Lemma createLeadFromMessage_frame env w organizationId messageId entities phone :
  exists l w',
    createLeadFromMessage organizationId messageId entities phone env w = (Ok l, w') /\
    sheet_calls w' = sheet_calls w /\ frame w w'.
Proof.
  rewrite createLeadFromMessage_run. cbv zeta. unfold db_add.
  autorewrite with world. wproj.
  destruct (store_fault env (store_calls w)) as [e|]; cbv beta iota.
  { eexists _, _. split; [reflexivity |]. repeat split. unfold ext. wproj.
    eexists [_; _]. by rewrite <- app_assoc. }
  destruct (collection w "leads" !! auto_id env (store_calls w)); cbv beta iota.
  { eexists _, _. split; [reflexivity |]. repeat split. unfold ext. wproj.
    eexists [_; _]. by rewrite <- app_assoc. }
  eexists _, _. split; [reflexivity |]. split; [| split].
  - reflexivity.
  - rewrite collection_emit, collection_put_doc_ne by done. reflexivity.
  - unfold ext. wproj. eexists [_; _]. by rewrite <- app_assoc.
Qed.

(** ** The pipeline, step by step *)

Lemma ext_trans w1 w2 w3 a b : ext w1 w2 a -> ext w2 w3 b -> ext w1 w3 (a ++ b).
Proof.
  intros (evs & Ht & He) (evs' & Ht' & He'). exists (evs ++ evs').
  rewrite Ht', Ht, app_assoc. split; [done |].
  by rewrite message_writes_app, He, He'.
Qed.

Lemma db_add_inv coll d env w id w' :
  db_add coll d env w = (Ok id, w') ->
  store_fault env (store_calls w) = None /\
  id = auto_id env (store_calls w) /\
  collection w coll !! id = None /\
  w' = put_doc coll id d (store_called (emit (EvAdd coll d) w)).
Proof.
  unfold db_add. destruct (store_fault env (store_calls w)); [done |].
  destruct (collection w coll !! auto_id env (store_calls w)) eqn:E; [done |].
  by intros [= <- <-].
Qed.

Lemma db_update_inv coll id d env w w' :
  db_update coll id d env w = (Ok tt, w') ->
  store_fault env (store_calls w) = None /\
  exists old, collection w coll !! id = Some old /\
    w' = put_doc coll id (d ∪ old) (store_called (emit (EvUpdate coll id d) w)).
Proof.
  unfold db_update. destruct (store_fault env (store_calls w)); [done |].
  destruct (collection w coll !! id) as [old|] eqn:E; [| done].
  intros [= <-]. split; [done |]. by exists old.
Qed.

(** Step 7 never throws, and an error of the export ends up in the log. *)
Lemma sheet_step env w organizationId (data : Z -> object) :
  exists w',
    try_catch
      (let! timestamp := newDate in writeMessageToSheet organizationId (data timestamp))
      (fun sheetError => log LWarn ("Google Sheets write failed: " +:+ sheetError))
      env w = (Ok tt, w') /\
    collection w' "messages" = collection w "messages" /\
    store_calls w' = store_calls w /\
    exists evs, trace w' = trace w ++ evs /\ message_writes evs = [] /\
      forall e, sheet_fault env (sheet_calls w) = Some e ->
                In (EvLog LWarn ("Google Sheets write failed: " +:+ e)) evs.
Proof.
  unfold try_catch, bind, newDate, writeMessageToSheet, log. wproj.
  destruct (sheet_fault env (sheet_calls w)) as [e|]; eexists; (split; [reflexivity |]);
    (split; [reflexivity |]); (split; [reflexivity |]); wproj.
  - eexists [_; _]. rewrite <- app_assoc. split; [reflexivity |]. split; [reflexivity |].
    intros e' [= <-]. simpl. auto.
  - eexists [_]. split; [reflexivity |]. split; [reflexivity |]. done.
Qed.

(** The recovery branch ends by throwing the error it was given.  It
    creates no document; it writes to the store only when the input carries
    a message identifier, and then it is one update of the document of that
    name, whose own failure is swallowed. *)
Lemma recovery_spec messageData e env w :
  exists w', recovery messageData e env w = (Throw e, w') /\
    dom (collection w' "messages") = dom (collection w "messages") /\
    if truthy (of_option (md_messageId messageData)) then
      let id := default EmptyString (md_messageId messageData) in
      let data := failedUpdate e (clock env (clock_reads w)) in
      ext w w' [EvUpdate "messages" id data] /\
      (forall id', id' <> id ->
         collection w' "messages" !! id' = collection w "messages" !! id') /\
      (forall old, collection w "messages" !! id = Some old ->
         store_fault env (store_calls w) = None ->
         collection w' "messages" !! id = Some (data ∪ old))
    else store w' = store w /\ ext w w' [].
Proof.
  unfold recovery, bind, try_catch, log, newDate, db_update, throw, ret, ext.
  destruct (truthy (of_option (md_messageId messageData))); cbv zeta; wproj.
  - autorewrite with world.
    destruct (store_fault env (store_calls w)) as [ue|].
    { eexists. split; [reflexivity |]. autorewrite with world. split; [done |].
      wproj. split; [| done].
      eexists [_; _; _]. rewrite <- !app_assoc. split; reflexivity. }
    destruct (collection w "messages" !! default EmptyString (md_messageId messageData))
      as [old|] eqn:E.
    + eexists. split; [reflexivity |]. autorewrite with world.
      split; [| split; [| split]].
      * apply dom_insert_lookup_L. by eexists.
      * wproj. eexists [_; _]. rewrite <- !app_assoc. split; reflexivity.
      * intros id' Hne. by rewrite lookup_insert_ne.
      * intros old' [= <-] _. by rewrite lookup_insert_eq.
    + eexists. split; [reflexivity |]. autorewrite with world. split; [done |].
      wproj. split; [| done].
      eexists [_; _; _]. rewrite <- !app_assoc. split; reflexivity.
  - eexists. split; [reflexivity |]. split; [done |]. split; [done |].
    wproj. by eexists [_].
Qed.

Lemma respects_run {A} (R : World -> World -> Prop) (m : M A) env w r w' :
  respects R m -> m env w = (r, w') -> R w w'.
Proof. intros H E. specialize (H env w). by rewrite E in H. Qed.

Lemma pipeline_steps_2_3_throw messageData env w e :
  steps_2_3_throw env w (md_content messageData) e ->
  exists w1, pipeline messageData env w = (Throw e, w1) /\ silent w w1.
Proof.
  intros H. unfold pipeline. cbv zeta.
  set (w0 := emit (EvLog LInfo
             ("Processing message from " +:+ md_from messageData +:+ " via "
              +:+ md_channelType messageData)) w).
  rewrite (bind_ok (log LInfo _) _ env w tt w0 eq_refl).
  assert (F0 : silent w w0).
  { exact (respects_run silent (log LInfo _) env w (Ok tt) w0 (silent_log _ _) eq_refl). }
  destruct H as [H | [[row Hrow] H]].
  - pose proof (classifyIntent_throw env w0 _ _ H) as E1.
    rewrite (bind_throw _ _ _ _ _ _ E1).
    eexists. split; [reflexivity |].
    eapply silent_trans; [exact F0 |].
    exact (respects_run silent _ _ _ _ _ (silent_classifyIntent _) E1).
  - pose proof (classifyIntent_ok env w0 _ _ Hrow) as E1.
    rewrite (bind_ok _ _ _ _ _ _ E1).
    pose proof (extractEntities_throw env
      (ai_called (chat_row env (intent_prompt (md_content messageData)) []) w0) _ _ H) as E2.
    rewrite (bind_throw _ _ _ _ _ _ E2).
    eexists. split; [reflexivity |].
    eapply silent_trans; [exact F0 |]. eapply silent_trans.
    + exact (respects_run silent _ _ _ _ _ (silent_classifyIntent _) E1).
    + exact (respects_run silent _ _ _ _ _ (silent_extractEntities _) E2).
Qed.



(** With an identifier the update is attempted; here the store has no
    document of that name, the update fails, its failure is logged, and
    the first error is the one thrown. *)
Example recovery_update_without_document :
  let run := processMessage (Example.message (Some "wamid.1"))
               (Example.env [inl "AI unavailable"] [] []) Example.empty_world in
  run.1 = Throw "AI unavailable" /\
  message_writes (trace run.2)
    = [EvUpdate "messages" "wamid.1"
         (failedUpdate "AI unavailable" (JSDate.civil 2025 3 15 10 30))] /\
  In (EvLog LError "Failed to update message status: NOT_FOUND") (trace run.2) /\
  collection run.2 "messages" = ∅.
Proof. vm_compute. repeat split; auto 10. Qed.



Lemma silent_frame w w' : silent w w' -> frame w w'.
Proof. by intros (_ & _ & _ & H). Qed.

(** Steps 5 and 6 leave the messages alone. *)
Lemma step5_silent content language intent :
  respects silent
    (if arrayIncludes ["booking"; "inquiry"] intent then
       let! actionResult := executeActionChain content intent in
       ret (of_option (ar_finalResponse actionResult))
     else
       let! responseResult :=
         generateResponse content language [("intent", VStr intent)] in
       ret (VStr (gr_response responseResult))).
Proof.
  respects_with silent_refl silent_trans;
    auto using silent_executeActionChain, silent_generateResponse.
Qed.

Lemma step6_frame env w (b : bool) organizationId messageRef entities from r w' :
  (if b then
     let! l := createLeadFromMessage organizationId messageRef entities from in
     ret (id_or_null l)
   else ret VNull) env w = (r, w') ->
  (exists leadId, r = Ok leadId) /\ frame w w' /\ sheet_calls w' = sheet_calls w.
Proof.
  destruct b.
  - destruct (createLeadFromMessage_frame env w organizationId messageRef entities from)
      as (l & w1 & E & Hs & F).
    rewrite (bind_ok _ _ _ _ _ _ E). unfold ret. intros [= <- <-].
    split; [by eexists |]. by split.
  - unfold ret. intros [= <- <-]. split; [by eexists |]. split; [apply frame_refl | done].
Qed.

(** Splits a hypothesis [bind m k env w = (Ok b, w')]. *)
Ltac inv_bind H a w1 E :=
  apply bind_inv in H as (a & w1 & E & H).

(** From [E : m env w = (r, w')] with [m] silent. *)
Ltac silent_of E F :=
  match type of E with
  | ?m ?env ?w = (?r, ?w') =>
      assert (F : silent w w')
        by (refine (respects_run silent m env w r w' _ E);
            auto using silent_log, silent_newDate, silent_classifyIntent,
              silent_extractEntities, step5_silent)
  end.

(** A successful run of the [try] block: what it did to the messages. *)
Lemma pipeline_success messageData env w r w' :
  pipeline messageData env w = (Ok r, w') ->
  exists t1 t2 t3 t4,
    let data := newMessage messageData (pr_language r) (pr_intent r) (pr_entities r) t1 t2 in
    let data' := completedUpdate (pr_response r) (pr_leadId r) t3 t4 in
    pr_success r = true /\
    pr_messageId r = auto_id env (store_calls w) /\
    collection w "messages" !! pr_messageId r = None /\
    collection w' "messages" = <[pr_messageId r := data' ∪ data]> (collection w "messages") /\
    ext w w' [EvAdd "messages" data; EvUpdate "messages" (pr_messageId r) data'].
Proof.
  intros H. unfold pipeline in H. cbv zeta in H.
  inv_bind H u0 w0 E0. silent_of E0 F0.
  inv_bind H ir w1 E1. silent_of E1 F1.
  inv_bind H er w2 E2. silent_of E2 F2.
  inv_bind H t1 w3 E3. silent_of E3 F3.
  inv_bind H t2 w4 E4. silent_of E4 F4.
  inv_bind H mid w5 E5. apply db_add_inv in E5 as (_ & Hid & Hfresh & ->).
  inv_bind H ai w6 E6. silent_of E6 F6.
  inv_bind H leadId w7 E7. apply step6_frame in E7 as (_ & F7 & _).
  inv_bind H u8 w8 E8.
  match type of E8 with
  | try_catch (bind newDate (fun t => writeMessageToSheet ?o (@?d t))) _ _ _ = _ =>
      destruct (sheet_step env w7 o d) as (w8' & E8' & C8 & _ & evs8 & T8 & M8 & _)
  end.
  cbv beta in E8'. rewrite E8' in E8. injection E8 as _ <-.
  inv_bind H t3 w9 E9. silent_of E9 F9.
  inv_bind H t4 w10 E10. silent_of E10 F10.
  inv_bind H u11 w11 E11. destruct u11.
  apply db_update_inv in E11 as (_ & old & Hold & ->).
  injection H as <- <-. cbn [pr_success pr_messageId pr_language pr_intent pr_entities
                            pr_response pr_leadId].
  exists t1, t2, t3, t4. cbv zeta.
  set (data := newMessage messageData
                 (ld_language (detectLanguage (md_content messageData)))
                 (ir_intent ir) (er_entities er) t1 t2) in *.
  set (data' := completedUpdate ai leadId t3 t4) in *.
  set (w5 := put_doc "messages" mid data (store_called (emit (EvAdd "messages" data) w4)))
    in *.
  assert (S04 : silent w w4) by eauto using silent_trans.
  destruct S04 as (_ & N04 & _ & C04 & X04).
  assert (F510 : frame w5 w10).
  { eapply frame_trans; [exact (silent_frame _ _ F6) |].
    eapply frame_trans; [exact F7 |].
    eapply frame_trans; [| eapply frame_trans; [exact (silent_frame _ _ F9) |
                                                 exact (silent_frame _ _ F10)]].
    split; [exact C8 | by exists evs8]. }
  destruct F510 as (C510 & X510).
  assert (C5 : collection w5 "messages" = <[mid := data]> (collection w "messages")).
  { unfold w5. by rewrite collection_put_doc, collection_store_called, collection_emit, C04. }
  assert (Hdata : old = data).
  { rewrite C510, C5, lookup_insert_eq in Hold. by injection Hold. }
  subst old.
  split; [done |]. split; [by rewrite Hid, N04 |]. split; [by rewrite <- C04 |]. split.
  - rewrite collection_put_doc, collection_store_called, collection_emit, C510, C5.
    apply insert_insert_eq.
  - assert (X45 : ext w4 w5 [EvAdd "messages" data]) by (by exists [EvAdd "messages" data]).
    assert (X1011 : ext w10
              (put_doc "messages" mid (data' ∪ data)
                 (store_called (emit (EvUpdate "messages" mid data') w10)))
              [EvUpdate "messages" mid data'])
      by (by exists [EvUpdate "messages" mid data']).
    exact (ext_trans _ _ _ _ _ (ext_trans _ _ _ _ _ (ext_trans _ _ _ _ _ X04 X45) X510) X1011).
Qed.

Lemma processMessage_ok_inv messageData env w r w' :
  processMessage messageData env w = (Ok r, w') ->
  pipeline messageData env w = (Ok r, w').
Proof.
  unfold processMessage, try_catch.
  destruct (pipeline messageData env w) as [[r0|e] w0]; [done |].
  destruct (recovery_spec messageData e env w0) as (w1 & -> & _). discriminate.
Qed.

Lemma newMessage_fields messageData language intent entities t1 t2 :
  let data := newMessage messageData language intent entities t1 t2 in
  data !! "processingStatus" = Some (VStr "processing") /\
  data !! "language" = Some (VStr language) /\
  data !! "intent" = Some (VStr intent) /\
  data !! "entities" = Some (VObj entities).
Proof. repeat split; reflexivity. Qed.

Lemma completed_over_new messageData language intent entities t1 t2 ai leadId t3 t4 :
  (completedUpdate ai leadId t3 t4 ∪ newMessage messageData language intent entities t1 t2)
    !! "processingStatus" = Some (VStr "completed").
Proof. apply lookup_union_Some_l. reflexivity. Qed.

(** C9, as stated, fails: in this successful run the message document
    [doc0] is created with its derived fields and then updated once, not
    twice. *)
Lemma processMessage_lifecycle_counterexample :
  let run := processMessage (Example.message None)
               (Example.env [Example.reply "booking"; Example.reply "{}";
                             Example.reply "Baik"] [] [])
               Example.empty_world in
  (exists r, run.1 = Ok r /\ pr_messageId r = "doc0") /\
  length (updates_of "messages" "doc0" (trace run.2)) = 1 /\
  length (updates_of "messages" "doc0" (trace run.2)) <> 2.
Proof.
  split; [| split].
  - eexists. split; vm_compute; reflexivity.
  - vm_compute. reflexivity.
  - vm_compute. discriminate.
Qed.

(** C9, amended.  No run of [processMessage] deletes a document.  A run
    that returns wrote the messages exactly twice: it created the message
    document, with the language, the intent, the entities and the status
    [processing], and then updated that same document once, which sets the
    status [completed]. *)
Theorem processMessage_message_lifecycle (env : Env) (w : World) (messageData : MessageData) :
  keeps w (processMessage messageData env w).2 /\
  forall r w',
    processMessage messageData env w = (Ok r, w') ->
    exists t1 t2 t3 t4,
      let data := newMessage messageData (pr_language r) (pr_intent r) (pr_entities r) t1 t2 in
      let data' := completedUpdate (pr_response r) (pr_leadId r) t3 t4 in
      collection w "messages" !! pr_messageId r = None /\
      ext w w' [EvAdd "messages" data; EvUpdate "messages" (pr_messageId r) data'] /\
      collection w' "messages" !! pr_messageId r = Some (data' ∪ data) /\
      data !! "processingStatus" = Some (VStr "processing") /\
      data !! "language" = Some (VStr (pr_language r)) /\
      data !! "intent" = Some (VStr (pr_intent r)) /\
      data !! "entities" = Some (VObj (pr_entities r)) /\
      (data' ∪ data) !! "processingStatus" = Some (VStr "completed").
Proof.
  split; [apply keeps_processMessage |].
  intros r w' H. apply processMessage_ok_inv, pipeline_success in H
    as (t1 & t2 & t3 & t4 & _ & _ & Hfresh & Hcoll & Hext).
  exists t1, t2, t3, t4. cbv zeta.
  split; [exact Hfresh |]. split; [exact Hext |].
  split; [by rewrite Hcoll, lookup_insert_eq |].
  destruct (newMessage_fields messageData (pr_language r) (pr_intent r) (pr_entities r) t1 t2)
    as (? & ? & ? & ?).
  repeat split; try done; apply completed_over_new.
Qed.

Lemma processMessage_message_lifecycle_witness :
  exists r w',
    processMessage (Example.message None)
      (Example.env [Example.reply "booking"; Example.reply "{}"; Example.reply "Baik"] [] [])
      Example.empty_world = (Ok r, w') /\
    exists data data',
      message_writes (trace w') = [EvAdd "messages" data; EvUpdate "messages" "doc0" data'].
Proof.
  set (env := Example.env [Example.reply "booking"; Example.reply "{}";
                           Example.reply "Baik"] [] []).
  destruct (processMessage (Example.message None) env Example.empty_world) as [[r|e] w']
    eqn:E; [| vm_compute in E; discriminate E].
  destruct (processMessage_message_lifecycle env Example.empty_world (Example.message None))
    as [_ Hlife].
  destruct (Hlife r w' E) as (t1 & t2 & t3 & t4 & _ & (evs & Ht & Hw) & _).
  exists r, w'. split; [reflexivity |].
  assert (Hid : pr_messageId r = "doc0") by (vm_compute in E; by injection E as <- _).
  rewrite Hid in Hw. eexists _, _. simpl in Ht. rewrite Ht. exact Hw.
Defined.

(** ** Runs in which only the export fails *)

Lemma extractEntities_returns env w text :
  ai_up env -> exists r w', extractEntities text env w = (Ok r, w').
Proof.
  intros Hai. destruct (Hai (ai_calls w) (chat_row env (entity_prompt text) [])) as [row H].
  rewrite (extractEntities_ok _ _ _ _ H). cbv zeta.
  destruct (match_braces (ai_or_default row)) as [m|]; [| by eexists _, _].
  destruct (JSON_parse env m); by eexists _, _.
Qed.

Lemma executeActionChain_returns env w message messageType :
  ai_up env -> exists r w', executeActionChain message messageType env w = (Ok r, w').
Proof.
  intros Hai. destruct (Hai (ai_calls w) (ActionRow message)) as [row H].
  unfold executeActionChain, try_catch, bind, addTableRows, ret. rewrite H.
  by eexists _, _.
Qed.

Lemma step5_returns env w content language intent :
  ai_up env ->
  exists ai w',
    (if arrayIncludes ["booking"; "inquiry"] intent then
       let! actionResult := executeActionChain content intent in
       ret (of_option (ar_finalResponse actionResult))
     else
       let! responseResult :=
         generateResponse content language [("intent", VStr intent)] in
       ret (VStr (gr_response responseResult))) env w = (Ok ai, w').
Proof.
  intros Hai. destruct (arrayIncludes _ intent).
  - destruct (executeActionChain_returns env w content intent Hai) as (r & w' & E).
    rewrite (bind_ok _ _ _ _ _ _ E). by eexists _, _.
  - destruct (Hai (ai_calls w) (chat_row env content [("intent", VStr intent)])) as [row H].
    rewrite (bind_ok _ _ _ _ _ _ (generateResponse_ok _ _ _ _ _ _ H)). by eexists _, _.
Qed.

Lemma db_add_ok coll d env w :
  store_fault env (store_calls w) = None ->
  collection w coll !! auto_id env (store_calls w) = None ->
  db_add coll d env w =
    (Ok (auto_id env (store_calls w)),
     put_doc coll (auto_id env (store_calls w)) d (store_called (emit (EvAdd coll d) w))).
Proof. intros Hf Hn. unfold db_add. by rewrite Hf, Hn. Qed.

Lemma db_update_ok coll id d old env w :
  store_fault env (store_calls w) = None ->
  collection w coll !! id = Some old ->
  db_update coll id d env w =
    (Ok tt, put_doc coll id (d ∪ old) (store_called (emit (EvUpdate coll id d) w))).
Proof. intros Hf Ho. unfold db_update. by rewrite Hf, Ho. Qed.

Lemma ext_In w w' ws e : ext w w' ws -> In e (trace w) -> In e (trace w').
Proof. intros (evs & -> & _) H. apply in_or_app. by left. Qed.

(** With the AI and the store working, the [try] block returns even
    though the export throws, and the error of the export is logged. *)
Lemma pipeline_export_failure messageData env w e :
  ai_up env ->
  (forall n, store_fault env n = None) ->
  collection w "messages" !! auto_id env (store_calls w) = None ->
  sheet_fault env (sheet_calls w) = Some e ->
  exists r w',
    pipeline messageData env w = (Ok r, w') /\
    In (EvLog LWarn ("Google Sheets write failed: " +:+ e)) (trace w').
Proof.
  intros Hai Hstore Hfresh Hsheet. unfold pipeline. cbv zeta.
  set (w0 := emit (EvLog LInfo
             ("Processing message from " +:+ md_from messageData +:+ " via "
              +:+ md_channelType messageData)) w).
  rewrite (bind_ok (log LInfo _) _ env w tt w0 eq_refl).
  assert (F0 : silent w w0)
    by exact (respects_run silent (log LInfo _) env w (Ok tt) w0 (silent_log _ _) eq_refl).
  (* steps 2 and 3 *)
  destruct (Hai (ai_calls w0) (chat_row env (intent_prompt (md_content messageData)) []))
    as [row1 Hrow1].
  pose proof (classifyIntent_ok env w0 _ _ Hrow1) as E1.
  rewrite (bind_ok _ _ _ _ _ _ E1). silent_of E1 F1.
  match type of E1 with _ = (Ok ?x, ?y) => set (ir := x) in *; set (w1 := y) in * end.
  destruct (extractEntities_returns env w1 (md_content messageData) Hai) as (er & w2 & E2).
  rewrite (bind_ok _ _ _ _ _ _ E2). silent_of E2 F2.
  (* step 4 *)
  rewrite (bind_ok newDate _ env w2 _ _ eq_refl).
  rewrite (bind_ok newDate _ env (clock_read w2) _ _ eq_refl).
  set (w4 := clock_read (clock_read w2)).
  assert (F4 : silent w2 w4).
  { eapply silent_trans;
      [exact (respects_run silent newDate env w2 _ _ silent_newDate eq_refl) |
       exact (respects_run silent newDate env _ _ _ silent_newDate eq_refl)]. }
  assert (S04 : silent w w4) by eauto using silent_trans.
  destruct S04 as (_ & N04 & Sh04 & C04 & X04).
  match goal with |- context [db_add "messages" ?d] => set (data := d) end.
  rewrite (bind_ok _ _ _ _ _ _ (db_add_ok "messages" data env w4 (Hstore _)
             ltac:(by rewrite C04, N04))).
  set (mid := auto_id env (store_calls w4)).
  set (w5 := put_doc "messages" mid data (store_called (emit (EvAdd "messages" data) w4))).
  (* steps 5 and 6 *)
  destruct (step5_returns env w5 (md_content messageData)
              (ld_language (detectLanguage (md_content messageData))) (ir_intent ir) Hai)
    as (ai & w6 & E6).
  rewrite (bind_ok _ _ _ _ _ _ E6). silent_of E6 F6.
  match goal with
  | |- context [bind (if ?b then bind (createLeadFromMessage ?o ?m ?en ?f) _ else _) _ env w6] =>
      destruct ((if b then
                   let! l := createLeadFromMessage o m en f in ret (id_or_null l)
                 else ret VNull) env w6) as [r7 w7] eqn:E7
  end.
  destruct (step6_frame _ _ _ _ _ _ _ _ _ E7) as ([leadId ->] & F7 & Sh7).
  rewrite (bind_ok _ _ _ _ _ _ E7).
  (* step 7 *)
  match goal with
  | |- context [try_catch (bind newDate (fun t => writeMessageToSheet ?o (@?d t)))] =>
      destruct (sheet_step env w7 o d) as (w8 & E8 & C8 & _ & evs8 & T8 & M8 & L8)
  end.
  cbv beta in E8. rewrite (bind_ok _ _ _ _ _ _ E8).
  (* step 8 *)
  rewrite (bind_ok newDate _ env w8 _ _ eq_refl).
  rewrite (bind_ok newDate _ env (clock_read w8) _ _ eq_refl).
  set (w10 := clock_read (clock_read w8)).
  assert (C510 : collection w10 "messages" = collection w5 "messages").
  { destruct F6 as (_ & _ & _ & C6 & _). destruct F7 as (C7 & _).
    change (collection w8 "messages" = collection w5 "messages"). congruence. }
  assert (Hold : collection w10 "messages" !! mid = Some data).
  { rewrite C510. unfold w5. rewrite collection_put_doc. apply lookup_insert_eq. }
  match goal with |- context [db_update "messages" mid ?d] => set (data' := d) end.
  rewrite (bind_ok _ _ _ _ _ _ (db_update_ok "messages" mid data' data env w10 (Hstore _) Hold)).
  eexists _, _. split; [reflexivity |].
  wproj. apply in_or_app. left.
  change (In (EvLog LWarn ("Google Sheets write failed: " +:+ e)) (trace w8)).
  rewrite T8. apply in_or_app. right. apply L8.
  destruct F6 as (_ & _ & Sh6 & _). rewrite Sh7, Sh6.
  change (sheet_calls w5) with (sheet_calls w4). rewrite Sh04. exact Hsheet.
Qed.

(** C6.  In a run in which the spreadsheet export throws while the AI
    client and the store do their part, the error of the export is caught
    and logged: [processMessage] returns [success: true] with the
    identifier of the message document it created, and that document has
    the status [completed]. *)
Theorem processMessage_export_failure
  (env : Env) (w : World) (messageData : MessageData) (e : error) :
  ai_up env ->
  (forall n, store_fault env n = None) ->
  collection w "messages" !! auto_id env (store_calls w) = None ->
  sheet_fault env (sheet_calls w) = Some e ->
  exists r w',
    processMessage messageData env w = (Ok r, w') /\
    pr_success r = true /\
    pr_messageId r = auto_id env (store_calls w) /\
    (exists d, collection w' "messages" !! pr_messageId r = Some d /\
               d !! "processingStatus" = Some (VStr "completed")) /\
    In (EvLog LWarn ("Google Sheets write failed: " +:+ e)) (trace w').
Proof.
  intros Hai Hstore Hfresh Hsheet.
  destruct (pipeline_export_failure messageData env w e Hai Hstore Hfresh Hsheet)
    as (r & w' & E & Hlog).
  exists r, w'. split; [unfold processMessage, try_catch; by rewrite E |].
  apply pipeline_success in E as (t1 & t2 & t3 & t4 & Hs & Hid & _ & Hcoll & _).
  split; [exact Hs |]. split; [exact Hid |]. split; [| exact Hlog].
  eexists. split; [by rewrite Hcoll, lookup_insert_eq |]. apply completed_over_new.
Qed.

Lemma processMessage_export_failure_witness :
  exists r w',
    processMessage (Example.message (Some "wamid.1"))
      (Example.env [Example.reply "booking"; Example.reply "{}"; Example.reply "Baik"]
         [] [Some "quota exceeded"])
      Example.empty_world = (Ok r, w') /\
    pr_success r = true /\ pr_messageId r = "doc0" /\
    In (EvLog LWarn "Google Sheets write failed: quota exceeded") (trace w').
Proof.
  destruct (processMessage_export_failure
              (Example.env [Example.reply "booking"; Example.reply "{}";
                            Example.reply "Baik"] [] [Some "quota exceeded"])
              Example.empty_world (Example.message (Some "wamid.1")) "quota exceeded")
    as (r & w' & Hrun & Hs & Hid & _ & Hlog).
  - intros n req. do 3 (destruct n as [|n]; [eexists; reflexivity |]).
    exists None. simpl. by destruct n.
  - intros n. by destruct n.
  - reflexivity.
  - reflexivity.
  - exists r, w'. split; [exact Hrun |]. split; [exact Hs |]. split; [exact Hid |].
    exact Hlog.
Defined.

(** ** Batches *)

Lemma batch_loop_run messages results env w :
  batch_loop messages results env w =
    (Ok (results ++ (run_in_order messages env w).1), (run_in_order messages env w).2).
Proof.
  revert results w. induction messages as [|message rest IH]; intros results w.
  - cbn [batch_loop run_in_order fst snd]. unfold ret. by rewrite app_nil_r.
  - cbn [batch_loop run_in_order]. unfold bind at 1, try_catch, bind at 1, ret.
    destruct (processMessage message env w) as [[result|e] w1];
      rewrite IH; destruct (run_in_order rest env w1) as [items w2];
      cbn [fst snd item_of]; by rewrite <- app_assoc.
Qed.

Lemma run_in_order_length messages env w :
  length (run_in_order messages env w).1 = length messages.
Proof.
  revert w. induction messages as [|message rest IH]; intros w; [done |].
  cbn [run_in_order]. destruct (processMessage message env w) as [r w1].
  specialize (IH w1). destruct (run_in_order rest env w1) as [items w2].
  cbn [fst length] in *. by rewrite IH.
Qed.

Lemma filter_split_length {A} (f : A -> bool) (l : list A) :
  length (List.filter f l) + length (List.filter (fun x => negb (f x)) l) = length l.
Proof.
  induction l as [|x l IH]; [done |]. cbn [List.filter].
  destruct (f x); cbn [negb length]; lia.
Qed.

(** C7.  [batchProcessMessages] never throws.  Its results are those of
    processing the messages one at a time in input order, one entry per
    message, a failed message giving a failure entry and the loop going
    on; [total] is the number of messages, [processed] the number of
    success entries, [failed] the number of failure entries. *)
Theorem batchProcessMessages_spec (env : Env) (w : World) (messages : list MessageData) :
  exists s,
    batchProcessMessages messages env w = (Ok s, (run_in_order messages env w).2) /\
    bs_success s = true /\
    bs_results s = (run_in_order messages env w).1 /\
    length (bs_results s) = length messages /\
    bs_total s = length messages /\
    bs_processed s = length (List.filter item_success (bs_results s)) /\
    bs_failed s = length (List.filter (fun r => negb (item_success r)) (bs_results s)) /\
    bs_processed s + bs_failed s = bs_total s.
Proof.
  unfold batchProcessMessages, bind. rewrite batch_loop_run. cbn [app].
  eexists. split; [reflexivity |]. cbn [bs_success bs_results bs_total bs_processed bs_failed].
  repeat split.
  - apply run_in_order_length.
  - by rewrite filter_split_length, run_in_order_length.
Qed.

(** The second message fails and the third is still processed. *)
Example batch_goes_on :
  let s := (batchProcessMessages
              [Example.message (Some "m1"); Example.message (Some "m2");
               Example.message (Some "m3")]
              (Example.env
                 [Example.reply "general"; Example.reply "{}"; Example.reply "Hi";
                  inl "AI unavailable";
                  Example.reply "general"; Example.reply "{}"; Example.reply "Hi"] [] [])
              Example.empty_world).1 in
  exists s', s = Ok s' /\
    map item_success (bs_results s') = [true; false; true] /\
    (bs_total s', bs_processed s', bs_failed s') = (3, 2, 1).
Proof. eexists. split; [vm_compute; reflexivity |]. split; vm_compute; reflexivity. Qed.

(** A number too small for a double is read as zero, the least positive
    double is not. *)
Example read_number_underflow :
  JSONRef.read_number "1e-400" = Some (VNum 0 0, EmptyString) /\
  JSONRef.read_number "2e-324" = Some (VNum 0 0, EmptyString) /\
  JSONRef.read_number "5e-324" = Some (VNum 5 (-324), EmptyString) /\
  truthy (VNum 0 0) = false.
Proof. repeat split; vm_compute; reflexivity. Qed.

(** ** Periods *)

Section Periods.
Local Open Scope Z_scope.
Import JSDate.

Lemma MonthFromTime_range (t : Z) : 0 <= MonthFromTime t <= 11.
Proof.
  unfold MonthFromTime. cbv zeta.
  repeat match goal with |- context [if ?b then _ else _] => destruct b end; lia.
Qed.

Lemma MakeDay_same_month (t dt : Z) :
  MakeDay (YearFromTime t) (MonthFromTime t) dt = Day t + (dt - DateFromTime t).
Proof.
  pose proof (MonthFromTime_range t) as Hm.
  unfold MakeDay. cbv zeta.
  rewrite (Z.div_small (MonthFromTime t) 12), (Z.mod_small (MonthFromTime t) 12) by lia.
  unfold DateFromTime, DayWithinYear, InLeapYear. rewrite Z.add_0_r. lia.
Qed.

Lemma Day_TimeWithinDay (t : Z) : MakeDate (Day t) (TimeWithinDay t) = t.
Proof.
  unfold MakeDate, Day, TimeWithinDay.
  pose proof (Z.div_mod t msPerDay ltac:(done)). lia.
Qed.

Lemma setHours0_midnight (tz t : Z) : setHours0 tz t = midnight_today tz t.
Proof.
  unfold setHours0, midnight_today, UTC, LocalTime, MakeDate, Day.
  pose proof (Z.div_mod (t + tz) msPerDay ltac:(done)). lia.
Qed.

Lemma setDate_week (tz now t : Z) :
  getDate tz now = getDate tz t ->
  setDate tz t (getDate tz now - 7) = seven_days_before t.
Proof.
  intros H. unfold setDate. cbv zeta. rewrite H. unfold getDate.
  rewrite MakeDay_same_month.
  pose proof (Day_TimeWithinDay (LocalTime tz t)) as Hd.
  unfold seven_days_before, UTC, MakeDate in *. unfold LocalTime in Hd at 3. lia.
Qed.

(** *** The calendar *)

(** [YearFromTime] is the year the day of [t] falls in. *)
Lemma YearFromTime_spec (t : Z) :
  DayFromYear (YearFromTime t) <= Day t < DayFromYear (YearFromTime t + 1).
Proof.
  unfold YearFromTime. cbv zeta. generalize (Day t). intros d.
  assert (Hlo : DayFromYear (1970 + d * 400 / 146097 - 1) <= d).
  { unfold DayFromYear. Z.to_euclidean_division_equations. lia. }
  assert (Hhi : d < DayFromYear (1970 + d * 400 / 146097 + 1 + 1)).
  { unfold DayFromYear. Z.to_euclidean_division_equations. lia. }
  destruct (Z.leb_spec (DayFromYear (1970 + d * 400 / 146097 + 1)) d).
  - lia.
  - destruct (Z.leb_spec (DayFromYear (1970 + d * 400 / 146097)) d).
    + lia.
    + replace (1970 + d * 400 / 146097 - 1 + 1) with (1970 + d * 400 / 146097) by lia.
      lia.
Qed.

Lemma DayFromYear_next (y : Z) : DayFromYear (y + 1) = DayFromYear y + 365 + leap y.
Proof.
  unfold DayFromYear, leap.
  destruct (Z.eqb_spec (y mod 4) 0), (Z.eqb_spec (y mod 100) 0), (Z.eqb_spec (y mod 400) 0);
    cbn [negb andb orb]; Z.to_euclidean_division_equations; lia.
Qed.

(** The day of the month is a day of a month. *)
Lemma DateFromTime_range (t : Z) : 1 <= DateFromTime t <= 31.
Proof.
  pose proof (YearFromTime_spec t) as Hy. rewrite DayFromYear_next in Hy.
  unfold DateFromTime, MonthFromTime, DayWithinYear, InLeapYear.
  cbv zeta.
  assert (Hl : 0 <= leap (YearFromTime t) <= 1).
  { unfold leap. destruct (_ && _); lia. }
  repeat match goal with
         | |- context [if (?a <? ?b) then _ else _] => destruct (Z.ltb_spec a b)
         end; cbn [daysBefore]; lia.
Qed.

Lemma DayFromYear_le (y y' : Z) : y <= y' -> DayFromYear y <= DayFromYear y'.
Proof. intros H. unfold DayFromYear. Z.to_euclidean_division_equations. lia. Qed.

(** The year of a day is the only one whose days include it. *)
Lemma YearFromTime_unique (t y : Z) :
  DayFromYear y <= Day t < DayFromYear (y + 1) -> YearFromTime t = y.
Proof.
  intros H. pose proof (YearFromTime_spec t) as Hy.
  destruct (Z.lt_trichotomy (YearFromTime t) y) as [Hlt | [Heq | Hgt]]; [| done |].
  - pose proof (DayFromYear_le (YearFromTime t + 1) y ltac:(lia)). lia.
  - pose proof (DayFromYear_le (y + 1) (YearFromTime t) ltac:(lia)). lia.
Qed.

Lemma leap_range (y : Z) : 0 <= leap y <= 1.
Proof. unfold leap. destruct (_ && _); lia. Qed.

(** Reading back the time value of day [d] of month [m] of year [y]. *)
Lemma calendar_read (y m d tod : Z) :
  0 <= m <= 11 -> 1 <= d <= days_in_month y m -> 0 <= tod < msPerDay ->
  let x := MakeDate (DayFromYear y + daysBefore m (leap y) + d - 1) tod in
  YearFromTime x = y /\ MonthFromTime x = m /\ DateFromTime x = d /\ TimeWithinDay x = tod.
Proof.
  intros Hm Hd Ht x. pose proof (leap_range y) as Hl.
  assert (HD : Day x = DayFromYear y + daysBefore m (leap y) + d - 1).
  { unfold x, MakeDate, Day. unfold msPerDay in *.
    Z.to_euclidean_division_equations. lia. }
  assert (HT : TimeWithinDay x = tod).
  { unfold x, MakeDate, TimeWithinDay. unfold msPerDay in *.
    Z.to_euclidean_division_equations. lia. }
  assert (Hcases : m = 0 \/ m = 1 \/ m = 2 \/ m = 3 \/ m = 4 \/ m = 5 \/ m = 6 \/ m = 7
                   \/ m = 8 \/ m = 9 \/ m = 10 \/ m = 11) by lia.
  assert (HY : YearFromTime x = y).
  { apply YearFromTime_unique. rewrite HD, DayFromYear_next. unfold days_in_month in Hd.
    repeat destruct Hcases as [-> | Hcases]; try subst m;
      cbn [daysBefore Z.eqb orb Pos.eqb] in *; lia. }
  split; [exact HY |]. split; [| split; [| exact HT]].
  - unfold MonthFromTime, DayWithinYear, InLeapYear. cbv zeta. rewrite HY, HD.
    unfold days_in_month in Hd.
    repeat destruct Hcases as [-> | Hcases]; try subst m;
      cbn [daysBefore Z.eqb orb Pos.eqb] in *;
      repeat match goal with
             | |- context [if (?a <? ?b) then _ else _] => destruct (Z.ltb_spec a b)
             end; lia.
  - unfold DateFromTime, MonthFromTime, DayWithinYear, InLeapYear. cbv zeta. rewrite HY, HD.
    unfold days_in_month in Hd.
    repeat destruct Hcases as [-> | Hcases]; try subst m;
      cbn [daysBefore Z.eqb orb Pos.eqb] in *;
      repeat match goal with
             | |- context [if (?a <? ?b) then _ else _] => destruct (Z.ltb_spec a b)
             end; cbn [daysBefore]; lia.
Qed.

Lemma TimeWithinDay_range (t : Z) : 0 <= TimeWithinDay t < msPerDay.
Proof. unfold TimeWithinDay. apply Z.mod_pos_bound. done. Qed.

(** [setMonth] on the month before: the same day of the previous calendar
    month, when that month has the day. *)
Lemma setMonth_month (tz now t : Z) :
  getMonth tz now = getMonth tz t ->
  previous_month_has_day tz t = true ->
  one_month_before tz t (setMonth tz t (getMonth tz now - 1)) = true.
Proof.
  intros H Hday. unfold previous_month_has_day, one_month_before in *. cbv zeta in *.
  rewrite H. unfold getMonth, setMonth. cbv zeta.
  set (l := LocalTime tz t) in *.
  pose proof (MonthFromTime_range l) as Hm.
  pose proof (DateFromTime_range l) as Hd.
  assert (Hmk : MakeDay (YearFromTime l) (MonthFromTime l - 1) (DateFromTime l) =
                let '(y, m) := previous_month (YearFromTime l) (MonthFromTime l) in
                DayFromYear y + daysBefore m (leap y) + DateFromTime l - 1).
  { unfold previous_month, MakeDay. cbv zeta.
    destruct (Z.eqb_spec (MonthFromTime l) 0) as [E|E].
    - rewrite E. reflexivity.
    - rewrite (Z.div_small (MonthFromTime l - 1) 12),
        (Z.mod_small (MonthFromTime l - 1) 12) by lia.
      by rewrite Z.add_0_r. }
  rewrite Hmk. clear Hmk.
  assert (Hpm : 0 <= (previous_month (YearFromTime l) (MonthFromTime l)).2 <= 11).
  { unfold previous_month. destruct (Z.eqb_spec (MonthFromTime l) 0); cbn [snd]; lia. }
  destruct (previous_month (YearFromTime l) (MonthFromTime l)) as [y m]. cbn [snd] in Hpm.
  apply Z.leb_le in Hday.
  destruct (calendar_read y m (DateFromTime l) (TimeWithinDay l) Hpm ltac:(lia)
              (TimeWithinDay_range l)) as (HY & HM & HD & HT).
  cbv zeta in HY, HM, HD, HT.
  replace (LocalTime tz (UTC tz (MakeDate (DayFromYear y + daysBefore m (leap y)
                                           + DateFromTime l - 1) (TimeWithinDay l))))
    with (MakeDate (DayFromYear y + daysBefore m (leap y) + DateFromTime l - 1)
            (TimeWithinDay l)) by (unfold LocalTime, UTC; lia).
  rewrite HY, HM, HD, HT, !Z.eqb_refl. reflexivity.
Qed.

End Periods.

(** X29.  The start of the period.  For [today] it is midnight, local
    time, of the day of the date the function starts from.  For [month] it
    is one calendar month before that date, when the two dates the function
    creates fall in the same month and the previous month has the day.  For
    [week] and for every other word it is seven days before, when the two
    dates fall on the same day of the month. *)
Theorem start_of_period_spec (tz : Z) (period : string) (now t : Z) :
  let start := start_of_period tz period now t in
  (period = "today" -> start = midnight_today tz t) /\
  (period = "month" ->
   JSDate.getMonth tz now = JSDate.getMonth tz t ->
   previous_month_has_day tz t = true ->
   one_month_before tz t start = true) /\
  (period <> "today" -> period <> "month" ->
   JSDate.getDate tz now = JSDate.getDate tz t ->
   start = seven_days_before t).
Proof.
  cbv zeta. unfold start_of_period. split; [| split].
  - intros ->. apply setHours0_midnight.
  - intros ->. apply setMonth_month.
  - intros H1 H2 Hd.
    rewrite (proj2 (String.eqb_neq _ _) H1), (proj2 (String.eqb_neq _ _) H2).
    destruct (String.eqb period "week"); by apply setDate_week.
Qed.

Lemma start_of_period_spec_witness :
  one_month_before 28800000 (JSDate.civil 2025 1 10 8 0)
    (start_of_period 28800000 "month" (JSDate.civil 2025 1 10 8 0) (JSDate.civil 2025 1 10 8 0))
  = true /\
  start_of_period 28800000 "year" (JSDate.civil 2025 3 5 10 30) (JSDate.civil 2025 3 5 10 30)
  = seven_days_before (JSDate.civil 2025 3 5 10 30).
Proof.
  split.
  - apply (proj1 (proj2 (start_of_period_spec 28800000 "month" (JSDate.civil 2025 1 10 8 0)
                           (JSDate.civil 2025 1 10 8 0)))); reflexivity.
  - apply (proj2 (proj2 (start_of_period_spec 28800000 "year" (JSDate.civil 2025 3 5 10 30)
                           (JSDate.civil 2025 3 5 10 30)))).
    + intros H; discriminate H.
    + intros H; discriminate H.
    + reflexivity.
Defined.

Example week_across_months :
  start_of_period 0 "week" (JSDate.civil 2025 3 5 10 30) (JSDate.civil 2025 3 5 10 30)
    = JSDate.civil 2025 2 26 10 30.
Proof. vm_compute. reflexivity. Qed.

Example month_of_january :
  start_of_period 0 "month" (JSDate.civil 2025 1 10 8 0) (JSDate.civil 2025 1 10 8 0)
    = JSDate.civil 2024 12 10 8 0.
Proof. vm_compute. reflexivity. Qed.

Example today_in_local_time :
  start_of_period 28800000 "today" (JSDate.civil 2025 3 15 2 30) (JSDate.civil 2025 3 15 2 30)
    = JSDate.civil 2025 3 14 16 0.
Proof. vm_compute. reflexivity. Qed.

(** February has no 31st: on 31 March [setMonth] runs over into March, and
    the start is 3 March, in the current month and not one calendar month
    earlier. *)
Example month_on_the_31st :
  let now := JSDate.civil 2025 3 31 10 30 in
  start_of_period 0 "month" now now = JSDate.civil 2025 3 3 10 30 /\
  previous_month_has_day 0 now = false /\
  one_month_before 0 now (start_of_period 0 "month" now now) = false.
Proof. vm_compute. repeat split. Qed.

(** When midnight falls between the two dates the function creates, the
    day of the first is set on the month of the second: here the start of
    the week lies in the future. *)
Example week_over_midnight :
  start_of_period 0 "week" (JSDate.civil 2025 1 31 23 59) (JSDate.civil 2025 2 1 0 0)
    = JSDate.civil 2025 2 24 0 0.
Proof. vm_compute. reflexivity. Qed.

(** ** Statistics *)

Lemma count_key_lookup (k k' : string) (table : gmap string nat) :
  count_key k table !! k' =
    if String.eqb k' k then Some (default 0 (table !! k) + 1) else table !! k'.
Proof.
  unfold count_key. destruct (String.eqb_spec k' k) as [->|Hne].
  - apply lookup_insert_eq.
  - by apply lookup_insert_ne.
Qed.

Lemma count_keys_lookup (keys : list string) (table : gmap string nat) (k : string) :
  count_keys keys table !! k =
    if (occurrences k keys =? 0)%nat then table !! k
    else Some (default 0 (table !! k) + occurrences k keys).
Proof.
  revert table. induction keys as [|k0 keys IH]; intros table; [done |].
  unfold count_keys in *. cbn [fold_left]. rewrite IH, count_key_lookup.
  unfold occurrences. cbn [List.filter].
  destruct (String.eqb_spec k k0) as [<-|Hne]; cbn [length].
  - destruct (Nat.eqb_spec (length (List.filter (String.eqb k) keys)) 0) as [->|Hn].
    + cbn [default Nat.eqb]. unfold id. f_equal.
    + cbn [default Nat.eqb]. unfold id. f_equal. lia.
  - done.
Qed.

Lemma count_keys_grouped (keys : list string) : grouped_count (count_keys keys ∅) keys.
Proof.
  intros k. rewrite count_keys_lookup, lookup_empty.
  by destruct (occurrences k keys =? 0)%nat.
Qed.

(** *** The tables of the program and the counts they hold *)

(** Decides the tests on the key [k] one after the other. *)
Ltac key_cases k :=
  repeat match goal with
         | |- context [String.eqb k ?s] =>
             destruct (String.eqb_spec k s) as [->|?];
             cbn [orb andb negb existsb] in *; try done
         | H : context [String.eqb k ?s] |- _ =>
             destruct (String.eqb_spec k s) as [->|?];
             cbn [orb andb negb existsb] in *; try done
         end.

Lemma inherited_function_Some (k f : string) :
  inherited_function k = Some f ->
  arrayIncludes Object_prototype_keys k = true /\ k <> "__proto__" /\
  nonempty (native_code f +:+ "1") = true.
Proof.
  intros H. split; [| split; [| reflexivity]].
  - revert H. unfold inherited_function, arrayIncludes, Object_prototype_keys.
    cbn [existsb]. key_cases k.
  - intros ->. discriminate H.
Qed.

Lemma inherited_function_None (k : string) :
  inherited_function k = None -> k <> "__proto__" ->
  arrayIncludes Object_prototype_keys k = false.
Proof.
  unfold inherited_function, arrayIncludes, Object_prototype_keys.
  cbn [existsb]. intros H Hp. revert H. key_cases k.
Qed.

Lemma counted_empty : counted ∅.
Proof. intros k c H. by rewrite lookup_empty in H. Qed.

Lemma counted_insert (k : string) (c : Cell) (table : gmap string Cell) :
  counted table ->
  (if arrayIncludes Object_prototype_keys k
   then k <> "__proto__" /\ exists s, c = Text s /\ nonempty s = true
   else exists n, c = Count n) ->
  counted (<[k := c]> table).
Proof.
  intros Ht Hc k' c' H. destruct (decide (k' = k)) as [->|Hne].
  - rewrite lookup_insert_eq in H. by injection H as <-.
  - rewrite lookup_insert_ne in H by done. by apply Ht.
Qed.

Lemma bump_counted (k : string) (table : gmap string Cell) :
  counted table -> counted (bump k table).
Proof.
  intros Ht. unfold bump. destruct (String.eqb_spec k "__proto__") as [->|Hp]; [done |].
  destruct (table !! k) as [[n|s]|] eqn:E.
  - apply counted_insert; [done |]. specialize (Ht k _ E).
    destruct (arrayIncludes Object_prototype_keys k).
    + by destruct Ht as (_ & s & [=] & _).
    + by eexists.
  - apply counted_insert; [done |]. specialize (Ht k _ E).
    destruct (arrayIncludes Object_prototype_keys k).
    + destruct Ht as (_ & s' & [= <-] & Hs). rewrite Hs. split; [done |].
      eexists. split; [reflexivity |]. by destruct s.
    + by destruct Ht as (n & [=]).
  - destruct (inherited_function k) as [f|] eqn:Ef.
    + apply counted_insert; [done |].
      destruct (inherited_function_Some _ _ Ef) as (-> & _ & Hn).
      split; [done |]. by eexists.
    + apply counted_insert; [done |].
      rewrite (inherited_function_None _ Ef Hp). by eexists.
Qed.

Lemma tally_counted (keys : list string) (table : gmap string Cell) :
  counted table -> counted (tally keys table).
Proof.
  revert table. induction keys as [|k keys IH]; intros table Ht; [done |].
  unfold tally in *. cbn [fold_left]. by apply IH, bump_counted.
Qed.

Lemma counts_lookup (table : gmap string Cell) (k : string) :
  counts table !! k =
    match table !! k with Some (Count n) => Some n | _ => None end.
Proof.
  unfold counts. rewrite lookup_omap. by destruct (table !! k) as [[n|s]|].
Qed.

(** The counts of a table after one more key: a property name of
    [Object.prototype] leaves them as they are, any other key is counted. *)
Lemma counts_bump (k : string) (table : gmap string Cell) :
  counted table ->
  counts (bump k table) =
    if arrayIncludes Object_prototype_keys k then counts table
    else count_key k (counts table).
Proof.
  intros Ht. apply map_eq. intros k'. unfold bump.
  destruct (String.eqb_spec k "__proto__") as [->|Hp]; [done |].
  destruct (table !! k) as [[n|s]|] eqn:E.
  - pose proof (Ht k _ E) as Hk. destruct (arrayIncludes Object_prototype_keys k).
    { by destruct Hk as (_ & s & [=] & _). }
    rewrite count_key_lookup, !counts_lookup.
    destruct (String.eqb_spec k' k) as [->|Hne].
    + rewrite lookup_insert_eq, E. reflexivity.
    + by rewrite lookup_insert_ne.
  - pose proof (Ht k _ E) as Hk. destruct (arrayIncludes Object_prototype_keys k).
    2:{ by destruct Hk as (n & [=]). }
    destruct Hk as (_ & s' & [= <-] & Hs). rewrite Hs, !counts_lookup.
    destruct (decide (k' = k)) as [->|Hne].
    + by rewrite lookup_insert_eq, E.
    + by rewrite lookup_insert_ne.
  - destruct (inherited_function k) as [f|] eqn:Ef.
    + destruct (inherited_function_Some _ _ Ef) as (-> & _ & _). rewrite !counts_lookup.
      destruct (decide (k' = k)) as [->|Hne].
      * by rewrite lookup_insert_eq, E.
      * by rewrite lookup_insert_ne.
    + rewrite (inherited_function_None _ Ef Hp), count_key_lookup, !counts_lookup.
      destruct (String.eqb_spec k' k) as [->|Hne].
      * rewrite lookup_insert_eq, E. reflexivity.
      * by rewrite lookup_insert_ne.
Qed.

(** The counts of the program's tables are the counts of the ordinary
    keys. *)
Lemma counts_tally (keys : list string) (table : gmap string Cell) :
  counted table ->
  counts (tally keys table) = count_keys (ordinary keys) (counts table).
Proof.
  revert table. induction keys as [|k keys IH]; intros table Ht; [done |].
  unfold tally, ordinary, count_keys in *. cbn [fold_left List.filter].
  rewrite (IH _ (bump_counted k _ Ht)), (counts_bump _ _ Ht).
  by destruct (arrayIncludes Object_prototype_keys k).
Qed.

Lemma counts_empty : counts ∅ = ∅.
Proof. apply omap_empty. Qed.

(** A key that was not counted is not in the table. *)
Lemma bump_lookup_ne (k k' : string) (table : gmap string Cell) :
  k' <> k -> bump k table !! k' = table !! k'.
Proof.
  intros Hne. unfold bump. destruct (String.eqb k "__proto__"); [done |].
  destruct (table !! k) as [[n|s]|]; [| | destruct (inherited_function k)];
    by rewrite lookup_insert_ne.
Qed.

Lemma tally_lookup_absent (keys : list string) (table : gmap string Cell) (k : string) :
  occurrences k keys = 0 -> tally keys table !! k = table !! k.
Proof.
  revert table. induction keys as [|k0 keys IH]; intros table H; [done |].
  unfold tally, occurrences in *. cbn [fold_left List.filter] in *.
  destruct (String.eqb_spec k k0) as [->|Hne]; [discriminate H |].
  rewrite (IH _ H). by apply bump_lookup_ne.
Qed.

Lemma fold_count_message (env : Env) (messages : list doc) (stats : Stats) :
  fold_left (count_message env) messages stats =
    {| st_total := st_total stats;
       st_byStatus := tally (keys_of env "processingStatus" messages) (st_byStatus stats);
       st_byIntent :=
         tally (keys_of env "intent" (having "intent" messages)) (st_byIntent stats);
       st_byLanguage :=
         tally (keys_of env "language" (having "language" messages)) (st_byLanguage stats);
       st_byChannel := tally (keys_of env "channelType" messages) (st_byChannel stats);
       st_averageProcessingTime := st_averageProcessingTime stats |}.
Proof.
  revert stats. induction messages as [|msg messages IH]; intros stats.
  - by destruct stats.
  - cbn [fold_left]. rewrite IH. unfold count_message, having, keys_of.
    cbn [st_total st_byStatus st_byIntent st_byLanguage st_byChannel
         st_averageProcessingTime List.filter map].
    by destruct (truthy (field msg "intent")), (truthy (field msg "language")).
Qed.

Lemma occurrences_perm (k : string) (l l' : list string) :
  l ≡ₚ l' -> occurrences k l = occurrences k l'.
Proof.
  unfold occurrences. induction 1 as [|x l l' _ IH|x y l|l l' l'' _ IH1 _ IH2];
    cbn [List.filter].
  - done.
  - destruct (String.eqb k x); cbn [length]; by rewrite IH.
  - by destruct (String.eqb k x), (String.eqb k y).
  - by rewrite IH1.
Qed.

(** The documents the query returns are the message documents of the
    organization created at or after the start date. *)
Lemma messages_in_range_spec (w : World) (organizationId : string) (startDate : Z) (d : doc) :
  In d (messages_in_range w organizationId startDate) <->
  (exists id, collection w "messages" !! id = Some d) /\
  d !! "organizationId" = Some (VStr organizationId) /\
  exists t, d !! "createdAt" = Some (VDate t) /\ (startDate <= t)%Z.
Proof.
  unfold messages_in_range. rewrite filter_In, <- list_elem_of_In, list_elem_of_fmap.
  unfold in_range. split.
  - intros [([id d'] & -> & Hd) H]. apply elem_of_map_to_list in Hd. cbn [snd] in *.
    split; [by exists id |].
    destruct (d' !! "organizationId") as [[| | | |o| | |]|]; try done.
    destruct (d' !! "createdAt") as [[| | | | |t| |]|]; try done.
    apply andb_true_iff in H as [Ho Ht]. apply String.eqb_eq in Ho. subst o.
    split; [done |]. exists t. split; [done | lia].
  - intros ([id Hid] & Ho & t & Ht & Hle). split.
    + exists (id, d). split; [done |]. by apply elem_of_map_to_list.
    + rewrite Ho, Ht, String.eqb_refl. cbn [andb]. lia.
Qed.

(** What [getProcessingStats] returns when the store answers the query. *)
Lemma getProcessingStats_run
  (env : Env) (w : World) (organizationId : string) (period_arg : option string)
  (r : StatsResult) (w' : World) :
  let period := default "week" period_arg in
  let start := start_of_period (tz_offset env) period
                 (clock env (clock_reads w)) (clock env (S (clock_reads w))) in
  let messages := messages_in_range w organizationId start in
  getProcessingStats organizationId period_arg env w = (Ok r, w') ->
  r = {| sr_success := true; sr_period := period;
         sr_stats :=
           {| st_total := length messages;
              st_byStatus := tally (keys_of env "processingStatus" messages) ∅;
              st_byIntent := tally (keys_of env "intent" (having "intent" messages)) ∅;
              st_byLanguage :=
                tally (keys_of env "language" (having "language" messages)) ∅;
              st_byChannel := tally (keys_of env "channelType" messages) ∅;
              st_averageProcessingTime := 0 |} |}.
Proof.
  cbv zeta.
  unfold getProcessingStats, try_catch, bind, ask, newDate, db_query_messages, log, throw, ret.
  wproj. destruct (store_fault env (store_calls w)); [discriminate |].
  intros [= <- _]. by rewrite fold_count_message.
Qed.

(** C8 fails on the code.  A message whose channel is [__proto__] goes
    through [POST /process]: the handler answers 200 and the message is
    stored with its channel.  The statistics of the day then count one
    message, and one completed message by status, but the table by channel
    is empty: the message is counted under no channel. *)
Theorem getProcessingStats_prototype_channel :
  let env := Example.env [Example.reply "general"; Example.reply "{}"; Example.reply "Hi"]
               [] [] in
  let body := {| pb_organizationId := Some "org1"; pb_channelType := Some "__proto__";
                 pb_from := Some "+60123456789"; pb_content := Some "Hello";
                 pb_messageId := Some "wamid.1"; pb_channelId := None |} in
  let posted := post_process body env Example.empty_world in
  match posted.1 with Ok resp => res_status resp | Throw _ => 0 end = 200 /\
  (fun d => field d "channelType") <$> (snd <$> map_to_list (collection posted.2 "messages"))
    = [VStr "__proto__"] /\
  match (getProcessingStats "org1" (Some "today") env posted.2).1 with
  | Ok r =>
      st_total (sr_stats r) = 1 /\
      st_byStatus (sr_stats r) = {[ "completed" := Count 1 ]} /\
      st_byChannel (sr_stats r) = ∅
  | Throw _ => False
  end.
Proof.
  vm_compute. exact (conj eq_refl (conj eq_refl (conj eq_refl (conj eq_refl eq_refl)))).
Qed.

(** The other inherited names: the entry is a string, not a count. *)
Example bump_constructor :
  bump "constructor" (bump "constructor" (bump "whatsapp" ∅))
    = {[ "whatsapp" := Count 1;
         "constructor" := Text "function Object() { [native code] }11" ]}.
Proof. vm_compute. reflexivity. Qed.

(** * Further properties *)

(** ** The AI service, continued *)




(** ** Language detection, continued *)

Lemma append_assoc_s (a b c : string) : (a +:+ b) +:+ c = a +:+ b +:+ c.
Proof.
  induction a as [|x a IH]; [reflexivity |].
  change (String x ((a +:+ b) +:+ c) = String x (a +:+ b +:+ c)). by rewrite IH.
Qed.

Lemma append_assoc3 (a a' s b' b : string) :
  a +:+ (a' +:+ s +:+ b') +:+ b = (a +:+ a') +:+ s +:+ (b' +:+ b).
Proof. by rewrite !append_assoc_s. Qed.

Lemma ci_substring_extend (w t a b : string) :
  ci_substring w t -> ci_substring w (a +:+ t +:+ b).
Proof.
  intros (a' & s & b' & -> & Hs). exists (a +:+ a'), s, (b' +:+ b).
  split; [apply append_assoc3 | done].
Qed.

Lemma language_bm_iff (text : string) :
  ld_language (detectLanguage text) = "bm" <-> two_markers text.
Proof.
  rewrite <- two_markers_iff. unfold detectLanguage. cbn [ld_language].
  destruct (Nat.leb_spec 2
    (length (List.filter (fun word => includes (toLowerCase text) word) bmKeywords)));
    split; (done || lia).
Qed.

(** X2.  Surrounding text never hides a detection: a text detected as
    Bahasa Malaysia is still detected as Bahasa Malaysia, with the same
    confidence, when anything is written before or after it. *)
Theorem detectLanguage_extend (text before after : string) :
  ld_language (detectLanguage text) = "bm" ->
  detectLanguage (before +:+ text +:+ after) = {| ld_language := "bm"; ld_confidence := 0.8 |}.
Proof.
  intros H. apply language_bm_iff in H.
  assert (H' : two_markers (before +:+ text +:+ after)).
  { destruct H as (w1 & w2 & Hne & H1 & H2 & C1 & C2). exists w1, w2.
    repeat split; try done; by apply ci_substring_extend. }
  apply two_markers_iff in H'. unfold detectLanguage.
  destruct (Nat.leb_spec 2 (length (List.filter
    (fun word => includes (toLowerCase (before +:+ text +:+ after)) word) bmKeywords)));
    [done | lia].
Qed.

Lemma detectLanguage_extend_witness :
  detectLanguage ("Hi, " +:+ "SAYA NAK tanya" +:+ " thanks")
    = {| ld_language := "bm"; ld_confidence := 0.8 |}.
Proof. apply detectLanguage_extend. vm_compute. reflexivity. Defined.

(** ** Lead scoring, continued *)

(** Every field present is worth at least 10 points, and only the phone
    and the email are worth 5 more. *)
Lemma score_by_count (e : object) :
  (Z.min (50 + 10 * Z.of_nat (present_count e)) 100 <= calculateLeadScore e
   <= Z.min (60 + 10 * Z.of_nat (present_count e)) 100)%Z.
Proof.
  rewrite calculateLeadScore_formula. unfold present_count, scored_fields, points.
  cbn [List.filter].
  destruct (present e "name"), (present e "phone"), (present e "email"),
    (present e "date"), (present e "time"), (present e "service_type");
  cbn [length]; lia.
Qed.

(** X3.  The score never decreases when fields are added: a record scores
    at least as much as another one when it has every scored field the
    other has, and also when it has strictly more of the six fields,
    whichever they are. *)
Theorem calculateLeadScore_monotone (e1 e2 : object) :
  (forall k, In k scored_fields -> present e1 k = true -> present e2 k = true) \/
  present_count e1 < present_count e2 ->
  (calculateLeadScore e1 <= calculateLeadScore e2)%Z.
Proof.
  rewrite !calculateLeadScore_formula. unfold present_count, scored_fields, points.
  cbn [List.filter]. intros [H | H].
  - pose proof (H "name" ltac:(simpl; tauto)).
    pose proof (H "phone" ltac:(simpl; tauto)).
    pose proof (H "email" ltac:(simpl; tauto)).
    pose proof (H "date" ltac:(simpl; tauto)).
    pose proof (H "time" ltac:(simpl; tauto)).
    pose proof (H "service_type" ltac:(simpl; tauto)).
    clear H.
    destruct (present e1 "name"), (present e1 "phone"), (present e1 "email"),
      (present e1 "date"), (present e1 "time"), (present e1 "service_type");
    repeat match goal with H : true = true -> _ |- _ => rewrite (H eq_refl); clear H end;
    repeat match goal with |- context [if ?b then _ else _] => destruct b end; lia.
  - pose proof (score_by_count e1) as B1. pose proof (score_by_count e2) as B2.
    rewrite !calculateLeadScore_formula in B1, B2.
    unfold present_count, scored_fields, points in B1, B2. cbn [List.filter] in B1, B2.
    lia.
Qed.

Lemma calculateLeadScore_monotone_witness :
  (calculateLeadScore [("phone", VStr "0123")]
   <= calculateLeadScore [("name", VStr "Ali"); ("date", VStr "Jumaat")])%Z.
Proof. apply calculateLeadScore_monotone. right. vm_compute. lia. Defined.

(** ** The pipeline, decomposed *)

Lemma newDate_inv env w t w' :
  newDate env w = (Ok t, w') -> t = clock env (clock_reads w) /\ w' = clock_read w.
Proof. unfold newDate. by intros [= <- <-]. Qed.

(** A run of the [try] block that returns went through every step. *)
Lemma pipeline_inv messageData env w r w' :
  pipeline messageData env w = (Ok r, w') ->
  let content := md_content messageData in
  let language := ld_language (detectLanguage content) in
  exists ir w1 er w2 w6 w7 w8,
    classifyIntent content env (announced messageData w) = (Ok ir, w1) /\
    extractEntities content env w1 = (Ok er, w2) /\
    let w4 := clock_read (clock_read w2) in
    let data := newMessage messageData language (ir_intent ir) (er_entities er)
                  (clock env (clock_reads w2)) (clock env (S (clock_reads w2))) in
    let id := auto_id env (store_calls w4) in
    store_fault env (store_calls w4) = None /\
    collection w4 "messages" !! id = None /\
    step5 content language (ir_intent ir) env (persisted id data w4)
      = (Ok (pr_response r), w6) /\
    step6 (md_organizationId messageData) id (er_entities er) (md_from messageData)
      (ir_intent ir) env w6 = (Ok (pr_leadId r), w7) /\
    step7 messageData (ir_intent ir) (er_entities er) (pr_response r) env w7 = (Ok tt, w8) /\
    let w10 := clock_read (clock_read w8) in
    let data' := completedUpdate (pr_response r) (pr_leadId r)
                   (clock env (clock_reads w8)) (clock env (S (clock_reads w8))) in
    store_fault env (store_calls w10) = None /\
    w' = updated id data' data w10 /\
    r = {| pr_success := true; pr_messageId := id; pr_language := language;
           pr_intent := ir_intent ir; pr_entities := er_entities er;
           pr_response := pr_response r; pr_leadId := pr_leadId r |}.
Proof.
  intros H content language. unfold pipeline in H. cbv zeta in H.
  inv_bind H u0 w0 E0. injection E0 as _ <-.
  inv_bind H ir w1 E1.
  inv_bind H er w2 E2.
  inv_bind H t1 w3 E3. apply newDate_inv in E3 as [-> ->].
  inv_bind H t2 w4 E4. apply newDate_inv in E4 as [-> ->].
  inv_bind H mid w5 E5. apply db_add_inv in E5 as (Hf & -> & Hfresh & ->).
  inv_bind H ai w6 E6.
  inv_bind H leadId w7 E7.
  inv_bind H u8 w8 E8. destruct u8.
  inv_bind H t3 w9 E9. apply newDate_inv in E9 as [-> ->].
  inv_bind H t4 w10 E10. apply newDate_inv in E10 as [-> ->].
  inv_bind H u11 w11 E11. destruct u11.
  apply db_update_inv in E11 as (Hf' & old & Hold & ->).
  injection H as <- <-. cbn [pr_response pr_leadId].
  exists ir, w1, er, w2, w6, w7, w8.
  split; [exact E1 |]. split; [exact E2 |]. cbv zeta.
  split; [exact Hf |]. split; [exact Hfresh |].
  split; [exact E6 |]. split; [exact E7 |]. split; [exact E8 |].
  split; [exact Hf' |]. split; [| reflexivity].
  (* the document updated is the one just stored *)
  assert (F6 : silent _ w6) by exact (respects_run silent _ _ _ _ _ (step5_silent _ _ _) E6).
  apply step6_frame in E7 as (_ & F7 & _).
  destruct (sheet_step env w7 (md_organizationId messageData)
              (fun timestamp =>
                 [("timestamp", VDate timestamp);
                  ("from", VStr (md_from messageData));
                  ("channel", VStr (md_channelType messageData));
                  ("message", VStr (md_content messageData));
                  ("intent", VStr (ir_intent ir));
                  ("entities", VObj (er_entities er));
                  ("response", ai)])) as (w8' & E8' & C8 & _).
  cbv beta in E8'. rewrite E8' in E8. injection E8 as <-.
  destruct F6 as (_ & _ & _ & C6 & _). destruct F7 as (C7 & _).
  assert (Hsame : collection (clock_read (clock_read w8')) "messages" !! auto_id env
                    (store_calls (clock_read (clock_read w2)))
                  = Some (newMessage messageData language (ir_intent ir) (er_entities er)
                            (clock env (clock_reads w2)) (clock env (S (clock_reads w2))))).
  { rewrite !collection_clock_read, C8, C7, C6. unfold persisted.
    rewrite collection_put_doc. apply lookup_insert_eq. }
  rewrite Hsame in Hold. by injection Hold as <-.
Qed.

(** ** Lead creation, continued *)

(** What a call of [createLeadFromMessage] does, by cases on the store. *)
Lemma createLeadFromMessage_cases
  (env : Env) (w : World) (organizationId messageId : string)
  (entities : object) (phone : string) :
  let id := auto_id env (store_calls w) in
  let data := leadData env organizationId messageId entities phone
                (clock env (clock_reads w)) (clock env (S (clock_reads w))) in
  exists l w',
    createLeadFromMessage organizationId messageId entities phone env w = (Ok l, w') /\
    collection w' "messages" = collection w "messages" /\
    calls w w' 0 1 0 /\
    (l = Some id /\ store_fault env (store_calls w) = None /\
     collection w "leads" !! id = None /\
     collection w' "leads" = <[id := data]> (collection w "leads")
     \/
     l = None /\ store w' = store w /\
     (exists e, In (EvLog LError ("Lead creation error: " +:+ e)) (trace w')) /\
     (store_fault env (store_calls w) <> None \/ is_Some (collection w "leads" !! id))).
Proof.
  cbv zeta. rewrite createLeadFromMessage_run. cbv zeta. unfold db_add, calls.
  autorewrite with world. wproj.
  destruct (store_fault env (store_calls w)) as [e|] eqn:Hf; cbv beta iota.
  { eexists _, _. split; [reflexivity |]. split; [reflexivity |]. wproj.
    split; [lia |]. right. split; [done |]. split; [done |].
    split; [| by left]. exists e. apply in_or_app. right. simpl. auto. }
  destruct (collection w "leads" !! auto_id env (store_calls w)) eqn:Hl; cbv beta iota.
  { eexists _, _. split; [reflexivity |]. split; [reflexivity |]. wproj.
    split; [lia |]. right. split; [done |]. split; [done |].
    split; [| by right]. eexists. apply in_or_app. right. simpl. auto. }
  eexists _, _. split; [reflexivity |].
  split; [by rewrite collection_emit, collection_put_doc_ne |]. wproj.
  split; [lia |]. left. split; [done |]. split; [done |]. split; [done |].
  by rewrite collection_emit, collection_put_doc, collection_store_called, collection_emit,
    !collection_clock_read.
Qed.

(** X4.  [createLeadFromMessage] never throws and never touches the
    messages.  It returns the identifier the store chose, and the lead is
    stored under it, exactly when the store accepts the [add]; when the
    store refuses, it returns [null], logs the error and leaves the store
    as it was. *)
Theorem createLeadFromMessage_outcome
  (env : Env) (w : World) (organizationId messageId : string)
  (entities : object) (phone : string) :
  let id := auto_id env (store_calls w) in
  let data := leadData env organizationId messageId entities phone
                (clock env (clock_reads w)) (clock env (S (clock_reads w))) in
  exists l w',
    createLeadFromMessage organizationId messageId entities phone env w = (Ok l, w') /\
    collection w' "messages" = collection w "messages" /\
    calls w w' 0 1 0 /\
    (l = Some id /\ store_fault env (store_calls w) = None /\
     collection w "leads" !! id = None /\
     collection w' "leads" = <[id := data]> (collection w "leads")
     \/
     l = None /\ store w' = store w /\
     (exists e, In (EvLog LError ("Lead creation error: " +:+ e)) (trace w')) /\
     (store_fault env (store_calls w) <> None \/ is_Some (collection w "leads" !! id))).
Proof. exact (createLeadFromMessage_cases env w organizationId messageId entities phone). Qed.

(** ** Counting the calls *)

Lemma calls_refl w : calls w w 0 0 0.
Proof. unfold calls. lia. Qed.

Lemma calls_trans w1 w2 w3 a s x a' s' x' :
  calls w1 w2 a s x -> calls w2 w3 a' s' x' -> calls w1 w3 (a + a') (s + s') (x + x').
Proof. unfold calls. lia. Qed.

Lemma generateResponse_calls message language context env w r w' :
  generateResponse message language context env w = (r, w') -> calls w w' 1 0 0.
Proof.
  unfold generateResponse, try_catch, bind, ask, addTableRows, log, ret, throw, calls.
  destruct (ai_reply env (ai_calls w) _); intros [= <- <-]; wproj; lia.
Qed.

Lemma classifyIntent_calls text env w r w' :
  classifyIntent text env w = (r, w') -> calls w w' 1 0 0.
Proof.
  unfold classifyIntent, try_catch at 1. unfold bind at 1.
  destruct (generateResponse _ _ _ env w) as [[g|e] w1] eqn:E;
    apply generateResponse_calls in E; unfold ret, bind, log, throw, calls in *;
    intros [= <- <-]; wproj; lia.
Qed.

Lemma extractEntities_calls text env w r w' :
  extractEntities text env w = (r, w') -> calls w w' 1 0 0.
Proof.
  unfold extractEntities, try_catch at 1. unfold bind at 1.
  destruct (generateResponse _ _ _ env w) as [[g|e] w1] eqn:E;
    apply generateResponse_calls in E.
  - unfold bind, try_catch, JSON_parse_or_throw, log, ret, calls in *.
    destruct (match_braces (gr_response g)) as [m|]; [destruct (JSON_parse env m) |];
      intros [= <- <-]; wproj; lia.
  - unfold bind, log, throw, calls in *. intros [= <- <-]. wproj. lia.
Qed.

Lemma executeActionChain_calls message messageType env w r w' :
  executeActionChain message messageType env w = (r, w') -> calls w w' 1 0 0.
Proof.
  unfold executeActionChain, try_catch, bind, addTableRows, log, ret, throw, calls.
  destruct (ai_reply env (ai_calls w) _); intros [= <- <-]; wproj; lia.
Qed.

Lemma step5_calls content language intent env w r w' :
  step5 content language intent env w = (r, w') -> calls w w' 1 0 0.
Proof.
  unfold step5. destruct (arrayIncludes _ intent); unfold bind at 1.
  - destruct (executeActionChain _ _ env w) as [[a|e] w1] eqn:E;
      apply executeActionChain_calls in E; unfold ret; by intros [= <- <-].
  - destruct (generateResponse _ _ _ env w) as [[a|e] w1] eqn:E;
      apply generateResponse_calls in E; unfold ret; by intros [= <- <-].
Qed.

Lemma step7_calls messageData intent entities aiResponse env w r w' :
  step7 messageData intent entities aiResponse env w = (r, w') ->
  r = Ok tt /\ store w' = store w /\ calls w w' 0 0 1.
Proof.
  unfold step7, try_catch, bind, newDate, writeMessageToSheet, log, calls. wproj.
  destruct (sheet_fault env (sheet_calls w)); intros [= <- <-]; wproj;
    (split; [done |]); (split; [done |]); lia.
Qed.

Lemma collection_same_store w w' coll :
  store w' = store w -> collection w' coll = collection w coll.
Proof. intros H. unfold collection. by rewrite H. Qed.

Lemma leads_persisted id data w :
  collection (persisted id data w) "leads" = collection w "leads".
Proof.
  unfold persisted. rewrite collection_put_doc_ne by done.
  by rewrite collection_store_called, collection_emit.
Qed.

Lemma leads_updated id data old w :
  collection (updated id data old w) "leads" = collection w "leads".
Proof.
  unfold updated. rewrite collection_put_doc_ne by done.
  by rewrite collection_store_called, collection_emit.
Qed.

Lemma step6_calls organizationId messageRef entities from intent env w r w' :
  step6 organizationId messageRef entities from intent env w = (r, w') ->
  calls w w' 0 (if String.eqb intent "booking" || String.eqb intent "inquiry" then 1 else 0) 0.
Proof.
  unfold step6. destruct (String.eqb intent "booking" || String.eqb intent "inquiry").
  - destruct (createLeadFromMessage_cases env w organizationId messageRef entities from)
      as (l & w1 & E & _ & Hc & _).
    rewrite (bind_ok _ _ _ _ _ _ E). unfold ret. by intros [= <- <-].
  - unfold ret. intros [= <- <-]. apply calls_refl.
Qed.

Lemma silent_calls w w' : silent w w' -> store_calls w' = store_calls w /\ sheet_calls w' = sheet_calls w.
Proof. by intros (_ & ? & ? & _). Qed.

(** X5.  A run of [processMessage] that returns made exactly three calls
    of the AI client (classification, extraction, reply) and one call of
    the export, and it called the store two times, or three when the
    intent is a booking or an inquiry: nothing is tried twice. *)
Theorem processMessage_call_counts
  (env : Env) (w : World) (messageData : MessageData) (r : ProcessResult) (w' : World) :
  processMessage messageData env w = (Ok r, w') ->
  calls w w' 3
    (if String.eqb (pr_intent r) "booking" || String.eqb (pr_intent r) "inquiry"
     then 3 else 2) 1.
Proof.
  intros H. apply processMessage_ok_inv, pipeline_inv in H.
  cbv zeta in H.
  destruct H as (ir & w1 & er & w2 & w6 & w7 & w8 & E1 & E2 & _ & _ & E5 & E6 & E7 & _ & -> & ->).
  cbn [pr_intent].
  apply classifyIntent_calls in E1. apply extractEntities_calls in E2.
  apply step5_calls in E5. apply step6_calls in E6. apply step7_calls in E7 as (_ & _ & E7).
  unfold calls, updated, persisted, announced in *. wproj.
  destruct (String.eqb (ir_intent ir) "booking" || String.eqb (ir_intent ir) "inquiry"); lia.
Qed.

Lemma processMessage_call_counts_witness :
  calls Example.empty_world
    (processMessage (Example.message None)
       (Example.env [Example.reply "booking"; Example.reply "{}"; Example.reply "Baik"] [] [])
       Example.empty_world).2 3 3 1.
Proof.
  set (env := Example.env [Example.reply "booking"; Example.reply "{}";
                           Example.reply "Baik"] [] []).
  destruct (processMessage (Example.message None) env Example.empty_world) as [[r|e] w']
    eqn:E; [| vm_compute in E; discriminate E].
  pose proof (processMessage_call_counts env Example.empty_world (Example.message None) r w' E)
    as H.
  assert (Hi : pr_intent r = "booking") by (vm_compute in E; by injection E as <- _).
  rewrite Hi in H. exact H.
Defined.

(** X6.  In a run that returns, a lead exists only for a booking or an
    inquiry.  For any other intent the result carries no lead and the leads
    are left as they were.  When the result names a lead, the intent is a
    booking or an inquiry and the lead is a new document of the leads that
    refers back to the message document of this run, belongs to the same
    organization and has the status [new]. *)
Theorem processMessage_lead_policy
  (env : Env) (w : World) (messageData : MessageData) (r : ProcessResult) (w' : World) :
  processMessage messageData env w = (Ok r, w') ->
  (pr_intent r <> "booking" -> pr_intent r <> "inquiry" ->
   pr_leadId r = VNull /\ collection w' "leads" = collection w "leads") /\
  (forall lid, pr_leadId r = VStr lid ->
     (pr_intent r = "booking" \/ pr_intent r = "inquiry") /\
     collection w "leads" !! lid = None /\
     exists lead, collection w' "leads" !! lid = Some lead /\
       lead !! "sourceMessageId" = Some (VStr (pr_messageId r)) /\
       lead !! "organizationId" = Some (VStr (md_organizationId messageData)) /\
       lead !! "status" = Some (VStr "new") /\
       lead !! "score" = Some (VNum (calculateLeadScore (pr_entities r)) 0)).
Proof.
  intros H. apply processMessage_ok_inv, pipeline_inv in H.
  cbv zeta in H.
  destruct H as (ir & w1 & er & w2 & w6 & w7 & w8 & E1 & E2 & _ & _ & E5 & E6 & E7 & _ & -> & ->).
  cbn [pr_intent pr_leadId pr_messageId pr_entities] in *.
  (* the leads before step 6 are those of [w], and those after it those of [w'] *)
  assert (S1 : silent _ w1) by exact (respects_run silent _ _ _ _ _ (silent_classifyIntent _) E1).
  assert (S2 : silent _ w2) by exact (respects_run silent _ _ _ _ _ (silent_extractEntities _) E2).
  assert (S5 : silent _ w6) by exact (respects_run silent _ _ _ _ _ (step5_silent _ _ _) E5).
  apply step7_calls in E7 as (_ & St7 & _).
  destruct S1 as (St1 & _). destruct S2 as (St2 & _). destruct S5 as (St5 & _).
  assert (Hbefore : collection w6 "leads" = collection w "leads").
  { rewrite (collection_same_store _ _ _ St5), leads_persisted, !collection_clock_read.
    rewrite (collection_same_store _ _ _ St2), (collection_same_store _ _ _ St1).
    reflexivity. }
  rewrite leads_updated, !collection_clock_read, (collection_same_store _ _ _ St7).
  unfold step6 in E6.
  destruct (String.eqb (ir_intent ir) "booking") eqn:Eb;
    [| destruct (String.eqb (ir_intent ir) "inquiry") eqn:Ei]; cbn [orb] in E6.
  3: { unfold ret in E6. injection E6 as E6 <-. split.
       - intros _ _. by rewrite <- E6, Hbefore.
       - intros lid Hl. rewrite Hl in E6. discriminate E6. }
  all: (destruct (createLeadFromMessage_cases env w6 (md_organizationId messageData)
          (auto_id env (store_calls (clock_read (clock_read w2)))) (er_entities er)
          (md_from messageData)) as (l & w7' & E & _ & _ & Hl));
       rewrite (bind_ok _ _ _ _ _ _ E) in E6; unfold ret in E6; injection E6 as E6 <-;
       (split; [intros Hb Hi; exfalso;
                  first [apply String.eqb_eq in Eb | apply String.eqb_eq in Ei]; tauto |]);
       intros lid Hlid; rewrite Hlid in E6;
       (split; [first [apply String.eqb_eq in Eb | apply String.eqb_eq in Ei]; tauto |]);
       destruct Hl as [(-> & _ & Hfresh & Hins) | (-> & _)]; [| discriminate E6];
       injection E6 as E6; rewrite <- E6;
       (split; [by rewrite <- Hbefore |]);
       eexists; (split; [rewrite Hins; apply lookup_insert_eq |]);
       repeat split; reflexivity.
Qed.

Lemma processMessage_lead_policy_witness :
  exists r w',
    processMessage (Example.message None)
      (Example.env [Example.reply "complaint"; Example.reply "{}"; Example.reply "Maaf"] [] [])
      Example.empty_world = (Ok r, w') /\
    pr_leadId r = VNull /\ collection w' "leads" = ∅.
Proof.
  set (env := Example.env [Example.reply "complaint"; Example.reply "{}";
                           Example.reply "Maaf"] [] []).
  destruct (processMessage (Example.message None) env Example.empty_world) as [[r|e] w']
    eqn:E; [| vm_compute in E; discriminate E].
  destruct (processMessage_lead_policy env Example.empty_world (Example.message None) r w' E)
    as [Hnone _].
  assert (Hi : pr_intent r = "complaint") by (vm_compute in E; by injection E as <- _).
  exists r, w'. split; [reflexivity |]. apply Hnone; rewrite Hi; discriminate.
Defined.

(** ** Running the pipeline again, and failing late *)

Lemma completed_keeps_external messageData language intent entities t1 t2 ai leadId t3 t4 :
  (completedUpdate ai leadId t3 t4 ∪ newMessage messageData language intent entities t1 t2)
    !! "externalMessageId" = Some (of_option (md_messageId messageData)).
Proof. etrans; [apply lookup_union_r; reflexivity | reflexivity]. Qed.

(** X7.  [processMessage] is not idempotent.  Processing the same message
    a second time creates a second message document under a different
    identifier; after both runs the two documents exist side by side and
    carry the same external message identifier. *)
Theorem processMessage_twice
  (env : Env) (w : World) (messageData : MessageData)
  (r1 r2 : ProcessResult) (w1 w2 : World) :
  processMessage messageData env w = (Ok r1, w1) ->
  processMessage messageData env w1 = (Ok r2, w2) ->
  pr_messageId r1 <> pr_messageId r2 /\
  collection w "messages" !! pr_messageId r1 = None /\
  collection w "messages" !! pr_messageId r2 = None /\
  exists d1 d2,
    collection w2 "messages" !! pr_messageId r1 = Some d1 /\
    collection w2 "messages" !! pr_messageId r2 = Some d2 /\
    d1 !! "externalMessageId" = Some (of_option (md_messageId messageData)) /\
    d2 !! "externalMessageId" = Some (of_option (md_messageId messageData)).
Proof.
  intros H1 H2.
  apply processMessage_ok_inv, pipeline_success in H1
    as (a1 & a2 & a3 & a4 & _ & _ & F1 & C1 & _).
  apply processMessage_ok_inv, pipeline_success in H2
    as (b1 & b2 & b3 & b4 & _ & _ & F2 & C2 & _).
  cbv zeta in *.
  assert (Hne : pr_messageId r1 <> pr_messageId r2).
  { intros Heq. rewrite <- Heq, C1, lookup_insert_eq in F2. discriminate F2. }
  split; [exact Hne |]. split; [exact F1 |].
  split. { rewrite C1, lookup_insert_ne in F2 by done. exact F2. }
  eexists _, _. rewrite C2, C1.
  split; [rewrite lookup_insert_ne by done; apply lookup_insert_eq |].
  split; [apply lookup_insert_eq |].
  split; apply completed_keeps_external.
Qed.

Lemma processMessage_twice_witness :
  let env := Example.env [Example.reply "general"; Example.reply "{}"; Example.reply "Hi";
                          Example.reply "general"; Example.reply "{}"; Example.reply "Hi"]
               [] [] in
  let run1 := processMessage (Example.message (Some "wamid.1")) env Example.empty_world in
  let run2 := processMessage (Example.message (Some "wamid.1")) env run1.2 in
  exists r1 r2, run1.1 = Ok r1 /\ run2.1 = Ok r2 /\ pr_messageId r1 <> pr_messageId r2.
Proof.
  intros env run1 run2.
  destruct run1 as [[r1|e1] w1] eqn:E1; [| vm_compute in E1; discriminate E1].
  subst run2. cbn [snd].
  destruct (processMessage (Example.message (Some "wamid.1")) env w1) as [[r2|e2] w2] eqn:E2.
  - exists r1, r2. split; [reflexivity |]. split; [reflexivity |].
    exact (proj1 (processMessage_twice env Example.empty_world _ r1 r2 w1 w2 E1 E2)).
  - exfalso. subst run1. vm_compute in E1. injection E1 as <- <-.
    vm_compute in E2. discriminate E2.
Defined.

Lemma step5_throw content language intent env w e :
  (forall req, ai_reply env (ai_calls w) req = inl e) ->
  exists w', step5 content language intent env w = (Throw e, w') /\ silent w w'.
Proof.
  intros H.
  destruct (step5 content language intent env w) as [r w'] eqn:E.
  assert (S : silent w w') by exact (respects_run silent _ _ _ _ _ (step5_silent _ _ _) E).
  exists w'. split; [| exact S]. f_equal. revert E. unfold step5.
  destruct (arrayIncludes _ intent); unfold bind at 1.
  - unfold executeActionChain, try_catch, bind, addTableRows, log, throw. rewrite H.
    by intros [= <- _].
  - rewrite (generateResponse_throw _ _ _ _ _ _ (H _)). by intros [= <- _].
Qed.

(** X8.  A failure after the message was saved leaves it unfinished.  When
    classification and extraction succeed, the store accepts the message
    and the reply generation of step 5 throws, [processMessage] throws that
    error, and the document it created is still there with the status
    [processing], unless the input's message identifier happens to be the
    name the store gave that document. *)
Theorem processMessage_failure_after_persist
  (env : Env) (w : World) (messageData : MessageData) (e : error) (row1 row2 : option Row) :
  let content := md_content messageData in
  let id := auto_id env (store_calls w) in
  ai_reply env (ai_calls w) (chat_row env (intent_prompt content) []) = inr row1 ->
  ai_reply env (S (ai_calls w)) (chat_row env (entity_prompt content) []) = inr row2 ->
  (forall req, ai_reply env (S (S (ai_calls w))) req = inl e) ->
  store_fault env (store_calls w) = None ->
  collection w "messages" !! id = None ->
  md_messageId messageData <> Some id ->
  exists w' data,
    processMessage messageData env w = (Throw e, w') /\
    collection w' "messages" !! id = Some data /\
    data !! "processingStatus" = Some (VStr "processing") /\
    data !! "content" = Some (VStr content).
Proof.
  intros content id H1 H2 H3 Hstore Hfresh Hmid.
  assert (Hpipe : exists w6 data,
    pipeline messageData env w = (Throw e, w6) /\
    collection w6 "messages" !! id = Some data /\
    data !! "processingStatus" = Some (VStr "processing") /\
    data !! "content" = Some (VStr content)).
  { unfold pipeline. cbv zeta. fold content.
    rewrite (bind_ok (log LInfo _) _ env w tt (announced messageData w) eq_refl).
    pose proof (classifyIntent_ok env (announced messageData w) _ _ H1) as E1.
    rewrite (bind_ok _ _ _ _ _ _ E1).
    match type of E1 with _ = (Ok ?x, ?y) => set (ir := x) in *; set (w1 := y) in * end.
    pose proof (extractEntities_ok env w1 content row2 H2) as E2. cbv zeta in E2.
    destruct (extractEntities content env w1) as [re w2] eqn:E2'.
    assert (Hre : exists er, re = Ok er).
    { destruct (match_braces (ai_or_default row2)) as [m|];
        [destruct (JSON_parse env m) |]; injection E2 as -> _; by eexists. }
    destruct Hre as [er ->]. clear E2.
    pose proof (extractEntities_calls _ _ _ _ _ E2') as (A2 & N2 & _).
    assert (S2 : silent w1 w2)
      by exact (respects_run silent _ _ _ _ _ (silent_extractEntities _) E2').
    rewrite (bind_ok _ _ _ _ _ _ E2').
    rewrite (bind_ok newDate _ env w2 _ _ eq_refl).
    rewrite (bind_ok newDate _ env (clock_read w2) _ _ eq_refl).
    set (w4 := clock_read (clock_read w2)).
    assert (N4 : store_calls w4 = store_calls w) by (unfold w4, w1, announced in *; wproj; lia).
    assert (C4 : collection w4 "messages" = collection w "messages").
    { destruct S2 as (St2 & _). unfold w4. rewrite !collection_clock_read.
      by rewrite (collection_same_store _ _ _ St2). }
    match goal with |- context [db_add "messages" ?d] => set (data := d) end.
    rewrite (bind_ok _ _ _ _ _ _ (db_add_ok "messages" data env w4
               ltac:(by rewrite N4) ltac:(by rewrite C4, N4))).
    rewrite N4. fold id.
    destruct (step5_throw content (ld_language (detectLanguage content)) (ir_intent ir) env
                (persisted id data w4) e) as (w6 & E5 & S5).
    { unfold persisted, w4, w1, announced in *. wproj.
      replace (ai_calls w2) with (S (S (ai_calls w))) by lia. exact H3. }
    unfold step5, persisted in E5. rewrite (bind_throw _ _ _ _ _ _ E5).
    exists w6, data. split; [reflexivity |].
    destruct S5 as (_ & _ & _ & C5 & _). rewrite C5. unfold persisted.
    rewrite collection_put_doc.
    split; [apply lookup_insert_eq |]. split; reflexivity. }
  destruct Hpipe as (w6 & data & E & Hdoc & Hst & Hc).
  destruct (recovery_spec messageData e env w6) as (w' & Er & _ & Hrec).
  exists w', data. split; [unfold processMessage, try_catch; by rewrite E |].
  split; [| by split].
  destruct (md_messageId messageData) as [mid|] eqn:Em; cbn [of_option truthy default] in Hrec.
  - destruct (nonempty mid).
    + destruct Hrec as (_ & Hother & _). rewrite Hother; [exact Hdoc |].
      intros ->. by apply Hmid.
    + destruct Hrec as [St _]. by rewrite (collection_same_store _ _ _ St).
  - destruct Hrec as [St _]. by rewrite (collection_same_store _ _ _ St).
Qed.

Lemma processMessage_failure_after_persist_witness :
  exists w' data,
    processMessage (Example.message (Some "wamid.1"))
      (Example.env [Example.reply "general"; Example.reply "{}"; inl "AI unavailable"] [] [])
      Example.empty_world = (Throw "AI unavailable", w') /\
    collection w' "messages" !! "doc0" = Some data /\
    data !! "processingStatus" = Some (VStr "processing").
Proof.
  destruct (processMessage_failure_after_persist
              (Example.env [Example.reply "general"; Example.reply "{}";
                            inl "AI unavailable"] [] [])
              Example.empty_world (Example.message (Some "wamid.1")) "AI unavailable"
              (Some {| col_ID := Some "row"; col_AI := Some "general";
                       col_Step1_Understand := None; col_Step2_Fetch := None;
                       col_Step3_Draft := None; col_Step4_Refine := Some "general" |})
              (Some {| col_ID := Some "row"; col_AI := Some "{}";
                       col_Step1_Understand := None; col_Step2_Fetch := None;
                       col_Step3_Draft := None; col_Step4_Refine := Some "{}" |}))
    as (w' & data & Hrun & Hdoc & Hst & _); try reflexivity; try discriminate.
  by exists w', data.
Defined.

(** ** Batches, continued *)

Lemma run_in_order_app l1 l2 env w :
  run_in_order (l1 ++ l2) env w =
    ((run_in_order l1 env w).1 ++ (run_in_order l2 env (run_in_order l1 env w).2).1,
     (run_in_order l2 env (run_in_order l1 env w).2).2).
Proof.
  revert w. induction l1 as [|m l1 IH]; intros w.
  - cbn [app run_in_order fst snd]. by destruct (run_in_order l2 env w).
  - cbn [app run_in_order]. destruct (processMessage m env w) as [r w1].
    rewrite IH. destruct (run_in_order l1 env w1) as [i1 w2].
    cbn [fst snd]. by destruct (run_in_order l2 env w2).
Qed.

Lemma batchProcessMessages_run messages env w :
  batchProcessMessages messages env w =
    (Ok {| bs_success := true;
           bs_total := length messages;
           bs_processed := length (List.filter item_success (run_in_order messages env w).1);
           bs_failed :=
             length (List.filter (fun r => negb (item_success r))
                       (run_in_order messages env w).1);
           bs_results := (run_in_order messages env w).1 |},
     (run_in_order messages env w).2).
Proof. unfold batchProcessMessages, bind. by rewrite batch_loop_run. Qed.

(** X9.  Batches compose.  Processing a batch and then, in the world it
    left, a second batch gives what processing the two lists as one batch
    gives: the results of the first followed by those of the second, the
    same final world, and totals, successes and failures that add up. *)
Theorem batchProcessMessages_append
  (env : Env) (w : World) (l1 l2 : list MessageData)
  (s1 s2 : BatchSummary) (w1 w2 : World) :
  batchProcessMessages l1 env w = (Ok s1, w1) ->
  batchProcessMessages l2 env w1 = (Ok s2, w2) ->
  exists s,
    batchProcessMessages (l1 ++ l2) env w = (Ok s, w2) /\
    bs_results s = bs_results s1 ++ bs_results s2 /\
    bs_total s = bs_total s1 + bs_total s2 /\
    bs_processed s = bs_processed s1 + bs_processed s2 /\
    bs_failed s = bs_failed s1 + bs_failed s2.
Proof.
  rewrite !batchProcessMessages_run. intros [= <- <-] [= <- <-].
  rewrite run_in_order_app. cbn [fst snd].
  eexists. split; [reflexivity |].
  cbn [bs_results bs_total bs_processed bs_failed].
  rewrite !List.filter_app, !length_app. done.
Qed.

Lemma batchProcessMessages_append_witness :
  let env := Example.env [inl "AI unavailable"; Example.reply "general"; Example.reply "{}";
                          Example.reply "Hi"] [] [] in
  exists s,
    (batchProcessMessages [Example.message (Some "m1"); Example.message (Some "m2")]
       env Example.empty_world).1 = Ok s /\
    (bs_total s, bs_processed s, bs_failed s) = (2, 1, 1).
Proof.
  intros env.
  pose (run1 := run_in_order [Example.message (Some "m1")] env Example.empty_world).
  pose (run2 := run_in_order [Example.message (Some "m2")] env run1.2).
  destruct (batchProcessMessages_append env Example.empty_world
              [Example.message (Some "m1")] [Example.message (Some "m2")]
              {| bs_success := true; bs_total := 1; bs_processed := 0; bs_failed := 1;
                 bs_results := run1.1 |}
              {| bs_success := true; bs_total := 1; bs_processed := 1; bs_failed := 0;
                 bs_results := run2.1 |}
              run1.2 run2.2) as (s & Hrun & _ & Ht & Hp & Hf).
  - vm_compute; reflexivity.
  - vm_compute; reflexivity.
  - exists s. split; [exact (f_equal fst Hrun) |]. rewrite Ht, Hp, Hf. reflexivity.
Defined.
(** X10.  A batch never removes a document from the store, whatever
    fails in it. *)
Theorem batchProcessMessages_keeps (env : Env) (w : World) (messages : list MessageData) :
  keeps w (batchProcessMessages messages env w).2.
Proof.
  rewrite batchProcessMessages_run. cbn [snd].
  revert w. induction messages as [|m l IH]; intros w; [apply keeps_refl |].
  cbn [run_in_order]. pose proof (keeps_processMessage m env w) as Hk.
  destruct (processMessage m env w) as [r w1]. specialize (IH w1).
  destruct (run_in_order l env w1) as [items w2]. cbn [snd] in *.
  by eapply keeps_trans.
Qed.

(** ** Statistics, continued *)

(** X11.  [getProcessingStats] only reads.  Whatever happens it leaves the
    store as it was.  It throws exactly when the store refuses the query,
    and then the error of the store, which it logs; otherwise it returns
    [success: true] with the period it used and an average processing
    time that is always 0. *)
Theorem getProcessingStats_outcome
  (env : Env) (w : World) (organizationId : string) (period_arg : option string) :
  store (getProcessingStats organizationId period_arg env w).2 = store w /\
  match store_fault env (store_calls w) with
  | Some e =>
      (getProcessingStats organizationId period_arg env w).1 = Throw e /\
      In (EvLog LError ("Stats calculation error: " +:+ e))
        (trace (getProcessingStats organizationId period_arg env w).2)
  | None =>
      exists r, (getProcessingStats organizationId period_arg env w).1 = Ok r /\
        sr_success r = true /\
        sr_period r = default "week" period_arg /\
        st_averageProcessingTime (sr_stats r) = 0%Z
  end.
Proof.
  unfold getProcessingStats, try_catch, bind, ask, newDate, db_query_messages, log, throw, ret.
  wproj. destruct (store_fault env (store_calls w)) as [e|]; cbn [fst snd]; wproj.
  - split; [done |]. split; [done |]. apply in_or_app. right. simpl. auto.
  - split; [done |]. eexists. split; [reflexivity |]. cbn [sr_success sr_period sr_stats].
    split; [done |]. split; [done |]. by rewrite fold_count_message.
Qed.

Lemma table_total_count_key (k : string) (table : gmap string nat) :
  table_total (count_key k table) = S (table_total table).
Proof.
  unfold table_total, count_key.
  assert (Hc : forall m : gmap string nat, forall j1 j2 z1 z2 y,
             j1 <> j2 -> m !! j1 = Some z1 -> m !! j2 = Some z2 ->
             z1 + (z2 + y) = z2 + (z1 + y)) by (intros; lia).
  destruct (table !! k) as [n|] eqn:E; cbn [default].
  - rewrite <- (insert_delete_eq table k).
    rewrite (map_fold_insert_L _ _ _ _ _ (Hc _) (lookup_delete_eq _ _)).
    rewrite (map_fold_delete_L _ _ k n table (Hc _) E). unfold id. lia.
  - rewrite (map_fold_insert_L _ _ _ _ _ (Hc _) E). unfold id. lia.
Qed.

Lemma table_total_count_keys (keys : list string) (table : gmap string nat) :
  table_total (count_keys keys table) = table_total table + length keys.
Proof.
  revert table. induction keys as [|k keys IH]; intros table; cbn [length].
  - unfold count_keys. cbn [fold_left]. lia.
  - unfold count_keys in *. cbn [fold_left]. rewrite IH, table_total_count_key. lia.
Qed.

(** The counts of a table of the program sum to the number of keys
    counted that are no property name of [Object.prototype]. *)
Lemma table_total_tally (keys : list string) :
  table_total (counts (tally keys ∅)) = length (ordinary keys).
Proof.
  rewrite (counts_tally _ _ counted_empty), counts_empty, table_total_count_keys.
  unfold table_total. by rewrite map_fold_empty.
Qed.

Lemma ordinary_length (keys : list string) : length (ordinary keys) <= length keys.
Proof. apply List.filter_length_le. Qed.

Lemma ordinary_all (keys : list string) :
  (forall k, In k keys -> ~ In k Object_prototype_keys) -> ordinary keys = keys.
Proof.
  intros H. unfold ordinary. induction keys as [|k keys IH]; [done |].
  cbn [List.filter].
  destruct (arrayIncludes Object_prototype_keys k) eqn:E.
  - apply arrayIncludes_In in E. destruct (H k); [by left | done].
  - cbn [negb]. f_equal. apply IH. intros k' Hk'. apply H. by right.
Qed.

Lemma occurrences_ordinary (k : string) (keys : list string) :
  occurrences k (ordinary keys) =
    if arrayIncludes Object_prototype_keys k then 0 else occurrences k keys.
Proof.
  unfold occurrences, ordinary. induction keys as [|k0 keys IH].
  - by destruct (arrayIncludes Object_prototype_keys k).
  - cbn [List.filter]. destruct (String.eqb_spec k k0) as [<-|Hne].
    + destruct (arrayIncludes Object_prototype_keys k) eqn:E; cbn [negb List.filter].
      * exact IH.
      * rewrite String.eqb_refl. cbn [length]. by rewrite IH.
    + destruct (arrayIncludes Object_prototype_keys k0); cbn [negb List.filter]; [exact IH |].
      destruct (String.eqb_spec k k0); [done | exact IH].
Qed.

(** Under a key that is no property name of [Object.prototype] the table
    of the program holds the number of occurrences of the key. *)
Lemma tally_lookup (keys : list string) (k : string) :
  arrayIncludes Object_prototype_keys k = false ->
  tally keys ∅ !! k =
    if (occurrences k keys =? 0)%nat then None else Some (Count (occurrences k keys)).
Proof.
  intros Hk.
  pose proof (tally_counted keys ∅ counted_empty k) as Hc.
  pose proof (counts_lookup (tally keys ∅) k) as Hl.
  rewrite (counts_tally _ _ counted_empty), counts_empty, count_keys_grouped in Hl.
  rewrite occurrences_ordinary, Hk in Hl.
  destruct (tally keys ∅ !! k) as [[n|s]|].
  - destruct (occurrences k keys =? 0)%nat; congruence.
  - specialize (Hc _ eq_refl). rewrite Hk in Hc. by destruct Hc as (n & [=]).
  - by destruct (occurrences k keys =? 0)%nat.
Qed.

Lemma tally_grouped (keys : list string) :
  grouped_count (counts (tally keys ∅)) (ordinary keys).
Proof.
  rewrite (counts_tally _ _ counted_empty), counts_empty. apply count_keys_grouped.
Qed.

(** X12.  What the tables of the statistics add up to.  The counts of a
    table, that is its entries that are numbers, sum to the number of
    messages counted in it whose key is no property name of
    [Object.prototype]: to the total for the tables by status and by
    channel when no status, resp. no channel, is such a name, and never to
    more than the total. *)
Theorem getProcessingStats_sums
  (env : Env) (w : World) (organizationId : string) (period_arg : option string)
  (r : StatsResult) (w' : World) :
  getProcessingStats organizationId period_arg env w = (Ok r, w') ->
  let stats := sr_stats r in
  let start := start_of_period (tz_offset env) (default "week" period_arg)
                 (clock env (clock_reads w)) (clock env (S (clock_reads w))) in
  let messages := messages_in_range w organizationId start in
  let by_status := keys_of env "processingStatus" messages in
  let by_intent := keys_of env "intent" (having "intent" messages) in
  let by_language := keys_of env "language" (having "language" messages) in
  let by_channel := keys_of env "channelType" messages in
  (table_total (counts (st_byStatus stats)) = length (ordinary by_status) /\
   table_total (counts (st_byIntent stats)) = length (ordinary by_intent) /\
   table_total (counts (st_byLanguage stats)) = length (ordinary by_language) /\
   table_total (counts (st_byChannel stats)) = length (ordinary by_channel)) /\
  (table_total (counts (st_byStatus stats)) <= st_total stats /\
   table_total (counts (st_byIntent stats)) <= st_total stats /\
   table_total (counts (st_byLanguage stats)) <= st_total stats /\
   table_total (counts (st_byChannel stats)) <= st_total stats) /\
  ((forall k, In k by_status -> ~ In k Object_prototype_keys) ->
   table_total (counts (st_byStatus stats)) = st_total stats) /\
  ((forall k, In k by_channel -> ~ In k Object_prototype_keys) ->
   table_total (counts (st_byChannel stats)) = st_total stats).
Proof.
  intros Hrun. apply getProcessingStats_run in Hrun. cbv zeta in *. subst r.
  cbn [sr_stats st_total st_byStatus st_byIntent st_byLanguage st_byChannel].
  rewrite !table_total_tally.
  split; [done |]. split.
  - repeat split.
    + etrans; [apply ordinary_length |]. unfold keys_of. by rewrite length_map.
    + etrans; [apply ordinary_length |]. unfold keys_of, having. rewrite length_map.
      apply List.filter_length_le.
    + etrans; [apply ordinary_length |]. unfold keys_of, having. rewrite length_map.
      apply List.filter_length_le.
    + etrans; [apply ordinary_length |]. unfold keys_of. by rewrite length_map.
  - split; intros H; rewrite (ordinary_all _ H); unfold keys_of; by rewrite length_map.
Qed.

Lemma getProcessingStats_sums_witness :
  exists r,
    (getProcessingStats "org1" (Some "week") (Example.env [] [] []) Example.stats_world).1
      = Ok r /\
    table_total (counts (st_byStatus (sr_stats r))) = st_total (sr_stats r).
Proof.
  destruct (getProcessingStats "org1" (Some "week") (Example.env [] [] [])
              Example.stats_world) as [[r|e] w'] eqn:E; [| vm_compute in E; discriminate E].
  exists r. split; [reflexivity |].
  apply (getProcessingStats_sums _ _ _ _ r w' E).
  intros k Hk. vm_compute in Hk. vm_compute.
  intros Hp. repeat (destruct Hk as [<-|Hk]; [repeat (destruct Hp as [Hp|Hp]; [discriminate Hp |]); exact Hp |]).
  exact Hk.
Defined.

(** X28.  What [getProcessingStats] counts.  When the store answers, the
    total is the number of messages of the organization created since the
    start of the period, and each of the four tables holds, as its entries
    that are numbers, the grouped count of the keys that are no property
    name of [Object.prototype]: of the status and of the channel of every
    message in range, and of the intent and of the language of those that
    have one.  In particular, when the messages in range are two completed
    ones and a failed one, the total is 3 and the table by status is
    [{completed: 2, failed: 1}]. *)
Theorem getProcessingStats_counts
  (env : Env) (w : World) (organizationId : string) (period_arg : option string)
  (r : StatsResult) (w' : World) :
  getProcessingStats organizationId period_arg env w = (Ok r, w') ->
  let stats := sr_stats r in
  let start := start_of_period (tz_offset env) (default "week" period_arg)
                 (clock env (clock_reads w)) (clock env (S (clock_reads w))) in
  let messages := messages_in_range w organizationId start in
  st_total stats = length messages /\
  grouped_count (counts (st_byStatus stats))
    (ordinary (keys_of env "processingStatus" messages)) /\
  grouped_count (counts (st_byIntent stats))
    (ordinary (keys_of env "intent" (having "intent" messages))) /\
  grouped_count (counts (st_byLanguage stats))
    (ordinary (keys_of env "language" (having "language" messages))) /\
  grouped_count (counts (st_byChannel stats))
    (ordinary (keys_of env "channelType" messages)) /\
  ((fun d => field d "processingStatus") <$> messages
     ≡ₚ [VStr "completed"; VStr "completed"; VStr "failed"] ->
   st_total stats = 3 /\
   st_byStatus stats = {[ "completed" := Count 2; "failed" := Count 1 ]}).
Proof.
  intros Hrun. apply getProcessingStats_run in Hrun. cbv zeta in *. subst r.
  cbn [sr_stats st_total st_byStatus st_byIntent st_byLanguage st_byChannel].
  split; [done |]. do 4 (split; [apply tally_grouped |]).
  intros Hp. split.
  { apply Permutation_length in Hp. by rewrite length_fmap in Hp. }
  assert (Hk : keys_of env "processingStatus"
                 (messages_in_range w organizationId
                    (start_of_period (tz_offset env) (default "week" period_arg)
                       (clock env (clock_reads w)) (clock env (S (clock_reads w)))))
               ≡ₚ ["completed"; "completed"; "failed"]).
  { unfold keys_of.
    rewrite <- (map_map (fun d => field d "processingStatus") (key_of env)).
    change (map (key_of env) ?l) with (key_of env <$> l).
    change (map (fun d => field d "processingStatus") ?l)
      with ((fun d => field d "processingStatus") <$> l).
    by rewrite Hp. }
  apply map_eq. intros k.
  destruct (String.eqb_spec k "completed") as [->|Hc].
  { rewrite tally_lookup by reflexivity. by rewrite (occurrences_perm _ _ _ Hk). }
  destruct (String.eqb_spec k "failed") as [->|Hf].
  { rewrite tally_lookup by reflexivity. by rewrite (occurrences_perm _ _ _ Hk). }
  rewrite tally_lookup_absent.
  - rewrite lookup_empty. symmetry. rewrite lookup_insert_ne by done.
    by rewrite lookup_singleton_ne.
  - rewrite (occurrences_perm _ _ _ Hk). unfold occurrences. cbn [List.filter].
    destruct (String.eqb_spec k "completed"); [done |].
    by destruct (String.eqb_spec k "failed").
Qed.

Lemma getProcessingStats_counts_witness :
  exists stats w',
    getProcessingStats "org1" (Some "today") (Example.env [] [] []) Example.stats_world =
      (Ok {| sr_success := true; sr_period := "today"; sr_stats := stats |}, w') /\
    st_total stats = 3 /\
    st_byStatus stats = {[ "completed" := Count 2; "failed" := Count 1 ]}.
Proof.
  destruct (getProcessingStats "org1" (Some "today") (Example.env [] [] [])
              Example.stats_world) as [[[ok period stats]|e] w'] eqn:E;
    [| vm_compute in E; discriminate E].
  pose proof (getProcessingStats_run _ _ _ _ _ _ E) as Hr. cbv zeta in Hr.
  injection Hr as -> -> _.
  exists stats, w'. split; [reflexivity |].
  apply (getProcessingStats_counts _ _ _ _ _ w' E).
  vm_compute. reflexivity.
Defined.

(** ** Translation *)

Lemma language_name_bm (s s' : string) :
  (s = "bm" <-> s' = "bm") -> language_name s = language_name s'.
Proof.
  unfold language_name.
  destruct (String.eqb_spec s "bm"), (String.eqb_spec s' "bm"); intuition.
Qed.

(** X13.  [translateText] knows two languages.  A language code matters
    only through whether it is [bm]: every other code stands for English.
    Two calls whose codes agree on that send the same prompt, leave the
    same world and return the same translation or throw the same error;
    the results differ only in the codes they echo. *)
Theorem translateText_language_codes
  (env : Env) (w : World) (text s t s' t' : string) :
  (s = "bm" <-> s' = "bm") -> (t = "bm" <-> t' = "bm") ->
  exists w',
    (exists e, translateText text s t env w = (Throw e, w') /\
               translateText text s' t' env w = (Throw e, w')) \/
    (exists out,
       translateText text s t env w =
         (Ok {| tr_success := true; tr_originalText := text; tr_translatedText := out;
                tr_sourceLang := s; tr_targetLang := t |}, w') /\
       translateText text s' t' env w =
         (Ok {| tr_success := true; tr_originalText := text; tr_translatedText := out;
                tr_sourceLang := s'; tr_targetLang := t' |}, w')).
Proof.
  intros Hs Ht. unfold translateText, translate_prompt, try_catch.
  rewrite (language_name_bm s s' Hs), (language_name_bm t t' Ht).
  destruct (ai_reply env (ai_calls w)
              (chat_row env ("Translate this " +:+ language_name s' +:+ " text to "
                             +:+ language_name t' +:+ ": " +:+ text) [])) as [e|row] eqn:E.
  - rewrite (bind_throw _ _ _ _ _ _ (generateResponse_throw env w _ t _ _ E)),
      (bind_throw _ _ _ _ _ _ (generateResponse_throw env w _ t' _ _ E)).
    eexists. left. exists e. split; reflexivity.
  - rewrite (bind_ok _ _ _ _ _ _ (generateResponse_ok env w _ t _ _ E)),
      (bind_ok _ _ _ _ _ _ (generateResponse_ok env w _ t' _ _ E)).
    eexists. right. eexists. split; reflexivity.
Qed.

Lemma translateText_language_codes_witness :
  exists w' out,
    translateText "Selamat pagi" "bm" "en" (Example.env [Example.reply "Good morning"] [] [])
      Example.empty_world
    = (Ok {| tr_success := true; tr_originalText := "Selamat pagi"; tr_translatedText := out;
             tr_sourceLang := "bm"; tr_targetLang := "en" |}, w') /\
    translateText "Selamat pagi" "bm" "fr" (Example.env [Example.reply "Good morning"] [] [])
      Example.empty_world
    = (Ok {| tr_success := true; tr_originalText := "Selamat pagi"; tr_translatedText := out;
             tr_sourceLang := "bm"; tr_targetLang := "fr" |}, w').
Proof.
  destruct (translateText_language_codes
              (Example.env [Example.reply "Good morning"] [] []) Example.empty_world
              "Selamat pagi" "bm" "en" "bm" "fr")
    as (w' & [(e & H1 & _) | (out & H1 & H2)]).
  - reflexivity.
  - split; intros H; discriminate H.
  - vm_compute in H1. discriminate H1.
  - by exists w', out.
Defined.

(** ** The pipeline with an AI that has nothing to say *)

(** X14.  Empty answers do not stop the pipeline.  When every reply of the
    AI client comes without a usable answer (no first row, no [AI] column,
    or an empty one), a run of [processMessage] that returns has classified
    the message as [general], found no entities, created no lead, and
    reports the stock text as its response. *)
Theorem processMessage_no_answer
  (env : Env) (w : World) (messageData : MessageData) (r : ProcessResult) (w' : World) :
  (forall n req, exists row,
      ai_reply env n req = inr row /\ ai_or_default row = "No response generated") ->
  processMessage messageData env w = (Ok r, w') ->
  pr_intent r = "general" /\ pr_entities r = [] /\
  pr_response r = VStr "No response generated" /\ pr_leadId r = VNull /\
  collection w' "leads" = collection w "leads".
Proof.
  intros Hai H. apply processMessage_ok_inv in H.
  pose proof (pipeline_inv _ _ _ _ _ H) as Hinv. cbv zeta in Hinv.
  destruct Hinv as (ir & w1 & er & w2 & w6 & w7 & w8 & E1 & E2 & Hf & Hfresh & E5 & E6 & E7
                    & Hf' & -> & Hr).
  destruct (Hai (ai_calls (announced messageData w))
              (chat_row env (intent_prompt (md_content messageData)) [])) as (row1 & R1 & D1).
  rewrite (classifyIntent_ok _ _ _ _ R1), D1 in E1. injection E1 as <- <-.
  destruct (Hai (ai_calls (ai_called (chat_row env (intent_prompt (md_content messageData)) [])
                             (announced messageData w)))
              (chat_row env (entity_prompt (md_content messageData)) [])) as (row2 & R2 & D2).
  pose proof (extractEntities_ok _ _ _ _ R2) as E2'. cbv zeta in E2'.
  rewrite D2 in E2'. change (match_braces "No response generated") with (@None string) in E2'.
  rewrite E2' in E2. injection E2 as <- <-.
  cbn [ir_intent er_entities] in *.
  change (if arrayIncludes validIntents (trim (toLowerCase "No response generated"))
          then trim (toLowerCase "No response generated") else "general")
    with "general" in *.
  unfold step5 in E5. change (arrayIncludes ["booking"; "inquiry"] "general") with false in E5.
  cbv iota in E5.
  match type of E5 with
  | bind (generateResponse ?m ?l ?c) _ _ ?w0 = _ =>
      destruct (Hai (ai_calls w0) (chat_row env m c)) as (row3 & R3 & D3);
      rewrite (bind_ok _ _ _ _ _ _ (generateResponse_ok _ _ _ _ _ _ R3)) in E5
  end.
  cbn [gr_response] in E5. rewrite D3 in E5. unfold ret in E5. injection E5 as Hresp <-.
  unfold step6 in E6. change (String.eqb "general" "booking" || String.eqb "general" "inquiry")
    with false in E6. cbv iota in E6. unfold ret in E6. injection E6 as Hlead <-.
  rewrite Hr. cbn [pr_intent pr_entities pr_response pr_leadId].
  split; [done |]. split; [done |]. split; [done |]. split; [done |].
  rewrite leads_updated, !collection_clock_read.
  apply step7_calls in E7 as (_ & St & _).
  rewrite (collection_same_store _ _ "leads" St), collection_ai_called, leads_persisted,
    !collection_clock_read, collection_ai_called, collection_ai_called.
  unfold announced. by rewrite collection_emit.
Qed.

Lemma processMessage_no_answer_witness :
  exists r,
    (processMessage (Example.message None) (Example.env [] [] []) Example.empty_world).1
      = Ok r /\
    pr_intent r = "general" /\ pr_response r = VStr "No response generated".
Proof.
  destruct (processMessage (Example.message None) (Example.env [] [] []) Example.empty_world)
    as [[r|e] w'] eqn:E; [| vm_compute in E; discriminate E].
  exists r. split; [reflexivity |].
  destruct (processMessage_no_answer (Example.env [] [] []) Example.empty_world
              (Example.message None) r w') as (Hi & _ & Hr & _).
  - intros n req. exists None. split; [by destruct n | reflexivity].
  - exact E.
  - by split.
Defined.

(** ** The handlers of the routes *)

Lemma messageId_or_generated_run messageId env w :
  exists mid w1,
    messageId_or_generated messageId env w = (Ok mid, w1) /\
    mid = (if truthy (of_option messageId) then default EmptyString messageId
           else "msg_" +:+ ToString env (VNum (clock env (clock_reads w)) 0)) /\
    truthy (of_option (Some mid)) = true /\
    store w1 = store w /\ ai_calls w1 = ai_calls w /\ store_calls w1 = store_calls w /\
    trace w1 = trace w.
Proof.
  unfold messageId_or_generated.
  destruct (truthy (of_option messageId)) eqn:E.
  - eexists _, _. split; [reflexivity |]. split; [reflexivity |].
    destruct messageId as [m|]; [| discriminate E]. by repeat split.
  - unfold bind, ask, newDate, ret. eexists _, _. split; [reflexivity |]. by repeat split.
Qed.

Lemma complete_dec body :
  (missing (pb_organizationId body) || missing (pb_channelType body)
   || missing (pb_from body) || missing (pb_content body)) = false <-> complete body.
Proof.
  unfold complete.
  destruct (missing (pb_organizationId body)), (missing (pb_channelType body)),
    (missing (pb_from body)), (missing (pb_content body)); cbn; intuition discriminate.
Qed.

(** X15.  [POST /process] always answers, and never with the text of an
    error.  A body that lacks one of its four required fields, or has it
    empty, is answered 400 with nothing done at all; a complete body is
    answered 200 with the result of the pipeline, the message being in the
    store under the identifier returned, or 500 with a fixed text, the
    error going to the log only.  No document is ever removed. *)
Theorem post_process_responds (env : Env) (w : World) (body : ProcessBody) :
  exists resp w',
    post_process body env w = (Ok resp, w') /\ keeps w w' /\
    (~ complete body /\ w' = w /\
     resp = refuse 400 "Missing required fields: organizationId, channelType, from, content"
     \/
     complete body /\
     (exists result, resp = json (BodyProcessed result) /\ pr_success result = true /\
        is_Some (collection w' "messages" !! pr_messageId result))
     \/
     complete body /\ resp = refuse 500 "Failed to process message" /\
     exists e, last (trace w') = Some (EvLog LError ("Message process error: " +:+ e))).
Proof.
  unfold post_process, try_catch.
  destruct (missing (pb_organizationId body) || missing (pb_channelType body)
            || missing (pb_from body) || missing (pb_content body)) eqn:Hm.
  { eexists _, _. split; [reflexivity |]. split; [apply keeps_refl |]. left.
    split; [| done]. intros Hc. apply complete_dec in Hc. congruence. }
  apply complete_dec in Hm.
  destruct (messageId_or_generated_run (pb_messageId body) env w)
    as (mid & w1 & E1 & _ & _ & St & _).
  rewrite (bind_ok _ _ _ _ _ _ E1).
  assert (K1 : keeps w w1).
  { intros coll id. unfold collection. by rewrite St. }
  pose proof (keeps_processMessage (message_of body mid) env w1) as K2.
  destruct (processMessage (message_of body mid) env w1) as [[r|e] w2] eqn:E2; cbn [snd] in K2.
  - rewrite (bind_ok _ _ _ _ _ _ E2). eexists _, _. split; [reflexivity |].
    split; [by eapply keeps_trans |]. right. left. split; [done |].
    exists r. split; [done |].
    apply processMessage_ok_inv, pipeline_success in E2
      as (t1 & t2 & t3 & t4 & Hs & _ & _ & Hc & _).
    split; [done |]. rewrite Hc, lookup_insert_eq. by eexists.
  - rewrite (bind_throw _ _ _ _ _ _ E2). unfold bind, log, ret.
    eexists _, _. split; [reflexivity |]. split.
    + eapply keeps_trans; [exact K1 |]. eapply keeps_trans; [exact K2 |]. by intros coll id.
    + right. right. split; [done |]. split; [done |]. exists e.
      unfold emit. cbn [trace]. apply last_snoc.
Qed.

(** X16.  Through [POST /process] the recovery branch always has a name to
    look for, because the handler never passes an empty identifier on: the
    one of the body, or [msg_] followed by the time.  So when classifying or
    extracting throws for a complete body, the answer is 500, no message is
    created, and the only write to the messages is the attempt to mark the
    document of that name as failed. *)
Theorem post_process_ai_failure
  (env : Env) (w : World) (body : ProcessBody) (e : error) :
  complete body ->
  steps_2_3_throw env w (default EmptyString (pb_content body)) e ->
  let messageId :=
    if truthy (of_option (pb_messageId body)) then default EmptyString (pb_messageId body)
    else "msg_" +:+ ToString env (VNum (clock env (clock_reads w)) 0) in
  exists w' t,
    post_process body env w = (Ok (refuse 500 "Failed to process message"), w') /\
    dom (collection w' "messages") = dom (collection w "messages") /\
    ext w w' [EvUpdate "messages" messageId (failedUpdate e t)].
Proof.
  intros Hc Hai. cbv zeta. unfold post_process, try_catch.
  rewrite (proj2 (complete_dec body) Hc).
  destruct (messageId_or_generated_run (pb_messageId body) env w)
    as (mid & w1 & E1 & <- & Hmid & St & Ha & _ & Htr).
  rewrite (bind_ok _ _ _ _ _ _ E1).
  assert (Hai1 : steps_2_3_throw env w1 (md_content (message_of body mid)) e).
  { unfold steps_2_3_throw in *. by rewrite Ha. }
  destruct (pipeline_steps_2_3_throw _ _ _ _ Hai1) as (w2 & E2 & Hs & _ & _ & Hcoll & Hx).
  destruct (recovery_spec (message_of body mid) e env w2) as (w3 & E3 & Hdom & Hrec).
  cbn [md_messageId message_of] in Hrec. rewrite Hmid in Hrec. cbv zeta in Hrec.
  destruct Hrec as (Hext & _).
  assert (E : processMessage (message_of body mid) env w1 = (Throw e, w3)).
  { unfold processMessage, try_catch. by rewrite E2. }
  rewrite (bind_throw _ _ _ _ _ _ E). unfold bind, log, ret.
  eexists _, _. split; [reflexivity |]. split.
  - rewrite collection_emit, Hdom, Hcoll. unfold collection. by rewrite St.
  - assert (X01 : ext w w1 []) by (exists []; by rewrite Htr, app_nil_r).
    assert (X3 : ext w3 (emit (EvLog LError ("Message process error: " +:+ e)) w3) [])
      by (by eexists [_]).
    pose proof (ext_trans _ _ _ _ _ (ext_trans _ _ _ _ _ (ext_trans _ _ _ _ _ X01 Hx) Hext) X3)
      as X. exact X.
Qed.

Lemma post_process_ai_failure_witness :
  let body := {| pb_organizationId := Some "org1"; pb_channelType := Some "whatsapp";
                 pb_from := Some "+60123456789"; pb_content := Some "Hello";
                 pb_messageId := Some "wamid.1"; pb_channelId := None |} in
  exists w' t,
    post_process body (Example.env [inl "AI unavailable"] [] []) Example.empty_world
      = (Ok (refuse 500 "Failed to process message"), w') /\
    ext Example.empty_world w'
      [EvUpdate "messages" "wamid.1" (failedUpdate "AI unavailable" t)].
Proof.
  intros body.
  destruct (post_process_ai_failure (Example.env [inl "AI unavailable"] [] [])
              Example.empty_world body "AI unavailable")
    as (w' & t & Hrun & _ & Hext).
  - by repeat split.
  - left. reflexivity.
  - exists w', t. split; [exact Hrun |]. exact Hext.
Defined.

(** X17.  [GET /stats/overview] takes any word for a period.  A period
    other than [today], [week] and [month] is not refused: the answer is
    computed over the last seven days, exactly as for [week] or for no
    period at all, but it names the period as it was asked. *)
Theorem get_stats_overview_unknown_period
  (env : Env) (w : World) (organizationId period : string) :
  period <> "today" -> period <> "week" -> period <> "month" ->
  exists w',
    (get_stats_overview organizationId (Some period) env w
       = (Ok (refuse 500 "Failed to retrieve statistics"), w') /\
     get_stats_overview organizationId None env w
       = (Ok (refuse 500 "Failed to retrieve statistics"), w'))
    \/
    (exists stats,
       get_stats_overview organizationId (Some period) env w
         = (Ok (json (BodyStats {| sr_success := true; sr_period := period;
                                   sr_stats := stats |})), w') /\
       get_stats_overview organizationId None env w
         = (Ok (json (BodyStats {| sr_success := true; sr_period := "week";
                                   sr_stats := stats |})), w')).
Proof.
  intros H1 H2 H3.
  unfold get_stats_overview, getProcessingStats, start_of_period, try_catch, bind, ask,
    newDate, db_query_messages, log, throw, ret.
  cbn [default]. wproj. unfold id.
  rewrite (proj2 (String.eqb_neq _ _) H1), (proj2 (String.eqb_neq _ _) H2),
    (proj2 (String.eqb_neq _ _) H3).
  change (String.eqb "week" "today") with false.
  change (String.eqb "week" "week") with true. cbv iota.
  destruct (store_fault env (store_calls w)); cbn [fst snd]; wproj.
  - eexists. left. split; reflexivity.
  - eexists. right. eexists. split; reflexivity.
Qed.

Lemma get_stats_overview_unknown_period_witness :
  exists w' stats,
    get_stats_overview "org1" (Some "year") (Example.env [] [] []) Example.stats_world
      = (Ok (json (BodyStats {| sr_success := true; sr_period := "year";
                                sr_stats := stats |})), w') /\
    st_total stats = 4.
Proof.
  destruct (get_stats_overview_unknown_period (Example.env [] [] []) Example.stats_world
              "org1" "year") as (w' & [(H & _) | (stats & H & _)]).
  - intros H; discriminate H.
  - intros H; discriminate H.
  - intros H; discriminate H.
  - vm_compute in H. discriminate H.
  - exists w', stats. split; [exact H |].
    assert (Hs := f_equal fst H). vm_compute in Hs. by injection Hs as <-.
Defined.

(** ** The routes of the leads *)

Lemma db_get_run coll id env w :
  db_get coll id env w =
    (match store_fault env (store_calls w) with
     | Some e => Throw e
     | None => Ok (collection w coll !! id)
     end, store_called w).
Proof. unfold db_get. by destruct (store_fault env (store_calls w)). Qed.

Lemma valid_status_In status :
  valid_status status = true <-> exists s, status = VStr s /\ In s validStatuses.
Proof.
  split.
  - destruct status; try discriminate. intros H. eexists. split; [reflexivity |].
    by apply arrayIncludes_In.
  - intros (s & -> & H). by apply arrayIncludes_In.
Qed.

Lemma statusUpdate_fields status t userId (old : doc) :
  (statusUpdate status t userId ∪ old) !! "status" = Some status /\
  (statusUpdate status t userId ∪ old) !! "updatedBy" = Some (VStr userId) /\
  (statusUpdate status t userId ∪ old) !! "organizationId" = old !! "organizationId".
Proof.
  split; [| split].
  - apply lookup_union_Some_l. reflexivity.
  - apply lookup_union_Some_l. reflexivity.
  - apply lookup_union_r. reflexivity.
Qed.

(** X18.  [PUT /:id/status] always answers, and what it answers is
    decided by the status, the store and the lead.  A status that is not
    one of the five is answered 400 with nothing done.  A valid status is
    answered 200 when the store accepts the call and the lead exists: the
    lead is then the stored one with the new status, the time of the
    update and the name of the user who made it.  It is answered 500, with
    the store as it was, when the store refuses the call or has no such
    lead.  No other lead and no message is touched. *)
Theorem put_lead_status_outcome
  (env : Env) (w : World) (userId id : string) (status : value) :
  exists resp w',
    put_lead_status userId id status env w = (Ok resp, w') /\
    collection w' "messages" = collection w "messages" /\
    (forall id', id' <> id -> collection w' "leads" !! id' = collection w "leads" !! id') /\
    if valid_status status then
      match store_fault env (store_calls w), collection w "leads" !! id with
      | None, Some old =>
          resp = json (BodyMessage "Status updated successfully") /\
          exists d, collection w' "leads" !! id = Some d /\
            d = statusUpdate status (clock env (clock_reads w)) userId ∪ old /\
            d !! "status" = Some status /\ d !! "updatedBy" = Some (VStr userId)
      | _, _ =>
          resp = refuse 500 "Failed to update status" /\ store w' = store w
      end
    else resp = refuse 400 "Invalid status" /\ w' = w.
Proof.
  unfold put_lead_status, try_catch.
  destruct (valid_status status) eqn:Hv; cbn [negb].
  2:{ eexists _, _. split; [reflexivity |]. split; [done |]. by split. }
  unfold bind, newDate, db_update, log, ret. wproj. rewrite ?collection_clock_read.
  destruct (store_fault env (store_calls w)) as [e|].
  { eexists _, _. split; [reflexivity |]. wproj. split; [done |]. by split. }
  destruct (collection w "leads" !! id) as [old|] eqn:Hold.
  - eexists _, _. split; [reflexivity |].
    rewrite collection_put_doc_ne by done. autorewrite with world.
    split; [done |].
    split; [intros id' Hne; by rewrite lookup_insert_ne |].
    split; [done |].
    eexists. rewrite lookup_insert_eq. split; [reflexivity |]. split; [reflexivity |].
    destruct (statusUpdate_fields status (clock env (clock_reads w)) userId old) as (H1 & H2 & _).
    by split.
  - eexists _, _. split; [reflexivity |]. wproj. split; [done |]. by split.
Qed.

Lemma put_lead_status_outcome_witness :
  let lead : doc := fields [("organizationId", VStr "org1"); ("status", VStr "new")] in
  let w := put_doc "leads" "lead1" lead Example.empty_world in
  exists w' d,
    put_lead_status "user1" "lead1" (VStr "contacted") (Example.env [] [] []) w
      = (Ok (json (BodyMessage "Status updated successfully")), w') /\
    collection w' "leads" !! "lead1" = Some d /\
    d !! "status" = Some (VStr "contacted") /\
    d !! "updatedBy" = Some (VStr "user1") /\
    d !! "organizationId" = Some (VStr "org1").
Proof.
  intros lead w.
  destruct (put_lead_status_outcome (Example.env [] [] []) w "user1" "lead1" (VStr "contacted"))
    as (resp & w' & Hrun & _ & _ & H).
  change (valid_status (VStr "contacted")) with true in H.
  change (store_fault (Example.env [] [] []) (store_calls w)) with (@None string) in H.
  assert (Hl : collection w "leads" !! "lead1" = Some lead) by (vm_compute; reflexivity).
  rewrite Hl in H. destruct H as (-> & d & Hd & -> & Hst & Hby).
  exists w'. eexists. split; [exact Hrun |]. split; [exact Hd |].
  split; [exact Hst |]. split; [exact Hby |]. vm_compute. reflexivity.
Defined.

(** X19.  [GET /:id] only reads, and it never shows a lead of another
    organization: a lead that is sent is the stored one with its
    identifier, and its [organizationId] is the one attached to the
    request.  Whatever the answer, the store is as it was. *)
Theorem get_lead_outcome
  (env : Env) (w : World) (organizationId : option string) (id : string) :
  exists resp w',
    get_lead organizationId id env w = (Ok resp, w') /\
    store w' = store w /\
    forall lead, res_body resp = BodyLead lead ->
      res_status resp = 200 /\
      (exists data, collection w "leads" !! id = Some data /\
                    lead = data ∪ fields [("id", VStr id)]) /\
      other_organization (field lead "organizationId") organizationId = false.
Proof.
  unfold get_lead, try_catch, bind. rewrite db_get_run.
  destruct (store_fault env (store_calls w)) as [e|].
  { unfold log, ret. eexists _, _. split; [reflexivity |]. split; [done |]. intros l H.
    discriminate H. }
  destruct (collection w "leads" !! id) as [data|] eqn:Hd.
  2:{ unfold ret. eexists _, _. split; [reflexivity |]. split; [done |]. intros l H.
      discriminate H. }
  destruct (other_organization (field (data ∪ fields [("id", VStr id)]) "organizationId")
              organizationId) eqn:Ho; unfold ret; eexists _, _; (split; [reflexivity |]);
    (split; [done |]); intros l H; [discriminate H |].
  injection H as <-. split; [done |]. split; [by exists data | done].
Qed.

(** X20.  The status route does not ask whose lead it is.  For a stored
    lead of another organization than the one of the request, with the
    store answering, [GET /:id] answers 403, while [PUT /:id/status] with a
    valid status answers 200 and changes the lead, which stays with its
    organization. *)
Theorem put_lead_status_any_organization
  (env : Env) (w : World) (userId id s : string) (organizationId : option string)
  (old : doc) :
  In s validStatuses ->
  collection w "leads" !! id = Some old ->
  other_organization (field old "organizationId") organizationId = true ->
  store_fault env (store_calls w) = None ->
  (get_lead organizationId id env w).1 = Ok (refuse 403 "Access denied") /\
  exists w' d,
    put_lead_status userId id (VStr s) env w
      = (Ok (json (BodyMessage "Status updated successfully")), w') /\
    collection w' "leads" !! id = Some d /\
    d !! "status" = Some (VStr s) /\
    d !! "updatedBy" = Some (VStr userId) /\
    d !! "organizationId" = old !! "organizationId".
Proof.
  intros Hs Hold Ho Hf. split.
  - unfold get_lead, try_catch, bind. rewrite db_get_run, Hf, Hold.
    assert (Hfield : field (old ∪ fields [("id", VStr id)]) "organizationId"
                     = field old "organizationId").
    { unfold field. destruct (old !! "organizationId") as [v|] eqn:E.
      - by rewrite (lookup_union_Some_l _ _ _ _ E).
      - rewrite (lookup_union_r _ _ _ E). reflexivity. }
    by rewrite Hfield, Ho.
  - unfold put_lead_status, try_catch.
    rewrite (proj2 (valid_status_In (VStr s))) by (by exists s). cbn [negb].
    unfold bind, newDate, db_update, ret. wproj. rewrite ?collection_clock_read, Hf, Hold.
    eexists _, _. split; [reflexivity |]. autorewrite with world. rewrite lookup_insert_eq.
    split; [reflexivity |]. apply statusUpdate_fields.
Qed.

Lemma put_lead_status_any_organization_witness :
  let lead : doc := fields [("organizationId", VStr "org2"); ("status", VStr "new")] in
  let w := put_doc "leads" "lead1" lead Example.empty_world in
  (get_lead (Some "org1") "lead1" (Example.env [] [] []) w).1
    = Ok (refuse 403 "Access denied") /\
  exists w' d,
    put_lead_status "user1" "lead1" (VStr "lost") (Example.env [] [] []) w
      = (Ok (json (BodyMessage "Status updated successfully")), w') /\
    collection w' "leads" !! "lead1" = Some d /\
    d !! "status" = Some (VStr "lost").
Proof.
  intros lead w.
  destruct (put_lead_status_any_organization (Example.env [] [] []) w "user1" "lead1" "lost"
              (Some "org1") lead) as (Hget & w' & d & Hput & Hd & Hst & _).
  - vm_compute. auto 10.
  - vm_compute. reflexivity.
  - reflexivity.
  - reflexivity.
  - split; [exact Hget |]. by exists w', d.
Defined.

(** ** The authentication middleware *)

Lemma append_nil_r (s : string) : s +:+ EmptyString = s.
Proof.
  induction s as [|c s IH]; [reflexivity |].
  change (String c (s +:+ EmptyString) = String c s). by rewrite IH.
Qed.

Lemma split_aux_whole (separator s piece : string) :
  includes s separator = false -> split_aux separator s 0 piece = [piece +:+ s].
Proof.
  revert piece. induction s as [|c s IH]; intros piece H.
  - cbn [split_aux]. by rewrite append_nil_r.
  - cbn [includes] in H. apply orb_false_iff in H as [H1 H2].
    cbn [split_aux]. rewrite H1, (IH _ H2), append_assoc_s. reflexivity.
Qed.

(** X21.  A token comes back out of its header.  A header made of
    [Bearer ] and a token is accepted as carrying a token, and what
    [split] takes out of it is that token, provided the token does not
    itself contain [Bearer ]. *)
Theorem bearer_token_round_trip (token : string) :
  includes token "Bearer " = false ->
  has_bearer (Some ("Bearer " +:+ token)) = true /\
  idToken_of (Some ("Bearer " +:+ token)) = token.
Proof.
  intros H. split; [reflexivity |].
  unfold idToken_of, split. cbn [default].
  change (split_aux "Bearer " (id ("Bearer " +:+ token)) 0 EmptyString)
    with (EmptyString :: split_aux "Bearer " token 0 EmptyString).
  by rewrite (split_aux_whole _ _ _ H).
Qed.

Lemma bearer_token_round_trip_witness :
  idToken_of (Some "Bearer eyJhbGciOi.eyJ1aWQiOi.c2lnbmF0dXJl") = "eyJhbGciOi.eyJ1aWQiOi.c2lnbmF0dXJl".
Proof.
  exact (proj2 (bearer_token_round_trip "eyJhbGciOi.eyJ1aWQiOi.c2lnbmF0dXJl" eq_refl)).
Defined.

(** A token that contains [Bearer ] is cut there. *)
Example bearer_token_cut :
  idToken_of (Some "Bearer abcBearer def") = "abc".
Proof. reflexivity. Qed.

Lemma auth_failure_run code message env w :
  exists res,
    auth_failure code message env w
      = (Ok (Answer res), emit (EvLog LError ("Authentication error: " +:+ message)) w) /\
    res_status res = 401.
Proof.
  unfold auth_failure, bind, log, ret.
  destruct (bool_decide (code = Some "auth/id-token-expired"));
    [| destruct (bool_decide (code = Some "auth/invalid-id-token"))];
    eexists; split; reflexivity.
Qed.

(** What [authenticateUser] does, by cases. *)
Lemma authenticateUser_cases
  (verifyIdToken : Verifier) (req : Req) (env : Env) (w : World) :
  exists out w',
    authenticateUser verifyIdToken req env w = (Ok out, w') /\
    store w' = store w /\
    match out with
    | Next req' =>
        exists decodedToken userData,
          admissible verifyIdToken req env w decodedToken userData /\
          req' = attach req decodedToken userData
    | Answer res =>
        (res_status res = 401 \/ res_status res = 403 \/ res_status res = 404) /\
        ~ exists decodedToken userData, admissible verifyIdToken req env w decodedToken userData
    end.
Proof.
  unfold authenticateUser, admissible.
  destruct (has_bearer (rq_authorization req)) eqn:Hb; cbn [negb].
  2:{ eexists _, _. split; [reflexivity |]. split; [done |]. split; [by left |].
      intros (d & u & H & _). discriminate H. }
  destruct (verifyIdToken (idToken_of (rq_authorization req))) as [err|decoded] eqn:Hv.
  { destruct (auth_failure_run (Some (ae_code err)) (ae_message err) env w) as (res & -> & Hr).
    eexists _, _. split; [reflexivity |]. split; [done |]. split; [by left |].
    intros (d & u & _ & H & _). discriminate H. }
  unfold try_catch, bind. rewrite db_get_run.
  destruct (store_fault env (store_calls w)) as [e|] eqn:Hf.
  { destruct (auth_failure_run None e env (store_called w)) as (res & -> & Hr).
    eexists _, _. split; [reflexivity |]. split; [done |]. split; [by left |].
    intros (d & u & _ & _ & H & _). discriminate H. }
  destruct (collection w "users" !! dt_uid decoded) as [userData|] eqn:Hu.
  2:{ unfold ret. eexists _, _. split; [reflexivity |]. split; [done |].
      split; [by right; right |].
      intros (d & u & _ & [= <-] & _ & H & _). congruence. }
  destruct (truthy (field userData "isActive")) eqn:Ha; cbn [negb]; unfold ret.
  - eexists _, _. split; [reflexivity |]. split; [done |]. by exists decoded, userData.
  - eexists _, _. split; [reflexivity |]. split; [done |].
    split; [by right; left |].
    intros (d & u & _ & [= <-] & _ & H & Ha'). congruence.
Qed.

(** X22.  [authenticateUser] never throws and never writes to the store.
    It calls [next()] exactly when the request carries a bearer token that
    verifies, the store answers, and the user of the token is stored and
    active; the request then carries that user, the [uid] of the token and
    the organization of the stored user.  Every other request is answered
    401, 403 or 404. *)
Theorem authenticateUser_outcome
  (verifyIdToken : Verifier) (req : Req) (env : Env) (w : World) :
  exists out w',
    authenticateUser verifyIdToken req env w = (Ok out, w') /\
    store w' = store w /\
    match out with
    | Next req' =>
        exists decodedToken userData,
          admissible verifyIdToken req env w decodedToken userData /\
          req' = attach req decodedToken userData
    | Answer res =>
        (res_status res = 401 \/ res_status res = 403 \/ res_status res = 404) /\
        ~ exists decodedToken userData, admissible verifyIdToken req env w decodedToken userData
    end.
Proof. exact (authenticateUser_cases verifyIdToken req env w). Qed.

(** X23.  [optionalAuth] lets every request through, without a word in
    the log and without a write to the store, and it is at least as
    generous as [authenticateUser]: a request that passes there passes here
    with the same user attached, in the same final world. *)
Theorem optionalAuth_outcome
  (verifyIdToken : Verifier) (req : Req) (env : Env) (w : World) :
  exists req' w',
    optionalAuth verifyIdToken req env w = (Ok (Next req'), w') /\
    store w' = store w /\ trace w' = trace w /\
    forall req1 w1,
      authenticateUser verifyIdToken req env w = (Ok (Next req1), w1) ->
      req' = req1 /\ w' = w1.
Proof.
  unfold optionalAuth, authenticateUser.
  destruct (has_bearer (rq_authorization req)) eqn:Hb; cbn [negb].
  2:{ unfold ret. eexists _, _. split; [reflexivity |]. split; [done |]. split; [done |].
      intros r1 w1 H. discriminate H. }
  destruct (verifyIdToken (idToken_of (rq_authorization req))) as [err|decoded] eqn:Hv.
  { unfold ret. eexists _, _. split; [reflexivity |]. split; [done |]. split; [done |].
    intros r1 w1 H.
    destruct (auth_failure_run (Some (ae_code err)) (ae_message err) env w) as (res & E & _).
    rewrite E in H. discriminate H. }
  unfold try_catch, bind. rewrite db_get_run.
  destruct (store_fault env (store_calls w)) as [e|] eqn:Hf.
  { unfold ret. eexists _, _. split; [reflexivity |]. split; [done |]. split; [done |].
    intros r1 w1 H.
    destruct (auth_failure_run None e env (store_called w)) as (res & E & _).
    rewrite E in H. discriminate H. }
  destruct (collection w "users" !! dt_uid decoded) as [userData|] eqn:Hu; unfold ret.
  2:{ eexists _, _. split; [reflexivity |]. split; [done |]. split; [done |].
      intros r1 w1 H. discriminate H. }
  eexists _, _. split; [reflexivity |]. split; [done |]. split; [done |].
  intros r1 w1. destruct (truthy (field userData "isActive")); cbn [negb]; intros H.
  - by injection H as <- <-.
  - discriminate H.
Qed.

(** X24.  [optionalAuth] does not look at [isActive].  For a user whose
    account is deactivated, [authenticateUser] answers 403, but
    [optionalAuth] attaches the user to the request like any other. *)
Theorem optionalAuth_deactivated
  (verifyIdToken : Verifier) (req : Req) (env : Env) (w : World)
  (decodedToken : DecodedToken) (userData : doc) :
  has_bearer (rq_authorization req) = true ->
  verifyIdToken (idToken_of (rq_authorization req)) = inr decodedToken ->
  store_fault env (store_calls w) = None ->
  collection w "users" !! dt_uid decodedToken = Some userData ->
  truthy (field userData "isActive") = false ->
  authenticateUser verifyIdToken req env w
    = (Ok (Answer (refuse 403 "User account is deactivated")), store_called w) /\
  optionalAuth verifyIdToken req env w
    = (Ok (Next (attach req decodedToken userData)), store_called w).
Proof.
  intros Hb Hv Hf Hu Ha. unfold authenticateUser, optionalAuth.
  rewrite Hb, Hv. cbn [negb]. unfold try_catch, bind.
  rewrite db_get_run, Hf, Hu, Ha. by split.
Qed.

Lemma optionalAuth_deactivated_witness :
  let verify : Verifier :=
    fun token => inr {| dt_uid := "u1"; dt_email := VStr "ali@example.com" |} in
  let req := {| rq_authorization := Some "Bearer abc"; rq_user := None;
                rq_userId := None; rq_organizationId := VUndefined |} in
  let user : doc := fields [("isActive", VBool false); ("role", VStr "owner")] in
  let w := put_doc "users" "u1" user Example.empty_world in
  exists req',
    (optionalAuth verify req (Example.env [] [] []) w).1 = Ok (Next req') /\
    rq_userId req' = Some "u1".
Proof.
  intros verify req user w.
  destruct (optionalAuth_deactivated verify req (Example.env [] [] []) w
              {| dt_uid := "u1"; dt_email := VStr "ali@example.com" |} user) as [_ H].
  - reflexivity.
  - reflexivity.
  - reflexivity.
  - vm_compute. reflexivity.
  - reflexivity.
  - eexists. split; [exact (f_equal fst H) | reflexivity].
Defined.

(** X25.  After [authenticateUser], [authorizeRole] decides by the role of
    the stored user alone.  Behind a request that passed the
    authentication it never answers 401; it calls [next()] exactly when the
    stored [role] is a string among the allowed ones, and otherwise answers
    403.  With no role allowed nobody passes. *)
Theorem authorizeRole_after_authenticateUser
  (verifyIdToken : Verifier) (req req' : Req) (env : Env) (w w' : World)
  (allowedRoles : list string) :
  authenticateUser verifyIdToken req env w = (Ok (Next req'), w') ->
  exists userData,
    (exists decodedToken, collection w "users" !! dt_uid decodedToken = Some userData /\
                          rq_userId req' = Some (dt_uid decodedToken)) /\
    ((exists role, userData !! "role" = Some (VStr role) /\ In role allowedRoles) /\
     authorizeRole allowedRoles req' = Next req'
     \/
     (~ exists role, userData !! "role" = Some (VStr role) /\ In role allowedRoles) /\
     authorizeRole allowedRoles req'
       = Answer (refuse 403 ("Access denied. Required role: "
                             +:+ String.concat " or " allowedRoles))).
Proof.
  intros H.
  destruct (authenticateUser_cases verifyIdToken req env w) as (out & w1 & E & _ & Hout).
  rewrite E in H. injection H as -> ->.
  destruct Hout as (decoded & userData & (_ & _ & _ & Hu & _) & ->).
  exists userData. split; [by exists decoded |].
  unfold authorizeRole. cbn [rq_user attach].
  assert (Hrole : field (userData ∪ fields [("uid", VStr (dt_uid decoded));
                                            ("email", dt_email decoded)]) "role"
                  = field userData "role").
  { unfold field. destruct (userData !! "role") as [v|] eqn:Er.
    - by rewrite (lookup_union_Some_l _ _ _ _ Er).
    - rewrite (lookup_union_r _ _ _ Er). reflexivity. }
  rewrite Hrole. unfold field.
  destruct (userData !! "role") as [v|] eqn:Er; cbn [default].
  2:{ right. split; [| done]. by intros (role & [=] & _). }
  unfold id. destruct v; try (right; split; [by intros (role & [=] & _) | done]).
  destruct (arrayIncludes allowedRoles s) eqn:Hin.
  - left. split; [| done]. exists s. split; [done |]. by apply arrayIncludes_In.
  - right. split; [| done]. intros (role & [= <-] & Hr).
    apply arrayIncludes_In in Hr. congruence.
Qed.

Lemma authorizeRole_after_authenticateUser_witness :
  let verify : Verifier :=
    fun token => inr {| dt_uid := "u1"; dt_email := VStr "ali@example.com" |} in
  let req := {| rq_authorization := Some "Bearer abc"; rq_user := None;
                rq_userId := None; rq_organizationId := VUndefined |} in
  let user : doc := fields [("isActive", VBool true); ("role", VStr "staff")] in
  let w := put_doc "users" "u1" user Example.empty_world in
  exists req',
    (authenticateUser verify req (Example.env [] [] []) w).1 = Ok (Next req') /\
    authorizeRole ["owner"; "admin"] req'
      = Answer (refuse 403 "Access denied. Required role: owner or admin").
Proof.
  intros verify req user w.
  destruct (authenticateUser verify req (Example.env [] [] []) w) as [[[res|req']|e] w'] eqn:E;
    [vm_compute in E; discriminate E | | vm_compute in E; discriminate E].
  exists req'. split; [reflexivity |].
  destruct (authorizeRole_after_authenticateUser verify req req' (Example.env [] [] []) w w'
              ["owner"; "admin"] E) as (userData & _ & [[_ H] | [_ H]]).
  - exfalso. vm_compute in E. injection E as <- _. vm_compute in H. discriminate H.
  - exact H.
Defined.

(** ** The pipeline, forwards *)

(** The steps put together again: the converse of [pipeline_inv]. *)
Lemma pipeline_run messageData env w ir w1 er w2 ai w6 leadId w7 w8 :
  let content := md_content messageData in
  let language := ld_language (detectLanguage content) in
  classifyIntent content env (announced messageData w) = (Ok ir, w1) ->
  extractEntities content env w1 = (Ok er, w2) ->
  let w4 := clock_read (clock_read w2) in
  let data := newMessage messageData language (ir_intent ir) (er_entities er)
                (clock env (clock_reads w2)) (clock env (S (clock_reads w2))) in
  let id := auto_id env (store_calls w4) in
  store_fault env (store_calls w4) = None ->
  collection w4 "messages" !! id = None ->
  step5 content language (ir_intent ir) env (persisted id data w4) = (Ok ai, w6) ->
  step6 (md_organizationId messageData) id (er_entities er) (md_from messageData)
    (ir_intent ir) env w6 = (Ok leadId, w7) ->
  step7 messageData (ir_intent ir) (er_entities er) ai env w7 = (Ok tt, w8) ->
  let w10 := clock_read (clock_read w8) in
  let data' := completedUpdate ai leadId
                 (clock env (clock_reads w8)) (clock env (S (clock_reads w8))) in
  store_fault env (store_calls w10) = None ->
  pipeline messageData env w =
    (Ok {| pr_success := true; pr_messageId := id; pr_language := language;
           pr_intent := ir_intent ir; pr_entities := er_entities er;
           pr_response := ai; pr_leadId := leadId |},
     updated id data' data w10).
Proof.
  cbv zeta. intros E1 E2 Hf Hfresh E5 E6 E7 Hf'.
  unfold pipeline. cbv zeta.
  rewrite (bind_ok (log LInfo _) _ env w tt (announced messageData w) eq_refl).
  rewrite (bind_ok _ _ _ _ _ _ E1), (bind_ok _ _ _ _ _ _ E2).
  rewrite (bind_ok newDate _ env w2 _ _ eq_refl).
  rewrite (bind_ok newDate _ env (clock_read w2) _ _ eq_refl).
  rewrite (bind_ok _ _ _ _ _ _ (db_add_ok "messages" _ env _ Hf Hfresh)).
  assert (Hold : collection (clock_read (clock_read w8)) "messages"
                   !! auto_id env (store_calls (clock_read (clock_read w2)))
                 = Some (newMessage messageData
                           (ld_language (detectLanguage (md_content messageData)))
                           (ir_intent ir) (er_entities er)
                           (clock env (clock_reads w2)) (clock env (S (clock_reads w2))))).
  { pose proof (respects_run silent _ _ _ _ _ (step5_silent _ _ _) E5) as (_ & _ & _ & C6 & _).
    pose proof E6 as E6'. apply step6_frame in E6' as (_ & (C7 & _) & _).
    pose proof (step7_calls _ _ _ _ _ _ _ _ E7) as (_ & St & _).
    rewrite !collection_clock_read, (collection_same_store _ _ _ St), C7, C6.
    unfold persisted. rewrite collection_put_doc. apply lookup_insert_eq. }
  unfold step5 in E5. unfold step6 in E6. unfold step7 in E7.
  rewrite (bind_ok _ _ _ _ _ _ E5), (bind_ok _ _ _ _ _ _ E6), (bind_ok _ _ _ _ _ _ E7).
  rewrite (bind_ok newDate _ env w8 _ _ eq_refl).
  rewrite (bind_ok newDate _ env (clock_read w8) _ _ eq_refl).
  rewrite (bind_ok _ _ _ _ _ _ (db_update_ok "messages" _ _ _ env _ Hf' Hold)).
  reflexivity.
Qed.

(** X26.  A lead that cannot be stored does not stop the pipeline.  For a
    booking or an inquiry, with the AI answering and the store accepting
    the message and its final update but refusing the lead in between,
    [processMessage] returns with [success: true] and [leadId: null]; no
    lead is stored, the refusal is in the log, and the message is
    completed. *)
Theorem processMessage_lead_failure
  (env : Env) (w : World) (messageData : MessageData) (row : option Row) (e : error) :
  let content := md_content messageData in
  let intent := trim (toLowerCase (ai_or_default row)) in
  ai_up env ->
  ai_reply env (ai_calls w) (chat_row env (intent_prompt content) []) = inr row ->
  intent = "booking" \/ intent = "inquiry" ->
  store_fault env (store_calls w) = None ->
  collection w "messages" !! auto_id env (store_calls w) = None ->
  store_fault env (S (store_calls w)) = Some e ->
  store_fault env (S (S (store_calls w))) = None ->
  exists r w',
    processMessage messageData env w = (Ok r, w') /\
    pr_success r = true /\ pr_intent r = intent /\ pr_leadId r = VNull /\
    collection w' "leads" = collection w "leads" /\
    In (EvLog LError ("Lead creation error: " +:+ e)) (trace w') /\
    exists d, collection w' "messages" !! pr_messageId r = Some d /\
              d !! "processingStatus" = Some (VStr "completed") /\
              d !! "leadId" = Some VNull.
Proof.
  cbv zeta. intros Hai Hrow Hint Hf0 Hfresh Hf1 Hf2.
  (* steps 2 and 3 *)
  pose proof (classifyIntent_ok env (announced messageData w) _ _ Hrow) as E1.
  match type of E1 with _ = (Ok ?x, ?y) => set (ir := x) in *; set (w1 := y) in * end.
  assert (Hir : ir_intent ir = trim (toLowerCase (ai_or_default row))).
  { unfold ir. cbn [ir_intent]. by destruct Hint as [-> | ->]. }
  destruct (extractEntities_returns env w1 (md_content messageData) Hai) as (er & w2 & E2).
  pose proof (classifyIntent_calls _ _ _ _ _ E1) as K1.
  pose proof (extractEntities_calls _ _ _ _ _ E2) as K2.
  pose proof (respects_run silent _ _ _ _ _ (silent_classifyIntent _) E1) as (S1 & _).
  pose proof (respects_run silent _ _ _ _ _ (silent_extractEntities _) E2) as (S2 & _).
  set (w4 := clock_read (clock_read w2)).
  assert (N4 : store_calls w4 = store_calls w).
  { unfold calls, announced in *. change (store_calls w4) with (store_calls w2).
    revert K1 K2. wproj. lia. }
  assert (St4 : store w4 = store w).
  { change (store w4) with (store w2). rewrite S2, S1. reflexivity. }
  (* step 5 *)
  set (data := newMessage messageData (ld_language (detectLanguage (md_content messageData)))
                 (ir_intent ir) (er_entities er)
                 (clock env (clock_reads w2)) (clock env (S (clock_reads w2)))).
  set (mid := auto_id env (store_calls w4)).
  destruct (step5_returns env (persisted mid data w4) (md_content messageData)
              (ld_language (detectLanguage (md_content messageData))) (ir_intent ir) Hai)
    as (ai & w6 & E5).
  change (step5 (md_content messageData)
            (ld_language (detectLanguage (md_content messageData))) (ir_intent ir) env
            (persisted mid data w4) = (Ok ai, w6)) in E5.
  pose proof (step5_calls _ _ _ _ _ _ _ E5) as K5.
  pose proof (respects_run silent _ _ _ _ _ (step5_silent _ _ _) E5) as (S5 & _).
  (* step 6: the store refuses the lead *)
  assert (N6 : store_calls w6 = S (store_calls w)).
  { unfold calls, persisted in K5. revert K5. wproj. lia. }
  assert (E6 : step6 (md_organizationId messageData) mid (er_entities er)
                 (md_from messageData) (ir_intent ir) env w6
               = (Ok VNull,
                  emit (EvLog LError ("Lead creation error: " +:+ e))
                    (store_called
                       (emit (EvAdd "leads"
                                (leadData env (md_organizationId messageData) mid
                                   (er_entities er) (md_from messageData)
                                   (clock env (clock_reads w6))
                                   (clock env (S (clock_reads w6)))))
                          (clock_read (clock_read w6)))))).
  { unfold step6. rewrite Hir.
    assert (Hb : (String.eqb (trim (toLowerCase (ai_or_default row))) "booking"
                  || String.eqb (trim (toLowerCase (ai_or_default row))) "inquiry") = true)
      by (by destruct Hint as [-> | ->]).
    rewrite Hb. unfold bind at 1. rewrite createLeadFromMessage_run. cbv zeta.
    unfold db_add. change (store_calls (clock_read (clock_read w6))) with (store_calls w6).
    rewrite N6, Hf1. reflexivity. }
  match type of E6 with _ = (_, ?y) => set (w7 := y) in * end.
  (* step 7 *)
  destruct (step7 messageData (ir_intent ir) (er_entities er) ai env w7) as [r8 w8] eqn:E7.
  pose proof (step7_calls _ _ _ _ _ _ _ _ E7) as (-> & S7 & K7).
  assert (Htr8 : exists evs, trace w8 = trace w7 ++ evs).
  { destruct (sheet_step env w7 (md_organizationId messageData)
                (fun timestamp =>
                   [("timestamp", VDate timestamp);
                    ("from", VStr (md_from messageData));
                    ("channel", VStr (md_channelType messageData));
                    ("message", VStr (md_content messageData));
                    ("intent", VStr (ir_intent ir));
                    ("entities", VObj (er_entities er));
                    ("response", ai)])) as (w8' & E8' & _ & _ & evs & Ht & _).
    cbv beta in E8'. unfold step7 in E7. rewrite E8' in E7. injection E7 as <-.
    by exists evs. }
  assert (N10 : store_calls (clock_read (clock_read w8)) = S (S (store_calls w))).
  { change (store_calls (clock_read (clock_read w8))) with (store_calls w8).
    unfold calls in K7. destruct K7 as (_ & -> & _). unfold w7. wproj. lia. }
  (* the whole run *)
  assert (Hf4 : store_fault env (store_calls w4) = None) by (by rewrite N4).
  assert (Hfresh4 : collection w4 "messages" !! mid = None).
  { unfold mid. rewrite (collection_same_store _ _ _ St4), N4. exact Hfresh. }
  assert (Hf10 : store_fault env (store_calls (clock_read (clock_read w8))) = None)
    by (by rewrite N10).
  pose proof (pipeline_run messageData env w ir w1 er w2 ai w6 VNull w7 w8
                E1 E2 Hf4 Hfresh4 E5 E6 E7 Hf10) as Hrun.
  eexists _, _. split.
  { unfold processMessage, try_catch. rewrite Hrun. reflexivity. }
  cbn [pr_success pr_intent pr_leadId pr_messageId].
  split; [done |]. split; [exact Hir |]. split; [done |].
  split; [| split].
  - rewrite leads_updated, !collection_clock_read, (collection_same_store _ _ _ S7).
    unfold w7. rewrite collection_emit, collection_store_called, collection_emit,
      !collection_clock_read, (collection_same_store _ _ _ S5), leads_persisted.
    apply (collection_same_store _ _ _ St4).
  - unfold updated. wproj. apply in_or_app. left.
    change (In (EvLog LError ("Lead creation error: " +:+ e)) (trace w8)).
    destruct Htr8 as (evs & ->). apply in_or_app. left.
    unfold w7. wproj. apply in_or_app. right. simpl. auto.
  - unfold updated. rewrite collection_put_doc, lookup_insert_eq. eexists.
    split; [reflexivity |]. split; apply lookup_union_Some_l; reflexivity.
Qed.

Lemma processMessage_lead_failure_witness :
  exists r w',
    processMessage (Example.message None)
      (Example.env [Example.reply "Booking"; Example.reply "{}"] [None; Some "UNAVAILABLE"] [])
      Example.empty_world = (Ok r, w') /\
    pr_success r = true /\ pr_leadId r = VNull.
Proof.
  destruct (processMessage_lead_failure
              (Example.env [Example.reply "Booking"; Example.reply "{}"]
                 [None; Some "UNAVAILABLE"] [])
              Example.empty_world (Example.message None)
              (Some {| col_ID := Some "row"; col_AI := Some "Booking";
                       col_Step1_Understand := None; col_Step2_Fetch := None;
                       col_Step3_Draft := None; col_Step4_Refine := Some "Booking" |})
              "UNAVAILABLE")
    as (r & w' & Hrun & Hs & _ & Hl & _).
  - intros n req. destruct n as [|[|[|n]]]; eexists; reflexivity.
  - reflexivity.
  - left. reflexivity.
  - reflexivity.
  - reflexivity.
  - reflexivity.
  - reflexivity.
  - by exists r, w'.
Defined.

(** ** The recovery branch and the names of the documents *)

(** X27.  The recovery branch takes the identifier of the input for the
    name of a document.  When classifying or extracting throws and the
    messages happen to hold a document under that name, this document is
    the one marked as failed, whatever it was: its status and its error
    are overwritten, its other fields stay, and no other message
    changes. *)
Theorem processMessage_failure_marks_namesake
  (env : Env) (w : World) (messageData : MessageData) (e : error)
  (name : string) (old : doc) :
  steps_2_3_throw env w (md_content messageData) e ->
  md_messageId messageData = Some name -> nonempty name = true ->
  collection w "messages" !! name = Some old ->
  store_fault env (store_calls w) = None ->
  exists w' d,
    processMessage messageData env w = (Throw e, w') /\
    collection w' "messages" !! name = Some d /\
    d !! "processingStatus" = Some (VStr "failed") /\
    d !! "error" = Some (VStr e) /\
    (forall k, k <> "processingStatus" -> k <> "error" -> k <> "updatedAt" ->
               d !! k = old !! k) /\
    (forall id', id' <> name ->
       collection w' "messages" !! id' = collection w "messages" !! id').
Proof.
  intros Hai Hid Hne Hold Hf.
  destruct (pipeline_steps_2_3_throw _ _ _ _ Hai) as (w1 & E1 & Hs & Hn & _ & Hc & _).
  destruct (recovery_spec messageData e env w1) as (w' & E & _ & Hrec).
  rewrite Hid in Hrec. cbn [of_option truthy default] in Hrec. rewrite Hne in Hrec.
  cbv zeta in Hrec. unfold id in Hrec. destruct Hrec as (_ & Hother & Hsame).
  rewrite Hc in Hother. rewrite Hc, Hn in Hsame. specialize (Hsame old Hold Hf).
  eexists _, _. split; [| split; [exact Hsame |]].
  { unfold processMessage, try_catch. by rewrite E1. }
  split; [apply lookup_union_Some_l; reflexivity |].
  split; [apply lookup_union_Some_l; reflexivity |].
  split; [| exact Hother].
  intros k H1 H2 H3. apply lookup_union_r. unfold failedUpdate, fields.
  apply not_elem_of_list_to_map_1. cbn. intros Hin.
  repeat (apply elem_of_cons in Hin as [Hin | Hin]; [congruence |]).
  by apply elem_of_nil in Hin.
Qed.

Lemma processMessage_failure_marks_namesake_witness :
  exists w' d,
    processMessage (Example.message (Some "a"))
      (Example.env [inl "AI unavailable"] [] []) Example.stats_world
      = (Throw "AI unavailable", w') /\
    collection w' "messages" !! "a" = Some d /\
    d !! "processingStatus" = Some (VStr "failed").
Proof.
  destruct (processMessage_failure_marks_namesake
              (Example.env [inl "AI unavailable"] [] []) Example.stats_world
              (Example.message (Some "a")) "AI unavailable" "a"
              (Example.stored "org1" "completed" (JSDate.civil 2025 3 15 1 0)))
    as (w' & d & Hrun & Hd & Hst & _).
  - left. reflexivity.
  - reflexivity.
  - reflexivity.
  - vm_compute. reflexivity.
  - reflexivity.
  - by exists w', d.
Defined.
